(** * my-bookmarks: the identity store, the bookmark store and the cloud
    reconciliation layer of [app.js]

    [app.js] holds two applications.  The first one (classes [AuthManager],
    [FirebaseSyncManager], [BookmarkManager]) mirrors its data to a Firestore
    document; it is embedded in module [Firebase].  The second one (classes
    [SimpleAuthManager], [BookmarkManager]) only uses [localStorage]; it is
    embedded in module [Simple].

    Conventions of the embedding.
    - A [string] stands for a JavaScript string all of whose UTF-16 code
      units are below 256; one [ascii] is one code unit, so [String.length]
      is the [length] property.  Message literals are kept as the bytes of
      the source text and are only ever compared and returned.
    - A method is a function from the state before the call to its result
      and the state after it.  The values the platform hands to a method
      ([Date.now()], the identifier drawn by [generateId], the outcome of
      an awaited remote write) are explicit arguments.
    - [throw new Error(m)] is the result [Throw m].
    - [localStorage] is split by key: a fixed key is a field that holds
      the stored string or nothing, and a family of keys ([bookmarkData_...],
      [auth_...]) is a finite map from the real key to the value whose JSON
      text is stored.  Writes are total (no quota is modelled). *)

From Stdlib Require Import ZArith List Ascii String Bool Lia QArith.
From stdpp Require Import gmap strings list.

Local Open Scope string_scope.
Local Open Scope Z_scope.

(** ** JavaScript string and number primitives used by [app.js] *)
Module Js.

Definition code (c : ascii) : Z := Z.of_N (N_of_ascii c).

Definition in_range (lo hi : Z) (c : ascii) : bool :=
  (lo <=? code c) && (code c <=? hi).

(** [String.prototype.toLowerCase] on code units below 256: the letters
    A-Z and the Latin-1 capitals U+00C0-U+00DE (U+00D7 is the
    multiplication sign) move up by 32. *)
Definition lower_char (c : ascii) : ascii :=
  if in_range 65 90 c || (in_range 192 222 c && negb (code c =? 215))
  then ascii_of_N (N_of_ascii c + 32)
  else c.

Fixpoint toLowerCase (s : string) : string :=
  match s with
  | EmptyString => EmptyString
  | String c r => String (lower_char c) (toLowerCase r)
  end.

(** [s.startsWith(p)] *)
Fixpoint startsWith (p s : string) : bool :=
  match p, s with
  | EmptyString, _ => true
  | String a p', String b s' => if Ascii.eqb a b then startsWith p' s' else false
  | String _ _, EmptyString => false
  end.

(** [s.includes(p)] *)
Fixpoint includes (p s : string) : bool :=
  startsWith p s ||
  match s with
  | EmptyString => false
  | String _ s' => includes p s'
  end.

(** White space and line terminators among the code units below 256. *)
Definition is_white (c : ascii) : bool :=
  in_range 9 13 c || (code c =? 32) || (code c =? 160).

Fixpoint trimStart (s : string) : string :=
  match s with
  | EmptyString => EmptyString
  | String c r => if is_white c then trimStart r else s
  end.

Fixpoint trimEnd (s : string) : string :=
  match s with
  | EmptyString => EmptyString
  | String c r =>
      match trimEnd r with
      | EmptyString => if is_white c then EmptyString else String c EmptyString
      | r' => String c r'
      end
  end.

Definition trim (s : string) : string := trimEnd (trimStart s).

(** Truthiness of a string: only the empty string is falsy. *)
Definition truthy (s : string) : bool :=
  match s with EmptyString => false | String _ _ => true end.

(** [s.replace(/[^a-z0-9]/g, '_')] *)
Definition keep_alnum (c : ascii) : ascii :=
  if in_range 97 122 c || in_range 48 57 c then c else "_"%char.

Fixpoint replace_non_alnum (s : string) : string :=
  match s with
  | EmptyString => EmptyString
  | String c r => String (keep_alnum c) (replace_non_alnum r)
  end.

(** The decimal digits, and the strings made of them. *)
Definition is_digit (c : ascii) : bool := in_range 48 57 c.

Fixpoint all_digits (s : string) : bool :=
  match s with
  | EmptyString => true
  | String c r => is_digit c && all_digits r
  end.

(** [n.toString()] for an integer [n] (below 10^21 in absolute value,
    where JavaScript still prints all the digits). *)
Definition digit_char (d : Z) : ascii := ascii_of_N (Z.to_N (48 + d)).

Fixpoint digits_acc (fuel : nat) (n : Z) (acc : string) : string :=
  match fuel with
  | O => acc
  | S fuel' =>
      let acc' := String (digit_char (n mod 10)) acc in
      if n <? 10 then acc' else digits_acc fuel' (n / 10) acc'
  end.

Definition digits (n : Z) : string :=
  digits_acc (S (Z.to_nat (Z.log2 n))) n EmptyString.

Definition Number_toString (n : Z) : string :=
  if n <? 0 then String "-"%char (digits (- n)) else digits n.

(** [parseInt(s)] without a radix argument; [None] is [NaN].  Leading
    white space is skipped, one sign is read, a [0x] or [0X] prefix
    selects base 16, and the longest prefix of digits is the value (exact
    below 2^53). *)
Definition digit_value (radix : Z) (c : ascii) : option Z :=
  let v :=
    if in_range 48 57 c then code c - 48
    else if in_range 97 122 c then code c - 87
    else if in_range 65 90 c then code c - 55
    else 36 in
  if v <? radix then Some v else None.

Fixpoint read_digits (radix : Z) (s : string) (acc : option Z) : option Z :=
  match s with
  | EmptyString => acc
  | String c r =>
      match digit_value radix c with
      | Some v =>
          read_digits radix r
            (Some (match acc with Some a => a * radix + v | None => v end))
      | None => acc
      end
  end.

Definition read_unsigned (s : string) : option Z :=
  match s with
  | String "0" (String "x" r) => read_digits 16 r None
  | String "0" (String "X" r) => read_digits 16 r None
  | _ => read_digits 10 s None
  end.

Definition parseInt (s : string) : option Z :=
  match trimStart s with
  | String "-" r => option_map Z.opp (read_unsigned r)
  | String "+" r => read_unsigned r
  | r => read_unsigned r
  end.

End Js.

(** ** SHA-256 (FIPS 180-4), the digest [crypto.subtle.digest] computes *)
Module Sha256.

Definition w32 (x : Z) : Z := x mod 2 ^ 32.

Definition rotr (n x : Z) : Z :=
  Z.lor (Z.shiftr x n) (w32 (Z.shiftl x (32 - n))).

Definition xor3 (a b c : Z) : Z := Z.lxor (Z.lxor a b) c.

Definition Ch (x y z : Z) : Z :=
  Z.lxor (Z.land x y) (Z.land (Z.lxor x 0xffffffff) z).

Definition Maj (x y z : Z) : Z :=
  xor3 (Z.land x y) (Z.land x z) (Z.land y z).

Definition Sigma0 (x : Z) : Z := xor3 (rotr 2 x) (rotr 13 x) (rotr 22 x).
Definition Sigma1 (x : Z) : Z := xor3 (rotr 6 x) (rotr 11 x) (rotr 25 x).
Definition sigma0 (x : Z) : Z := xor3 (rotr 7 x) (rotr 18 x) (Z.shiftr x 3).
Definition sigma1 (x : Z) : Z := xor3 (rotr 17 x) (rotr 19 x) (Z.shiftr x 10).

(** The constants are defined as the standard defines them: the first 32
    bits of the fractional parts of the cube roots of the first 64 primes,
    and of the square roots of the first 8. *)
Definition is_prime (n : Z) : bool :=
  forallb (fun d => negb (n mod Z.of_nat d =? 0)) (seq 2 (Z.to_nat n - 2)).

Definition primes : list Z :=
  Eval vm_compute in List.filter is_prime (map Z.of_nat (seq 2 310)).

(** The integer cube root of [n], one bit after the other. *)
Fixpoint cube_root (bits : nat) (n r : Z) : Z :=
  match bits with
  | O => r
  | S b =>
      let c := r + 2 ^ Z.of_nat b in
      cube_root b n (if c * c * c <=? n then c else r)
  end.

Definition K : list Z :=
  Eval vm_compute in map (fun p => w32 (cube_root 36 (p * 2 ^ 96) 0)) (firstn 64 primes).

Definition H0 : list Z :=
  Eval vm_compute in map (fun p => w32 (Z.sqrt (p * 2 ^ 64))) (firstn 8 primes).

(** Big-endian bytes of a number, [n] of them. *)
Fixpoint be_bytes (n : nat) (x : Z) : list Z :=
  match n with
  | O => []
  | S n' => be_bytes n' (x / 256) ++ [x mod 256]
  end.

Definition be_word (bs : list Z) : Z :=
  fold_left (fun acc b => acc * 256 + b) bs 0.

(** The message, the byte 0x80, zero bytes up to 56 modulo 64, and the
    length in bits on eight bytes. *)
Definition pad (msg : list Z) : list Z :=
  let len := Z.of_nat (length msg) in
  let zeros := Z.to_nat ((55 - len) mod 64) in
  msg ++ [0x80] ++ repeat 0 zeros ++ be_bytes 8 (8 * len).

Fixpoint chunks (fuel size : nat) (l : list Z) : list (list Z) :=
  match fuel, l with
  | O, _ => []
  | _, [] => []
  | S fuel', _ => firstn size l :: chunks fuel' size (skipn size l)
  end.

Definition words (block : list Z) : list Z :=
  map be_word (chunks 16 4 block).

Definition at_back (w : list Z) (k : nat) : Z :=
  nth (length w - k) w 0.

Fixpoint schedule (n : nat) (w : list Z) : list Z :=
  match n with
  | O => w
  | S n' =>
      schedule n'
        (w ++ [w32 (sigma1 (at_back w 2) + at_back w 7
                    + sigma0 (at_back w 15) + at_back w 16)])
  end.

Record vars := Vars { va : Z; vb : Z; vc : Z; vd : Z; ve : Z; vf : Z; vg : Z; vh : Z }.

Definition round (v : vars) (kw : Z * Z) : vars :=
  let t1 := vh v + Sigma1 (ve v) + Ch (ve v) (vf v) (vg v) + fst kw + snd kw in
  let t2 := Sigma0 (va v) + Maj (va v) (vb v) (vc v) in
  Vars (w32 (t1 + t2)) (va v) (vb v) (vc v) (w32 (vd v + t1)) (ve v) (vf v) (vg v).

Definition vars_of (h : list Z) : vars :=
  Vars (nth 0 h 0) (nth 1 h 0) (nth 2 h 0) (nth 3 h 0)
       (nth 4 h 0) (nth 5 h 0) (nth 6 h 0) (nth 7 h 0).

Definition list_of (v : vars) : list Z :=
  [va v; vb v; vc v; vd v; ve v; vf v; vg v; vh v].

Definition compress (h : list Z) (block : list Z) : list Z :=
  let w := schedule 48 (words block) in
  let v := fold_left round (combine K w) (vars_of h) in
  map (fun p => w32 (fst p + snd p)) (combine h (list_of v)).

Definition digest (msg : list Z) : list Z :=
  let p := pad msg in
  let h := fold_left compress (chunks (length p) 64 p) H0 in
  flat_map (be_bytes 4) h.

End Sha256.

(** ** Results of methods and the state monad they run in *)

Inductive Result (A : Type) : Type :=
| Ok (value : A)
| Throw (message : string).
Arguments Ok {A} value.
Arguments Throw {A} message.

(** A method over a state of type [S] with a result of type [A]. *)
Definition M (S A : Type) : Type := S -> Result A * S.

Definition ret {S A} (a : A) : M S A := fun st => (Ok a, st).

Definition bind {S A B} (m : M S A) (k : A -> M S B) : M S B :=
  fun st =>
    match m st with
    | (Ok a, st') => k a st'
    | (Throw e, st') => (Throw e, st')
    end.

Definition throw {S A} (message : string) : M S A := fun st => (Throw message, st).

Definition gets {S A} (f : S -> A) : M S A := fun st => (Ok (f st), st).

Definition modify {S} (f : S -> S) : M S unit := fun st => (Ok tt, f st).

(** [try { m } catch (e) { h e }]: what [m] did to the state before it
    threw stays done. *)
Definition try_catch {S A} (m : M S A) (h : string -> M S A) : M S A :=
  fun st =>
    match m st with
    | (Ok a, st') => (Ok a, st')
    | (Throw e, st') => h e st'
    end.

(** [if (c) { m }] *)
Definition when {S} (c : bool) (m : M S unit) : M S unit :=
  if c then m else ret tt.

Declare Scope js_scope.
Delimit Scope js_scope with js.
Notation "x ← y ; z" := (bind y (fun x => z))
  (at level 20, y at level 100, z at level 200, only parsing) : js_scope.
Notation "x ;; z" := (bind x (fun _ => z))
  (at level 100, z at level 200, only parsing, right associativity) : js_scope.

(** ** The identity functions, textually the same in [AuthManager] and
    [SimpleAuthManager] *)
Module Identity.

(** [new TextEncoder().encode(s)]: UTF-8 of code units below 256. *)
Fixpoint encode (s : string) : list Z :=
  match s with
  | EmptyString => []
  | String c r =>
      let n := Js.code c in
      (if n <? 128 then [n] else [0xc0 + n / 64; 0x80 + n mod 64]) ++ encode r
  end.

Definition hex_digit (d : Z) : ascii :=
  ascii_of_N (Z.to_N (if d <? 10 then 48 + d else 87 + d)).

(** [b.toString(16)] for a byte [b]. *)
Definition toString16 (b : Z) : string :=
  if b <? 16 then String (hex_digit b) EmptyString
  else String (hex_digit (b / 16)) (String (hex_digit (b mod 16)) EmptyString).

(** [s.padStart(2, '0')] *)
Definition padStart2 (s : string) : string :=
  match s with
  | EmptyString => "00"
  | String c EmptyString => String "0" s
  | _ => s
  end.

Fixpoint join (l : list string) : string :=
  match l with
  | [] => EmptyString
  | x :: r => x ++ join r
  end.

(** [hashPassword], lines 7-14 and 1148-1155. *)
Definition hashPassword (password : string) : string :=
  let data := encode password in
  let hash := Sha256.digest data in
  join (map (fun b => padStart2 (toString16 b)) hash).

(** [generateUserId], lines 16-18 and 1157-1159. *)
Definition generateUserId (username : string) : string :=
  "user_" ++ Js.replace_non_alnum (Js.toLowerCase username).

End Identity.

(** ** The data model *)

Module Bookmark.
Record t : Type := Make { id : string; name : string; url : string; description : string }.
End Bookmark.

Module Category.
Record t : Type :=
  Make { id : string; name : string; color : string; bookmarks : list Bookmark.t }.
End Category.

#[local] Set Warnings "-register-all".

(** A value as [JSON.parse] returns it.  An object lists its own
    properties in order, each key once. *)
Inductive json : Type :=
| JNull
| JBool (b : bool)
| JNumber (q : Q)
| JString (s : string)
| JArray (items : list json)
| JObject (fields : list (string * json)).

(** A text handed to [JSON.parse], represented by what the parser makes
    of it. *)
Inductive Text : Type :=
| Malformed
| Denotes (value : json).

Module Json.

(** [v.key] for a key that is neither [length] nor an index: [None] is
    [undefined]; reading a property of [null] throws. *)
Definition lookup (key : string) (fields : list (string * json)) : option json :=
  option_map snd (find (fun kv => String.eqb (fst kv) key) fields).

Definition prop {S} (v : json) (key : string) : M S (option json) :=
  match v with
  | JNull => throw "TypeError: Cannot read properties of null"
  | JObject fields => ret (lookup key fields)
  | _ => ret None
  end.

(** Truthiness of a value or of [undefined]. *)
Definition truthy (v : option json) : bool :=
  match v with
  | None => false
  | Some JNull => false
  | Some (JBool b) => b
  | Some (JNumber q) => negb (Qnum q =? 0)
  | Some (JString s) => Js.truthy s
  | Some (JArray _) => true
  | Some (JObject _) => true
  end.

(** [l.every(f)]: stops at the first element on which [f] is falsy. *)
Fixpoint every {S} (f : json -> M S bool) (l : list json) : M S bool :=
  match l with
  | [] => ret true
  | x :: r => bind (f x) (fun b => if b then every f r else ret false)
  end.

Definition parse {S} (t : Text) : M S json :=
  match t with
  | Malformed => throw "SyntaxError: Unexpected token"
  | Denotes v => ret v
  end.

End Json.


(** ** Helpers on the tree shared by both [BookmarkManager] classes *)
Module Model.

(** [c => c.id === categoryId] *)
Definition is_category (categoryId : string) (c : Category.t) : bool :=
  String.eqb (Category.id c) categoryId.

(** [b => b.id === bookmarkId] *)
Definition is_bookmark (bookmarkId : string) (b : Bookmark.t) : bool :=
  String.eqb (Bookmark.id b) bookmarkId.

(** [l.findIndex(p)]; [None] is -1. *)
Fixpoint findIndex {A} (p : A -> bool) (l : list A) : option nat :=
  match l with
  | [] => None
  | x :: r => if p x then Some O else option_map S (findIndex p r)
  end.

(** An assignment through the reference [l.find(p)] returned: the first
    element on which [p] holds is changed in place. *)
Fixpoint update_found {A} (p : A -> bool) (f : A -> A) (l : list A) : list A :=
  match l with
  | [] => []
  | x :: r => if p x then f x :: r else x :: update_found p f r
  end.

Definition set_name_color (name color : string) (c : Category.t) : Category.t :=
  Category.Make (Category.id c) name color (Category.bookmarks c).

Definition set_bookmarks (bs : list Bookmark.t) (c : Category.t) : Category.t :=
  Category.Make (Category.id c) (Category.name c) (Category.color c) bs.

(** [description || ''] *)
Definition or_empty (description : string) : string :=
  if Js.truthy description then description else "".

End Model.

(** ** The application that mirrors to Firestore *)
Module Firebase.
Local Open Scope js_scope.

(** A document of the collection [users]. *)
Record UserDoc : Type :=
  { username : string; passwordHash : string; createdAt : Z }.

(** How an awaited remote write ends: it resolves, and [Date.now()] read
    after it gives [later], or it rejects with an error. *)
Inductive Settled : Type :=
| Resolved (later : Z)
| Rejected (message : string).

Section State.
Context {Tree : Type}.

(** A document of the collection [bookmarks]; [lastModified] may be
    missing from a document this program did not write. *)
Record BookmarksDoc : Type :=
  { doc_categories : Tree; lastModified : option Z }.

Record Firestore : Type :=
  { users : gmap string UserDoc; bookmarks : gmap string BookmarksDoc }.

(** Everything the three classes read and write.  The keys of
    [localStorage] are [currentUser], [userId], [lastLocalChange] and the
    keys [bookmarkData_...]; the last family is one map. *)
Record State : Type :=
  { currentUser : option string;          (* AuthManager.currentUser *)
    categories : Tree;                    (* BookmarkManager.categories *)
    userId : option string;               (* FirebaseSyncManager.userId *)
    syncEnabled : bool;
    lastSyncTime : option Z;
    unsubscribe : bool;                   (* a listener is attached *)
    ls_currentUser : option string;
    ls_userId : option string;
    ls_lastLocalChange : option string;
    ls_bookmarkData : gmap string Tree;
    firebaseDB : option Firestore;        (* window.firebaseDB *)
    issued : list (string * BookmarksDoc) (* writes of un-awaited uploads *) }.

Definition set_currentUser (v : option string) (st : State) : State :=
  {| currentUser := v; categories := categories st; userId := userId st;
     syncEnabled := syncEnabled st; lastSyncTime := lastSyncTime st;
     unsubscribe := unsubscribe st; ls_currentUser := ls_currentUser st;
     ls_userId := ls_userId st; ls_lastLocalChange := ls_lastLocalChange st;
     ls_bookmarkData := ls_bookmarkData st; firebaseDB := firebaseDB st;
     issued := issued st |}.

Definition set_categories (v : Tree) (st : State) : State :=
  {| currentUser := currentUser st; categories := v; userId := userId st;
     syncEnabled := syncEnabled st; lastSyncTime := lastSyncTime st;
     unsubscribe := unsubscribe st; ls_currentUser := ls_currentUser st;
     ls_userId := ls_userId st; ls_lastLocalChange := ls_lastLocalChange st;
     ls_bookmarkData := ls_bookmarkData st; firebaseDB := firebaseDB st;
     issued := issued st |}.

Definition set_userId (v : option string) (st : State) : State :=
  {| currentUser := currentUser st; categories := categories st; userId := v;
     syncEnabled := syncEnabled st; lastSyncTime := lastSyncTime st;
     unsubscribe := unsubscribe st; ls_currentUser := ls_currentUser st;
     ls_userId := ls_userId st; ls_lastLocalChange := ls_lastLocalChange st;
     ls_bookmarkData := ls_bookmarkData st; firebaseDB := firebaseDB st;
     issued := issued st |}.

Definition set_syncEnabled (v : bool) (st : State) : State :=
  {| currentUser := currentUser st; categories := categories st; userId := userId st;
     syncEnabled := v; lastSyncTime := lastSyncTime st;
     unsubscribe := unsubscribe st; ls_currentUser := ls_currentUser st;
     ls_userId := ls_userId st; ls_lastLocalChange := ls_lastLocalChange st;
     ls_bookmarkData := ls_bookmarkData st; firebaseDB := firebaseDB st;
     issued := issued st |}.

Definition set_lastSyncTime (v : option Z) (st : State) : State :=
  {| currentUser := currentUser st; categories := categories st; userId := userId st;
     syncEnabled := syncEnabled st; lastSyncTime := v;
     unsubscribe := unsubscribe st; ls_currentUser := ls_currentUser st;
     ls_userId := ls_userId st; ls_lastLocalChange := ls_lastLocalChange st;
     ls_bookmarkData := ls_bookmarkData st; firebaseDB := firebaseDB st;
     issued := issued st |}.

Definition set_unsubscribe (v : bool) (st : State) : State :=
  {| currentUser := currentUser st; categories := categories st; userId := userId st;
     syncEnabled := syncEnabled st; lastSyncTime := lastSyncTime st;
     unsubscribe := v; ls_currentUser := ls_currentUser st;
     ls_userId := ls_userId st; ls_lastLocalChange := ls_lastLocalChange st;
     ls_bookmarkData := ls_bookmarkData st; firebaseDB := firebaseDB st;
     issued := issued st |}.

Definition set_ls_currentUser (v : option string) (st : State) : State :=
  {| currentUser := currentUser st; categories := categories st; userId := userId st;
     syncEnabled := syncEnabled st; lastSyncTime := lastSyncTime st;
     unsubscribe := unsubscribe st; ls_currentUser := v;
     ls_userId := ls_userId st; ls_lastLocalChange := ls_lastLocalChange st;
     ls_bookmarkData := ls_bookmarkData st; firebaseDB := firebaseDB st;
     issued := issued st |}.

Definition set_ls_userId (v : option string) (st : State) : State :=
  {| currentUser := currentUser st; categories := categories st; userId := userId st;
     syncEnabled := syncEnabled st; lastSyncTime := lastSyncTime st;
     unsubscribe := unsubscribe st; ls_currentUser := ls_currentUser st;
     ls_userId := v; ls_lastLocalChange := ls_lastLocalChange st;
     ls_bookmarkData := ls_bookmarkData st; firebaseDB := firebaseDB st;
     issued := issued st |}.

Definition set_ls_lastLocalChange (v : option string) (st : State) : State :=
  {| currentUser := currentUser st; categories := categories st; userId := userId st;
     syncEnabled := syncEnabled st; lastSyncTime := lastSyncTime st;
     unsubscribe := unsubscribe st; ls_currentUser := ls_currentUser st;
     ls_userId := ls_userId st; ls_lastLocalChange := v;
     ls_bookmarkData := ls_bookmarkData st; firebaseDB := firebaseDB st;
     issued := issued st |}.

Definition set_ls_bookmarkData (v : gmap string Tree) (st : State) : State :=
  {| currentUser := currentUser st; categories := categories st; userId := userId st;
     syncEnabled := syncEnabled st; lastSyncTime := lastSyncTime st;
     unsubscribe := unsubscribe st; ls_currentUser := ls_currentUser st;
     ls_userId := ls_userId st; ls_lastLocalChange := ls_lastLocalChange st;
     ls_bookmarkData := v; firebaseDB := firebaseDB st;
     issued := issued st |}.

Definition set_firebaseDB (v : option Firestore) (st : State) : State :=
  {| currentUser := currentUser st; categories := categories st; userId := userId st;
     syncEnabled := syncEnabled st; lastSyncTime := lastSyncTime st;
     unsubscribe := unsubscribe st; ls_currentUser := ls_currentUser st;
     ls_userId := ls_userId st; ls_lastLocalChange := ls_lastLocalChange st;
     ls_bookmarkData := ls_bookmarkData st; firebaseDB := v;
     issued := issued st |}.

Definition set_issued (v : list (string * BookmarksDoc)) (st : State) : State :=
  {| currentUser := currentUser st; categories := categories st; userId := userId st;
     syncEnabled := syncEnabled st; lastSyncTime := lastSyncTime st;
     unsubscribe := unsubscribe st; ls_currentUser := ls_currentUser st;
     ls_userId := ls_userId st; ls_lastLocalChange := ls_lastLocalChange st;
     ls_bookmarkData := ls_bookmarkData st; firebaseDB := firebaseDB st;
     issued := v |}.

(** [firebaseSetDoc(firebaseDoc(db, 'users', id), doc)] *)
Definition setUserDoc (id : string) (doc : UserDoc) (db : Firestore) : Firestore :=
  {| users := <[id := doc]> (users db); bookmarks := bookmarks db |}.

(** [firebaseSetDoc(firebaseDoc(db, 'bookmarks', id), doc)] *)
Definition setBookmarksDoc (id : string) (doc : BookmarksDoc) (db : Firestore) : Firestore :=
  {| users := users db; bookmarks := <[id := doc]> (bookmarks db) |}.

(** *** class AuthManager *)

(** [register], lines 20-59; [now] is the [Date.now()] of [createdAt]. *)
Definition register (now : Z) (username password : string) : M State string :=
  when (negb (Js.truthy username) || negb (Js.truthy password))
    (throw "ユーザー名とパスワードを入力してください");;
  when (Z.of_nat (String.length username) <? 3)
    (throw "ユーザー名は3文字以上で入力してください");;
  when (Z.of_nat (String.length password) <? 4)
    (throw "パスワードは4文字以上で入力してください");;
  let userId := Identity.generateUserId username in
  let digest := Identity.hashPassword password in
  db ← gets firebaseDB;
  match db with
  | Some db =>
      match users db !! userId with
      | Some _ => throw "このユーザー名は既に使用されています"
      | None =>
          modify (set_firebaseDB (Some (setUserDoc userId
            {| username := username; passwordHash := digest; createdAt := now |} db)))
      end
  | None => ret tt
  end;;
  modify (set_ls_currentUser (Some username));;
  modify (set_ls_userId (Some userId));;
  modify (set_currentUser (Some username));;
  ret userId.

(** [login], lines 61-90. *)
Definition login (username password : string) : M State string :=
  when (negb (Js.truthy username) || negb (Js.truthy password))
    (throw "ユーザー名とパスワードを入力してください");;
  let userId := Identity.generateUserId username in
  let digest := Identity.hashPassword password in
  db ← gets firebaseDB;
  match db with
  | Some db =>
      match users db !! userId with
      | None => throw "ユーザー名またはパスワードが正しくありません"
      | Some userData =>
          when (negb (String.eqb (passwordHash userData) digest))
            (throw "ユーザー名またはパスワードが正しくありません")
      end
  | None => ret tt
  end;;
  modify (set_ls_currentUser (Some username));;
  modify (set_ls_userId (Some userId));;
  modify (set_currentUser (Some username));;
  ret userId.

(** [logout], lines 92-96. *)
Definition logout : M State unit :=
  modify (set_ls_currentUser None);;
  modify (set_currentUser None).

(** *** class FirebaseSyncManager *)

(** [!this.userId] *)
Definition no_userId (u : option string) : bool :=
  match u with
  | Some u => negb (Js.truthy u)
  | None => true
  end.

(** [!window.firebaseDB || !this.userId] *)
Definition not_ready (st : State) : bool :=
  match firebaseDB st with
  | Some _ => no_userId (userId st)
  | None => true
  end.

Definition setUserId (u : string) : M State unit := modify (set_userId (Some u)).

(** The document [uploadToCloud] writes. *)
Definition upload_doc (now : Z) (st : State) : BookmarksDoc :=
  {| doc_categories := categories st; lastModified := Some now |}.

(** [await this.uploadToCloud()], lines 144-159: [now] is the
    [Date.now()] put in the document and [outcome] is how [firebaseSetDoc]
    ends. *)
Definition uploadToCloud (now : Z) (outcome : Settled) : M State unit :=
  st ← gets (fun st => st);
  match firebaseDB st, userId st with
  | Some db, Some u =>
      if negb (Js.truthy u) then ret tt
      else
        try_catch
          (match outcome with
           | Resolved later =>
               modify (set_firebaseDB (Some (setBookmarksDoc u (upload_doc now st) db)));;
               modify (set_lastSyncTime (Some later))
           | Rejected error => throw error
           end)
          (fun error => throw error)
  | _, _ => ret tt
  end.

(** [this.syncManager.uploadToCloud()] without [await]: the call runs up
    to [firebaseSetDoc], which issues the write; what follows the [await]
    runs after the caller has returned. *)
Definition uploadToCloud_unawaited (now : Z) : M State unit :=
  st ← gets (fun st => st);
  match firebaseDB st, userId st with
  | Some db, Some u =>
      if negb (Js.truthy u) then ret tt
      else modify (set_issued (issued st ++ [(u, upload_doc now st)]))
  | _, _ => ret tt
  end.

(** [`bookmarkData_${userId}`]; [null] prints as [null]. *)
Definition bookmarkData_key (u : option string) : string :=
  "bookmarkData_" ++ match u with Some u => u | None => "null" end.

(** [BookmarkManager.saveData], lines 299-313.  One synchronous run
    reads one time, [now]. *)
Definition saveData (now : Z) : M State unit :=
  u ← gets ls_userId;
  st ← gets (fun st => st);
  modify (set_ls_bookmarkData (<[bookmarkData_key u := categories st]> (ls_bookmarkData st)));;
  modify (set_ls_lastLocalChange (Some (Js.Number_toString now)));;
  enabled ← gets syncEnabled;
  when enabled (uploadToCloud_unawaited now).

(** A number that may be missing: [data.lastModified || 0] turns a
    missing value (and 0) into 0, and [x <= this.lastSyncTime] compares
    with 0 while [lastSyncTime] is [null]. *)
Definition number_of (t : option Z) : Z :=
  match t with Some t => t | None => 0 end.

(** [x > y] where [y] may be [NaN]. *)
Definition gt_number (x : Z) (y : option Z) : bool :=
  match y with
  | Some y => y <? x
  | None => false
  end.

(** [localStorage.getItem('lastLocalChange') || '0'] *)
Definition lastLocalChange_or_0 (item : option string) : string :=
  match item with
  | Some s => if Js.truthy s then s else "0"
  | None => "0"
  end.

(** The time [saveData] last wrote under [lastLocalChange] is [t]; it is
    0 when nothing was written yet. *)
Definition recorded_lastLocalChange (t : Z) (st : State) : Prop :=
  match ls_lastLocalChange st with
  | Some s => s = Js.Number_toString t
  | None => t = 0
  end.

(** The callback [listenToChanges] hands to [firebaseOnSnapshot], lines
    183-202; [doc] is [None] when [doc.exists()] is false.  The calls into
    [window.ui] are left out. *)
Definition onSnapshot (now : Z) (doc : option BookmarksDoc) : M State unit :=
  match doc with
  | Some data =>
      let cloudTime := number_of (lastModified data) in
      last ← gets lastSyncTime;
      if cloudTime <=? number_of last then ret tt
      else
        item ← gets ls_lastLocalChange;
        let localTime := Js.parseInt (lastLocalChange_or_0 item) in
        when (gt_number cloudTime localTime)
          (modify (set_categories (doc_categories data));;
           saveData now)
  | None => ret tt
  end.

(** [listenToChanges], lines 179-203: the subscription itself. *)
Definition listenToChanges : M State unit :=
  st ← gets (fun st => st);
  if negb (bool_decide (is_Some (firebaseDB st))) || unsubscribe st || no_userId (userId st)
  then ret tt
  else modify (set_unsubscribe true).

(** [stopListening], lines 205-210. *)
Definition stopListening : M State unit :=
  attached ← gets unsubscribe;
  when attached (modify (set_unsubscribe false)).

(** [enableSync], lines 126-142. *)
Definition enableSync (now : Z) (outcome : Settled) : M State bool :=
  st ← gets (fun st => st);
  if not_ready st then ret false
  else
    try_catch
      (modify (set_syncEnabled true);;
       uploadToCloud now outcome;;
       listenToChanges;;
       ret true)
      (fun error =>
         modify (set_syncEnabled false);;
         ret false).

(** The state the constructors leave: [tree] is what the constructor of
    [BookmarkManager] loaded, [db] is [window.firebaseDB], and
    [localStorage] is empty. *)
Definition start (tree : Tree) (db : option Firestore) : State :=
  {| currentUser := None; categories := tree; userId := None;
     syncEnabled := false; lastSyncTime := None; unsubscribe := false;
     ls_currentUser := None; ls_userId := None; ls_lastLocalChange := None;
     ls_bookmarkData := ∅; firebaseDB := db; issued := [] |}.

(** A database without documents. *)
Definition no_documents : Firestore := {| users := ∅; bookmarks := ∅ |}.

(** The document of [users] the database holds for an identifier, if
    there is a database and it holds one. *)
Definition user_record (id : string) (st : State) : option UserDoc :=
  match firebaseDB st with
  | Some db => users db !! id
  | None => None
  end.

End State.

Arguments BookmarksDoc : clear implicits.
Arguments Firestore : clear implicits.
Arguments State : clear implicits.

(** *** The rest of [AuthManager] and of [FirebaseSyncManager], and
    [BookmarkManager.loadData] *)

(** How an awaited [firebaseGetDoc] ends: with a snapshot of the document,
    or with an error. *)
Inductive Fetch : Type :=
| Fetched
| FetchFailed (message : string).

Section Session.
Context {Tree : Type}.

(** [isLoggedIn], lines 98-105. *)
Definition isLoggedIn : M (State Tree) bool :=
  user ← gets ls_currentUser;
  match user with
  | Some user =>
      if Js.truthy user
      then modify (set_currentUser (Some user));; ret true
      else ret false
  | None => ret false
  end.

(** [getCurrentUser], lines 107-109; the result [None] is [null]. *)
Definition getCurrentUser : M (State Tree) (option string) :=
  st ← gets (fun st => st);
  match currentUser st with
  | Some user => if Js.truthy user then ret (Some user) else ret (ls_currentUser st)
  | None => ret (ls_currentUser st)
  end.

(** [downloadFromCloud], lines 161-177; the result [None] is [null]. *)
Definition downloadFromCloud (outcome : Fetch) : M (State Tree) (option Tree) :=
  st ← gets (fun st => st);
  match firebaseDB st, userId st with
  | Some db, Some u =>
      if negb (Js.truthy u) then ret None
      else
        try_catch
          (match outcome with
           | Fetched =>
               match bookmarks db !! u with
               | Some data => ret (Some (doc_categories data))
               | None => ret None
               end
           | FetchFailed error => throw error
           end)
          (fun error => ret None)
  | _, _ => ret None
  end.

(** [loadData], lines 288-297; the result [None] is [null]. *)
Definition loadData : M (State Tree) (option Tree) :=
  u ← gets ls_userId;
  stored ← gets ls_bookmarkData;
  ret (stored !! bookmarkData_key u).

End Session.

(** *** class BookmarkManager, on a tree of the data model *)

(** The normalisation of [url] in [addBookmark] and [updateBookmark]. *)
Definition normalize_url (url : string) : string :=
  if negb (Js.startsWith "http://" url) && negb (Js.startsWith "https://" url)
  then "https://" ++ url
  else url.

(** [addCategory], lines 315-325; [fresh] is what [generateId()]
    returns. *)
Definition addCategory (fresh : string) (now : Z) (name color : string)
  : M (State (list Category.t)) Category.t :=
  let category := Category.Make fresh name color [] in
  cats ← gets categories;
  modify (set_categories (cats ++ [category])%list);;
  saveData now;;
  ret category.

(** [updateCategory], lines 327-336. *)
Definition updateCategory (now : Z) (categoryId name color : string)
  : M (State (list Category.t)) bool :=
  cats ← gets categories;
  match find (Model.is_category categoryId) cats with
  | Some category =>
      modify (set_categories
        (Model.update_found (Model.is_category categoryId) (Model.set_name_color name color) cats));;
      saveData now;;
      ret true
  | None => ret false
  end.

(** [deleteCategory], lines 338-346. *)
Definition deleteCategory (now : Z) (categoryId : string)
  : M (State (list Category.t)) bool :=
  cats ← gets categories;
  match Model.findIndex (Model.is_category categoryId) cats with
  | Some index =>
      modify (set_categories (delete index cats));;
      saveData now;;
      ret true
  | None => ret false
  end.

(** [addBookmark], lines 348-367; the result [None] is [null]. *)
Definition addBookmark (fresh : string) (now : Z) (categoryId name url description : string)
  : M (State (list Category.t)) (option Bookmark.t) :=
  cats ← gets categories;
  match find (Model.is_category categoryId) cats with
  | Some category =>
      let url := normalize_url url in
      let bookmark := Bookmark.Make fresh name url (Model.or_empty description) in
      modify (set_categories
        (Model.update_found (Model.is_category categoryId)
           (fun c => Model.set_bookmarks (Category.bookmarks c ++ [bookmark])%list c) cats));;
      saveData now;;
      ret (Some bookmark)
  | None => ret None
  end.

(** [updateBookmark], lines 369-387. *)
Definition updateBookmark (now : Z) (categoryId bookmarkId name url description : string)
  : M (State (list Category.t)) bool :=
  cats ← gets categories;
  match find (Model.is_category categoryId) cats with
  | Some category =>
      match find (Model.is_bookmark bookmarkId) (Category.bookmarks category) with
      | Some bookmark =>
          let url := normalize_url url in
          modify (set_categories
            (Model.update_found (Model.is_category categoryId)
               (fun c => Model.set_bookmarks
                  (Model.update_found (Model.is_bookmark bookmarkId)
                     (fun b => Bookmark.Make (Bookmark.id b) name url (Model.or_empty description))
                     (Category.bookmarks c)) c) cats));;
          saveData now;;
          ret true
      | None => ret false
      end
  | None => ret false
  end.

(** [deleteBookmark], lines 389-400. *)
Definition deleteBookmark (now : Z) (categoryId bookmarkId : string)
  : M (State (list Category.t)) bool :=
  cats ← gets categories;
  match find (Model.is_category categoryId) cats with
  | Some category =>
      match Model.findIndex (Model.is_bookmark bookmarkId) (Category.bookmarks category) with
      | Some index =>
          modify (set_categories
            (Model.update_found (Model.is_category categoryId)
               (fun c => Model.set_bookmarks (delete index (Category.bookmarks c)) c) cats));;
          saveData now;;
          ret true
      | None => ret false
      end
  | None => ret false
  end.

(** The predicate [searchBookmarks] filters bookmarks with. *)
Definition hit (lowerQuery : string) (bookmark : Bookmark.t) : bool :=
  Js.includes lowerQuery (Js.toLowerCase (Bookmark.name bookmark))
  || Js.includes lowerQuery (Js.toLowerCase (Bookmark.url bookmark))
  || (Js.truthy (Bookmark.description bookmark)
      && Js.includes lowerQuery (Js.toLowerCase (Bookmark.description bookmark))).

(** [searchBookmarks], lines 402-414. *)
Definition searchBookmarks (query : string)
  : M (State (list Category.t)) (list Category.t) :=
  cats ← gets categories;
  if negb (Js.truthy (Js.trim query)) then ret cats
  else
    let lowerQuery := Js.toLowerCase query in
    ret (List.filter (fun category => (0 <? length (Category.bookmarks category))%nat)
           (map (fun category =>
                   Model.set_bookmarks (List.filter (hit lowerQuery) (Category.bookmarks category))
                     category)
              cats)).

(** A call of one of the methods that change the tree. *)
Inductive Op : Type :=
| AddCategory (fresh name color : string)
| UpdateCategory (categoryId name color : string)
| DeleteCategory (categoryId : string)
| AddBookmark (fresh categoryId name url description : string)
| UpdateBookmark (categoryId bookmarkId name url description : string)
| DeleteBookmark (categoryId bookmarkId : string).

(** The state the call leaves. *)
Definition perform (now : Z) (op : Op) (st : State (list Category.t))
  : State (list Category.t) :=
  match op with
  | AddCategory fresh name color => snd (addCategory fresh now name color st)
  | UpdateCategory categoryId name color => snd (updateCategory now categoryId name color st)
  | DeleteCategory categoryId => snd (deleteCategory now categoryId st)
  | AddBookmark fresh categoryId name url description =>
      snd (addBookmark fresh now categoryId name url description st)
  | UpdateBookmark categoryId bookmarkId name url description =>
      snd (updateBookmark now categoryId bookmarkId name url description st)
  | DeleteBookmark categoryId bookmarkId => snd (deleteBookmark now categoryId bookmarkId st)
  end.

(** *** [BookmarkManager.importData]: the tree is whatever [JSON.parse]
    returned *)

(** [cat => cat.name && cat.bookmarks] *)
Definition has_name_and_bookmarks {S} (cat : json) : M S bool :=
  name ← Json.prop cat "name";
  if Json.truthy name
  then bookmarks ← Json.prop cat "bookmarks"; ret (Json.truthy bookmarks)
  else ret false.

(** [importData], lines 427-440. *)
Definition importData (now : Z) (jsonData : Text) : M (State json) bool :=
  try_catch
    (data ← Json.parse jsonData;
     ok ← match data with
          | JArray items => Json.every has_name_and_bookmarks items
          | _ => ret false
          end;
     if ok : bool
     then modify (set_categories data);; saveData now;; ret true
     else ret false)
    (fun error => ret false).

(** *** The rest of [BookmarkManager] and of [FirebaseSyncManager], and
    the reordering of [UIManager] *)

(** [syncNow], lines 212-230; [merge] is the answer to [confirm], which is
    asked only when the cloud holds a non-empty tree. *)
Definition syncNow (now : Z) (fetch : Fetch) (merge : bool) (outcome : Settled)
  : M (State (list Category.t)) bool :=
  enabled ← gets syncEnabled;
  if negb enabled
  then
    cloudData ← downloadFromCloud fetch;
    match cloudData with
    | Some ((_ :: _) as cloudData) =>
        when merge (modify (set_categories cloudData);; saveData now)
    | _ => ret tt
    end;;
    enableSync now outcome;;
    ret true
  else
    uploadToCloud now outcome;;
    ret true.

(** [getStats], lines 442-446. *)
Record Stats : Type := { categoryCount : nat; bookmarkCount : nat }.

Definition getStats : M (State (list Category.t)) Stats :=
  cats ← gets categories;
  ret {| categoryCount := length cats;
         bookmarkCount :=
           fold_left (fun sum cat => (sum + length (Category.bookmarks cat))%nat) cats 0%nat |}.

(** What [JSON.parse] makes of the text [JSON.stringify] writes for a
    bookmark and for a category: the properties in the order in which
    [addBookmark] and [addCategory] create them. *)
Definition bookmark_json (b : Bookmark.t) : json :=
  JObject
    [("id", JString (Bookmark.id b)); ("name", JString (Bookmark.name b));
     ("url", JString (Bookmark.url b)); ("description", JString (Bookmark.description b))].

Definition category_json (c : Category.t) : json :=
  JObject
    [("id", JString (Category.id c)); ("name", JString (Category.name c));
     ("color", JString (Category.color c));
     ("bookmarks", JArray (map bookmark_json (Category.bookmarks c)))].

(** [exportData], lines 416-425: the text put in the file; the download
    itself is left out. *)
Definition exportData : M (State (list Category.t)) Text :=
  cats ← gets categories;
  ret (Denotes (JArray (map category_json cats))).

(** [l.splice(j, 0, x)]; a [j] beyond the end inserts at the end. *)
Definition splice_in {A} (j : nat) (x : A) (l : list A) : list A :=
  (take j l ++ x :: drop j l)%list.

(** The two [splice] calls of [handleCategoryDrop] (lines 1067-1070) and
    of [handleBookmarkDrop] (lines 1101-1103) on an array [l]: the element
    at [i] is taken out and put back at [j].  [undefined] is what [l[i]]
    is when [i] is beyond the end. *)
Definition move {A} (undefined : A) (i j : nat) (l : list A) : list A :=
  let dragged := nth i l undefined in
  splice_in j dragged (delete i l).

(** The array [handleCategoryDrop] leaves (lines 1062-1076);
    [draggedCategoryIndex] is the field [handleCategoryDragStart] set. *)
Definition dropCategory {A} (undefined : A) (draggedCategoryIndex : option nat)
    (targetIndex : nat) (categories : list A) : list A :=
  match draggedCategoryIndex with
  | Some i =>
      if negb (i =? targetIndex)%nat then move undefined i targetIndex categories
      else categories
  | None => categories
  end.

(** The tree [handleBookmarkDrop] leaves (lines 1092-1111);
    [draggedBookmark] is the field [handleBookmarkDragStart] set. *)
Definition dropBookmark (undefined : Bookmark.t) (draggedBookmark : option (string * nat))
    (categoryId : string) (targetIndex : nat) (cats : list Category.t) : list Category.t :=
  match draggedBookmark with
  | Some (sourceId, sourceIndex) =>
      if String.eqb sourceId categoryId && negb (sourceIndex =? targetIndex)%nat
      then
        Model.update_found (Model.is_category categoryId)
          (fun c =>
             Model.set_bookmarks
               (move undefined sourceIndex targetIndex (Category.bookmarks c)) c)
          cats
      else cats
  | None => cats
  end.

End Firebase.

(** ** The application that only uses [localStorage] *)
Module Simple.
Local Open Scope js_scope.

(** What [register] stores under [auth_...]. *)
Record UserData : Type :=
  { username : string; passwordHash : string; createdAt : Z }.

Section State.
Context {Data : Type}.

(** The keys of [localStorage] are [currentUserId], the keys [auth_...]
    and the keys [bookmarkData_...]; each family is one map. *)
Record State : Type :=
  { currentUser : option string;        (* SimpleAuthManager.currentUser *)
    data : Data;                        (* BookmarkManager.data *)
    ls_currentUserId : option string;
    ls_auth : gmap string UserData;
    ls_bookmarkData : gmap string Data }.

Definition set_currentUser (v : option string) (st : State) : State :=
  {| currentUser := v; data := data st; ls_currentUserId := ls_currentUserId st;
     ls_auth := ls_auth st; ls_bookmarkData := ls_bookmarkData st |}.

Definition set_data (v : Data) (st : State) : State :=
  {| currentUser := currentUser st; data := v; ls_currentUserId := ls_currentUserId st;
     ls_auth := ls_auth st; ls_bookmarkData := ls_bookmarkData st |}.

Definition set_ls_currentUserId (v : option string) (st : State) : State :=
  {| currentUser := currentUser st; data := data st; ls_currentUserId := v;
     ls_auth := ls_auth st; ls_bookmarkData := ls_bookmarkData st |}.

Definition set_ls_auth (v : gmap string UserData) (st : State) : State :=
  {| currentUser := currentUser st; data := data st; ls_currentUserId := ls_currentUserId st;
     ls_auth := v; ls_bookmarkData := ls_bookmarkData st |}.

Definition set_ls_bookmarkData (v : gmap string Data) (st : State) : State :=
  {| currentUser := currentUser st; data := data st; ls_currentUserId := ls_currentUserId st;
     ls_auth := ls_auth st; ls_bookmarkData := v |}.

(** [`auth_${userId}`] *)
Definition auth_key (userId : string) : string := "auth_" ++ userId.

(** *** class SimpleAuthManager *)

(** [register], lines 1161-1195. *)
Definition register (now : Z) (username password : string) : M State bool :=
  when (negb (Js.truthy username) || negb (Js.truthy password))
    (throw "ユーザー名とパスワードを入力してください");;
  when (Z.of_nat (String.length username) <? 3)
    (throw "ユーザー名は3文字以上で入力してください");;
  when (Z.of_nat (String.length password) <? 4)
    (throw "パスワードは4文字以上で入力してください");;
  let userId := Identity.generateUserId username in
  let digest := Identity.hashPassword password in
  auth ← gets ls_auth;
  match auth !! auth_key userId with
  | Some existingUser => throw "このユーザー名は既に使用されています"
  | None =>
      let userData := {| username := username; passwordHash := digest; createdAt := now |} in
      modify (set_ls_auth (<[auth_key userId := userData]> auth));;
      modify (set_ls_currentUserId (Some userId));;
      modify (set_currentUser (Some username));;
      ret true
  end.

(** [login], lines 1197-1220. *)
Definition login (username password : string) : M State bool :=
  when (negb (Js.truthy username) || negb (Js.truthy password))
    (throw "ユーザー名とパスワードを入力してください");;
  let userId := Identity.generateUserId username in
  auth ← gets ls_auth;
  match auth !! auth_key userId with
  | None => throw "ユーザー名またはパスワードが間違っています"
  | Some userData =>
      let digest := Identity.hashPassword password in
      when (negb (String.eqb digest (passwordHash userData)))
        (throw "ユーザー名またはパスワードが間違っています");;
      modify (set_ls_currentUserId (Some userId));;
      modify (set_currentUser (Some username));;
      ret true
  end.

(** [logout], lines 1222-1225. *)
Definition logout : M State unit :=
  modify (set_ls_currentUserId None);;
  modify (set_currentUser None).

(** *** class BookmarkManager *)

(** [saveData], lines 1304-1309. *)
Definition saveData : M State unit :=
  st ← gets (fun st => st);
  match ls_currentUserId st with
  | Some userId =>
      if negb (Js.truthy userId) then ret tt
      else modify (set_ls_bookmarkData
             (<["bookmarkData_" ++ userId := data st]> (ls_bookmarkData st)))
  | None => ret tt
  end.

(** The state the constructors leave on an empty [localStorage]. *)
Definition start (d : Data) : State :=
  {| currentUser := None; data := d; ls_currentUserId := None;
     ls_auth := ∅; ls_bookmarkData := ∅ |}.

End State.

Arguments State : clear implicits.

(** [this.data] of the data model: [{ categories: [...] }]. *)
Record Data : Type := { categories : list Category.t }.

(** [addBookmark], lines 1339-1352; [fresh] is what [generateId()]
    returns; the result [None] is [undefined]. *)
Definition addBookmark (fresh : string) (categoryId name url description : string)
  : M (State Data) (option Bookmark.t) :=
  cats ← gets (fun st => categories (data st));
  match find (Model.is_category categoryId) cats with
  | Some category =>
      let bookmark := Bookmark.Make fresh name url (Model.or_empty description) in
      modify (set_data
        {| categories :=
             Model.update_found (Model.is_category categoryId)
               (fun c => Model.set_bookmarks (Category.bookmarks c ++ [bookmark])%list c)
               cats |});;
      saveData;;
      ret (Some bookmark)
  | None => ret None
  end.

(** [importData], lines 1387-1401; it receives what the caller's
    [JSON.parse] returned. *)
Definition importData (jsonData : json) : M (State json) bool :=
  try_catch
    (match jsonData with
     | JArray _ => modify (set_data (JObject [("categories", jsonData)]))
     | _ => modify (set_data jsonData)
     end;;
     saveData;;
     ret true)
    (fun e => ret false).

(** *** The rest of [SimpleAuthManager] and of [BookmarkManager] *)

Section Session.
Context {Data : Type}.

(** [isLoggedIn], lines 1227-1238. *)
Definition isLoggedIn : M (State Data) bool :=
  st ← gets (fun st => st);
  match ls_currentUserId st with
  | Some userId =>
      if Js.truthy userId
      then
        match ls_auth st !! auth_key userId with
        | Some userData => modify (set_currentUser (Some (username userData)));; ret true
        | None => ret false
        end
      else ret false
  | None => ret false
  end.

(** [getCurrentUserId], lines 1240-1242. *)
Definition getCurrentUserId : M (State Data) (option string) := gets ls_currentUserId.

End Session.

(** The default data of [loadData]; the identifiers are what the four
    calls of [generateId] return. *)
Definition defaultData (id1 id2 id3 id4 : string) : Data :=
  {| categories :=
       [Category.Make id1 "趣味" "#4CAF50"
          [Bookmark.Make id2 "YouTube" "https://www.youtube.com" "動画サイト"];
        Category.Make id3 "プライベート" "#2196F3"
          [Bookmark.Make id4 "Gmail" "https://mail.google.com" "メール"]] |}.

(** [loadData], lines 1256-1302.  A stored text always parses here, so
    the [catch] branch is never taken. *)
Definition loadData (id1 id2 id3 id4 : string) : M (State Data) unit :=
  st ← gets (fun st => st);
  match ls_currentUserId st with
  | Some userId =>
      if negb (Js.truthy userId) then ret tt
      else
        match ls_bookmarkData st !! ("bookmarkData_" ++ userId) with
        | Some stored => modify (set_data stored)
        | None => modify (set_data (defaultData id1 id2 id3 id4))
        end;;
        saveData
  | None => ret tt
  end.

(** [color || '#4CAF50'] *)
Definition or_green (color : string) : string :=
  if Js.truthy color then color else "#4CAF50".

(** [addCategory], lines 1312-1322. *)
Definition addCategory (fresh name color : string) : M (State Data) Category.t :=
  let category := Category.Make fresh name (or_green color) [] in
  cats ← gets (fun st => categories (data st));
  modify (set_data {| categories := (cats ++ [category])%list |});;
  saveData;;
  ret category.

(** [updateCategory], lines 1324-1331. *)
Definition updateCategory (categoryId name color : string) : M (State Data) unit :=
  cats ← gets (fun st => categories (data st));
  match find (Model.is_category categoryId) cats with
  | Some category =>
      modify (set_data
        {| categories :=
             Model.update_found (Model.is_category categoryId)
               (Model.set_name_color name color) cats |});;
      saveData
  | None => ret tt
  end.

(** [deleteCategory], lines 1333-1336. *)
Definition deleteCategory (categoryId : string) : M (State Data) unit :=
  cats ← gets (fun st => categories (data st));
  modify (set_data
    {| categories := List.filter (fun c => negb (Model.is_category categoryId c)) cats |});;
  saveData.

(** [updateBookmark], lines 1354-1365. *)
Definition updateBookmark (categoryId bookmarkId name url description : string)
  : M (State Data) unit :=
  cats ← gets (fun st => categories (data st));
  match find (Model.is_category categoryId) cats with
  | Some category =>
      match find (Model.is_bookmark bookmarkId) (Category.bookmarks category) with
      | Some bookmark =>
          modify (set_data
            {| categories :=
                 Model.update_found (Model.is_category categoryId)
                   (fun c => Model.set_bookmarks
                      (Model.update_found (Model.is_bookmark bookmarkId)
                         (fun b => Bookmark.Make (Bookmark.id b) name url
                                     (Model.or_empty description))
                         (Category.bookmarks c)) c) cats |});;
          saveData
      | None => ret tt
      end
  | None => ret tt
  end.

(** [deleteBookmark], lines 1367-1373. *)
Definition deleteBookmark (categoryId bookmarkId : string) : M (State Data) unit :=
  cats ← gets (fun st => categories (data st));
  match find (Model.is_category categoryId) cats with
  | Some category =>
      modify (set_data
        {| categories :=
             Model.update_found (Model.is_category categoryId)
               (fun c => Model.set_bookmarks
                  (List.filter (fun b => negb (Model.is_bookmark bookmarkId b))
                     (Category.bookmarks c)) c) cats |});;
      saveData
  | None => ret tt
  end.

End Simple.

(** ** Sample sessions *)
Module Examples.

Definition hobby : Category.t :=
  Category.Make "c1" "Hobby" "#4CAF50"
    [Bookmark.Make "b1" "YouTube" "https://www.youtube.com" "Video sharing";
     Bookmark.Make "b2" "Netflix" "https://www.netflix.com" "Streaming"].

Definition work : Category.t :=
  Category.Make "c2" "Work" "#FF5722"
    [Bookmark.Make "b3" "Slack" "https://slack.com" "Team chat"].

Definition tree : list Category.t := [hobby; work].

(** A session of the first application with a database without documents. *)
Definition online : Firebase.State (list Category.t) :=
  Firebase.start tree (Some Firebase.no_documents).

(** A session of the first application without [window.firebaseDB]. *)
Definition offline : Firebase.State (list Category.t) :=
  Firebase.start tree None.

(** The same after [register("Alice", "secret")]. *)
Definition alice_online : Firebase.State (list Category.t) :=
  snd (Firebase.register 1730556000000 "Alice" "secret" online).

Definition simple : Simple.State Simple.Data :=
  Simple.start {| Simple.categories := tree |}.

(** The same after [setUserId], as [handleLogin] does next. *)
Definition alice_ready : Firebase.State (list Category.t) :=
  snd (Firebase.setUserId (Identity.generateUserId "Alice") alice_online).

(** The same after a first successful [enableSync]. *)
Definition alice_syncing : Firebase.State (list Category.t) :=
  snd (Firebase.enableSync 1730556001000 (Firebase.Resolved 1730556001200) alice_ready).

(** A document another session wrote. *)
Definition remote_doc : Firebase.BookmarksDoc (list Category.t) :=
  {| Firebase.doc_categories := [work]; Firebase.lastModified := Some 1730556009000 |}.

(** The same after a local edit, which records [lastLocalChange]. *)
Definition alice_edited : Firebase.State (list Category.t) :=
  snd (Firebase.addCategory "c3" 1730556005000 "Study" "#9C27B0" alice_syncing).

(** Sessions whose tree is the raw value, as [importData] sees it. *)
Definition importing : Firebase.State json :=
  Firebase.start (JArray []) (Some Firebase.no_documents).

Definition importing_simple : Simple.State json :=
  Simple.start (JObject [("categories", JArray [])]).

(** An exported category, as [JSON.parse] returns it. *)
Definition hobby_json : json :=
  JObject
    [("id", JString "c1"); ("name", JString "Hobby"); ("color", JString "#4CAF50");
     ("bookmarks",
      JArray
        [JObject
           [("id", JString "b1"); ("name", JString "YouTube");
            ("url", JString "https://www.youtube.com");
            ("description", JString "Video sharing")]])].

Definition alice_simple : Simple.State Simple.Data :=
  snd (Simple.register 1730556000000 "Alice" "secret" simple).

(** The database [alice_syncing] left: Alice's record and her tree. *)
Definition cloud_db : Firebase.Firestore (list Category.t) :=
  match Firebase.firebaseDB alice_syncing with
  | Some db => db
  | None => Firebase.no_documents
  end.

(** Alice in a second browser, whose [localStorage] is empty and whose
    tree is another one: after [login] and [setUserId]. *)
Definition alice_elsewhere : Firebase.State (list Category.t) :=
  snd (Firebase.setUserId (Identity.generateUserId "Alice")
         (snd (Firebase.login "Alice" "secret" (Firebase.start [work] (Some cloud_db))))).

End Examples.

(** ** Vocabulary of the specification *)
Module Spec.

(** The error kinds of the specification.  The program throws plain
    [Error] objects; the kind of one is told by its message. *)
Inductive Kind : Type := ValidationError | ConflictError | AuthError.

Definition kind_of (message : string) : option Kind :=
  if String.eqb message "ユーザー名とパスワードを入力してください" then Some ValidationError
  else if String.eqb message "ユーザー名は3文字以上で入力してください" then Some ValidationError
  else if String.eqb message "パスワードは4文字以上で入力してください" then Some ValidationError
  else if String.eqb message "このユーザー名は既に使用されています" then Some ConflictError
  else if String.eqb message "ユーザー名またはパスワードが正しくありません" then Some AuthError
  else if String.eqb message "ユーザー名またはパスワードが間違っています" then Some AuthError
  else None.

(** A method failed with an error of kind [k] and left the state as it was. *)
Definition fails_with {S A} (k : Kind) (before : S) (outcome : Result A * S) : Prop :=
  exists message, outcome = (Throw message, before) /\ kind_of message = Some k.

(** [needle] occurs in [hay] when the case of letters is ignored. *)
Definition occurs_ignoring_case (needle hay : string) : Prop :=
  exists before after,
    Js.toLowerCase hay = before ++ Js.toLowerCase needle ++ after.

(** A bookmark matches a query on its name, its url or its description. *)
Definition matches (query : string) (b : Bookmark.t) : Prop :=
  occurs_ignoring_case query (Bookmark.name b)
  \/ occurs_ignoring_case query (Bookmark.url b)
  \/ occurs_ignoring_case query (Bookmark.description b).

(** [kept query bs bs']: [bs'] lists, in order, the bookmarks of [bs] that
    match. *)
Inductive kept (query : string) : list Bookmark.t -> list Bookmark.t -> Prop :=
| kept_nil : kept query [] []
| kept_hit b bs bs' :
    matches query b -> kept query bs bs' -> kept query (b :: bs) (b :: bs')
| kept_miss b bs bs' :
    ~ matches query b -> kept query bs bs' -> kept query (b :: bs) bs'.

(** [view query cs vs]: [vs] lists, in order, the categories of [cs] that
    have a matching bookmark, each with its matching bookmarks only. *)
Inductive view (query : string) : list Category.t -> list Category.t -> Prop :=
| view_nil : view query [] []
| view_show c cs vs b bs :
    kept query (Category.bookmarks c) (b :: bs) -> view query cs vs ->
    view query (c :: cs)
      (Category.Make (Category.id c) (Category.name c) (Category.color c) (b :: bs) :: vs)
| view_hide c cs vs :
    kept query (Category.bookmarks c) [] -> view query cs vs ->
    view query (c :: cs) vs.

(** An element the check of the first [importData] lets through: an
    object whose properties [name] and [bookmarks] are both truthy. *)
Definition named_with_bookmarks (v : json) : Prop :=
  exists fields,
    v = JObject fields
    /\ Json.truthy (Json.lookup "name" fields) = true
    /\ Json.truthy (Json.lookup "bookmarks" fields) = true.

(** A text that denotes an array of such elements. *)
Definition array_of_categories (t : Text) : Prop :=
  exists items, t = Denotes (JArray items) /\ Forall named_with_bookmarks items.

(** A query that is empty or made of white space only. *)
Fixpoint blank (query : string) : Prop :=
  match query with
  | EmptyString => True
  | String c r => Js.is_white c = true /\ blank r
  end.

(** All the bookmarks a read of the tree reaches. *)
Definition reachable (t : list Category.t) : list Bookmark.t :=
  flat_map Category.bookmarks t.

(** Identifiers are not duplicated within a dataset. *)
Definition ids_unique (t : list Category.t) : Prop :=
  NoDup (map Category.id t) /\ NoDup (map Bookmark.id (reachable t)).


(** What a read of the tree shows: each bookmark next to the identifier of
    the category it is listed under. *)
Definition rows (t : list Category.t) : list (string * Bookmark.t) :=
  flat_map (fun c => map (pair (Category.id c)) (Category.bookmarks c)) t.

(** Every bookmark's parent category exists: a category of the tree has
    the identifier the bookmark is shown under and lists the bookmark, and
    the lookup the methods use finds a category for that identifier. *)
Definition parents_exist (t : list Category.t) : Prop :=
  forall categoryId b,
    (categoryId, b) ∈ rows t ->
    (exists c, c ∈ t /\ Category.id c = categoryId /\ b ∈ Category.bookmarks c)
    /\ is_Some (find (Model.is_category categoryId) t).

(** Every character of a string passes a test. *)
Fixpoint all_chars (p : ascii -> bool) (s : string) : bool :=
  match s with
  | EmptyString => true
  | String c r => p c && all_chars p r
  end.


(** The digits of lower-case hexadecimal. *)
Definition hex_char (c : ascii) : bool :=
  Js.in_range 48 57 c || Js.in_range 97 102 c.

(** The tree in memory is the tree stored for the user of the session. *)
Definition persisted {Tree} (st : Firebase.State Tree) : Prop :=
  Firebase.ls_bookmarkData st !! Firebase.bookmarkData_key (Firebase.ls_userId st)
  = Some (Firebase.categories st).



End Spec.

(** * Properties *)

(** ** The monad *)

Ltac run :=
  unfold when in *;
  unfold bind, ret, throw, gets, modify, try_catch in *;
  cbv beta iota zeta in *.

(** ** The JavaScript primitives *)
Module JsProps.

Lemma digit_char_value (d : Z) :
  0 <= d < 10 ->
  Js.digit_value 10 (Js.digit_char d) = Some d /\ Js.is_digit (Js.digit_char d) = true.
Proof.
  intros H.
  assert (d = 0 \/ d = 1 \/ d = 2 \/ d = 3 \/ d = 4 \/ d = 5 \/ d = 6 \/ d = 7 \/ d = 8 \/ d = 9)
    as Hd by lia.
  repeat (destruct Hd as [-> | Hd]; [split; reflexivity |]). subst d. split; reflexivity.
Qed.

Lemma digits_acc_all_digits (fuel : nat) (n : Z) (acc : string) :
  Js.all_digits acc = true -> Js.all_digits (Js.digits_acc fuel n acc) = true.
Proof.
  revert n acc. induction fuel as [| fuel IH]; intros n acc Hacc; simpl; [assumption |].
  assert (Hd : Js.all_digits (String (Js.digit_char (n mod 10)) acc) = true).
  { simpl. rewrite Hacc.
    destruct (digit_char_value (n mod 10)) as [_ ->]; [| reflexivity].
    apply Z.mod_pos_bound. lia. }
  destruct (n <? 10); [assumption | apply IH; assumption].
Qed.

Lemma digits_acc_nonempty (fuel : nat) (n : Z) (acc : string) :
  Js.truthy acc = true -> Js.truthy (Js.digits_acc fuel n acc) = true.
Proof.
  revert n acc. induction fuel as [| fuel IH]; intros n acc Hacc; simpl; [assumption |].
  destruct (n <? 10); [reflexivity | apply IH; reflexivity].
Qed.

Lemma digits_nonempty (n : Z) : Js.truthy (Js.digits n) = true.
Proof.
  unfold Js.digits. simpl. destruct (n <? 10); [reflexivity |].
  apply digits_acc_nonempty. reflexivity.
Qed.

(** Reading the digits [digits_acc] wrote gives the number back. *)
Lemma read_digits_acc (fuel : nat) (n : Z) (acc : string) :
  0 <= n < 2 ^ Z.of_nat fuel ->
  Js.read_digits 10 (Js.digits_acc fuel n acc) (Some 0) = Js.read_digits 10 acc (Some n).
Proof.
  revert n acc. induction fuel as [| fuel IH]; intros n acc Hn.
  - simpl in *. assert (n = 0) as -> by lia. reflexivity.
  - cbn [Js.digits_acc].
    assert (Hmod : 0 <= n mod 10 < 10) by (apply Z.mod_pos_bound; lia).
    destruct (digit_char_value (n mod 10) Hmod) as [Hv _].
    destruct (n <? 10) eqn:Hlt.
    + apply Z.ltb_lt in Hlt. rewrite Z.mod_small in * by lia.
      cbn [Js.read_digits]. rewrite Hv. reflexivity.
    + apply Z.ltb_ge in Hlt. rewrite IH.
      * cbn [Js.read_digits]. rewrite Hv. do 2 f_equal.
        pose proof (Z.div_mod n 10). lia.
      * rewrite Nat2Z.inj_succ, Z.pow_succ_r in Hn by lia.
        split; [apply Z.div_pos; lia |].
        apply Z.div_lt_upper_bound; lia.
Qed.

Lemma read_digits_digits (n : Z) :
  0 <= n -> Js.read_digits 10 (Js.digits n) (Some 0) = Some n.
Proof.
  intros Hn. unfold Js.digits. rewrite read_digits_acc; [reflexivity |].
  split; [assumption |].
  destruct (Z.eq_dec n 0) as [-> | Hne]; [reflexivity |].
  rewrite Nat2Z.inj_succ, Z2Nat.id by apply Z.log2_nonneg.
  apply Z.log2_spec. lia.
Qed.

(** On a non-empty string of decimal digits [parseInt] reads in base 10
    from the first character. *)
Lemma parseInt_all_digits (s : string) :
  Js.truthy s = true -> Js.all_digits s = true ->
  Js.parseInt s = Js.read_digits 10 s (Some 0)
  /\ Js.read_unsigned s = Js.read_digits 10 s (Some 0).
Proof.
  destruct s as [| c r]; [discriminate |]. intros _ H. simpl in H.
  apply andb_prop in H as [Hc Hr].
  assert (Hsecond : r = EmptyString \/ exists c2 r2, r = String c2 r2 /\ Js.is_digit c2 = true).
  { destruct r as [| c2 r2]; [left; reflexivity |].
    right. exists c2, r2. simpl in Hr. apply andb_prop in Hr as [Hc2 _]. auto. }
  destruct c as [[] [] [] [] [] [] [] []]; try (vm_compute in Hc; discriminate Hc);
    try (split; reflexivity).
  destruct Hsecond as [-> | (c2 & r2 & -> & Hc2)]; [split; reflexivity |].
  destruct c2 as [[] [] [] [] [] [] [] []]; try (vm_compute in Hc2; discriminate Hc2);
    split; reflexivity.
Qed.

(** [parseInt(n.toString())] is [n]. *)
Lemma parseInt_toString (n : Z) : Js.parseInt (Js.Number_toString n) = Some n.
Proof.
  unfold Js.Number_toString. destruct (n <? 0) eqn:Hneg.
  - apply Z.ltb_lt in Hneg. unfold Js.parseInt. cbn [Js.trimStart].
    change (Js.is_white "-") with false. cbv iota.
    destruct (parseInt_all_digits (Js.digits (- n))) as [_ ->].
    + apply digits_nonempty.
    + apply digits_acc_all_digits. reflexivity.
    + rewrite read_digits_digits by lia. simpl. f_equal. lia.
  - apply Z.ltb_ge in Hneg.
    destruct (parseInt_all_digits (Js.digits n)) as [-> _].
    + apply digits_nonempty.
    + apply digits_acc_all_digits. reflexivity.
    + apply read_digits_digits. assumption.
Qed.

Lemma classic_blank (q : string) : Spec.blank q \/ ~ Spec.blank q.
Proof.
  induction q as [| c q [IH | IH]]; simpl.
  - left. exact I.
  - destruct (Js.is_white c); [left; split; [reflexivity | assumption] |].
    right. intros [H _]. discriminate.
  - right. intros [_ H]. contradiction.
Qed.

Lemma startsWith_spec (p s : string) :
  Js.startsWith p s = true <-> exists r, s = p ++ r.
Proof.
  revert s. induction p as [| a p IH]; intros s; simpl.
  - split; [intros _; exists s; reflexivity | reflexivity].
  - destruct s as [| b s]; [split; [discriminate | intros [r Hr]; discriminate] |].
    destruct (Ascii.eqb a b) eqn:Hab.
    + apply Ascii.eqb_eq in Hab as ->. rewrite IH.
      split; intros [r Hr]; exists r.
      * rewrite Hr. reflexivity.
      * change (String b p ++ r) with (String b (p ++ r)) in Hr. congruence.
    + apply Ascii.eqb_neq in Hab.
      split; [discriminate | intros [r Hr]].
      change (String a p ++ r) with (String a (p ++ r)) in Hr. congruence.
Qed.

(** [includes] is the occurrence of a substring. *)
Lemma includes_spec (p s : string) :
  Js.includes p s = true <-> exists before after, s = before ++ p ++ after.
Proof.
  split.
  - induction s as [| c s IH]; cbn [Js.includes]; intros H.
    + rewrite orb_false_r in H. apply startsWith_spec in H as [r ->].
      exists EmptyString, r. reflexivity.
    + apply orb_prop in H as [H | H].
      * apply startsWith_spec in H as [r ->]. exists EmptyString, r. reflexivity.
      * destruct (IH H) as (before & after & ->).
        exists (String c before), after. reflexivity.
  - intros (before & after & ->).
    induction before as [| c before IH].
    + assert (H : Js.startsWith p (p ++ after) = true)
        by (apply startsWith_spec; exists after; reflexivity).
      change (EmptyString ++ p ++ after) with (p ++ after).
      destruct (p ++ after); cbn [Js.includes]; rewrite H; reflexivity.
    + change (String c before ++ p ++ after) with (String c (before ++ p ++ after)).
      cbn [Js.includes]. rewrite IH. apply orb_true_r.
Qed.

Lemma trimStart_blank (q : string) : Spec.blank q -> Js.trimStart q = EmptyString.
Proof.
  induction q as [| c q IH]; simpl; [reflexivity |].
  intros [-> Hq]. apply IH, Hq.
Qed.

Lemma trimStart_not_blank (q : string) :
  ~ Spec.blank q ->
  exists c r, Js.trimStart q = String c r /\ Js.is_white c = false.
Proof.
  induction q as [| c q IH]; simpl; intros Hq.
  - exfalso. apply Hq. exact I.
  - destruct (Js.is_white c) eqn:Hc.
    + apply IH. intros Hb. apply Hq. split; [reflexivity | assumption].
    + exists c, q. split; reflexivity || assumption.
Qed.

Lemma trimEnd_keeps_head (c : ascii) (r : string) :
  Js.is_white c = false -> Js.truthy (Js.trimEnd (String c r)) = true.
Proof.
  intros Hc. cbn [Js.trimEnd]. rewrite Hc.
  destruct (Js.trimEnd r); reflexivity.
Qed.

(** [!query.trim()] holds exactly of the blank queries. *)
Lemma trim_blank (q : string) :
  Js.truthy (Js.trim q) = false <-> Spec.blank q.
Proof.
  unfold Js.trim. split.
  - intros H. destruct (classic_blank q) as [Hb | Hb]; [assumption |].
    destruct (trimStart_not_blank q Hb) as (c & r & Hs & Hc).
    rewrite Hs, (trimEnd_keeps_head c r Hc) in H. discriminate.
  - intros Hb. rewrite (trimStart_blank q Hb). reflexivity.
Qed.

End JsProps.

(** ** Reconciliation layer *)
Module SyncProps.

Section Sync.
Context {Tree : Type}.
Implicit Types (st : Firebase.State Tree) (data : Firebase.BookmarksDoc Tree).

(** Resetting a flag that was not set gives the state back. *)
Lemma syncEnabled_restored st :
  Firebase.syncEnabled st = false ->
  Firebase.set_syncEnabled false (Firebase.set_syncEnabled true st) = st.
Proof. destruct st; simpl; intros ->; reflexivity. Qed.

Lemma not_ready_inv st :
  Firebase.not_ready st = false ->
  exists db u, Firebase.firebaseDB st = Some db /\ Firebase.userId st = Some u
               /\ Js.truthy u = true.
Proof.
  unfold Firebase.not_ready, Firebase.no_userId.
  destruct (Firebase.firebaseDB st) as [db |]; [| discriminate].
  destruct (Firebase.userId st) as [u |]; [| discriminate].
  intros H. exists db, u. repeat split. apply negb_false_iff. assumption.
Qed.

(** A resolved [uploadToCloud] writes the document and notes the time. *)
Lemma uploadToCloud_resolved (now later : Z) db u st :
  Firebase.firebaseDB st = Some db -> Firebase.userId st = Some u -> Js.truthy u = true ->
  Firebase.uploadToCloud now (Firebase.Resolved later) st
  = (Ok tt,
     Firebase.set_lastSyncTime (Some later)
       (Firebase.set_firebaseDB
          (Some (Firebase.setBookmarksDoc u (Firebase.upload_doc now st) db)) st)).
Proof.
  intros Hdb Hu Ht. unfold Firebase.uploadToCloud. run.
  rewrite Hdb, Hu, Ht. reflexivity.
Qed.

Lemma uploadToCloud_rejected (now : Z) (error : string) st :
  Firebase.not_ready st = false ->
  Firebase.uploadToCloud now (Firebase.Rejected error) st = (Throw error, st).
Proof.
  intros (db & u & Hdb & Hu & Ht)%not_ready_inv. unfold Firebase.uploadToCloud. run.
  rewrite Hdb, Hu, Ht. reflexivity.
Qed.

(** C9. From the Disabled state ([syncEnabled] unset), when [enableSync]
    performs its push (a database and a user identifier are there): if the
    push throws, [enableSync] returns false and the state is the state
    before the call, so the flag is unset and no listener was attached; if
    the push succeeds, [enableSync] returns true, the flag is set, the
    listener is attached, and the push is recorded. *)
Theorem enableSync_follows_push (now later : Z) (error : string) st :
  Firebase.syncEnabled st = false ->
  Firebase.not_ready st = false ->
  Firebase.enableSync now (Firebase.Rejected error) st = (Ok false, st)
  /\ exists st',
       Firebase.enableSync now (Firebase.Resolved later) st = (Ok true, st')
       /\ Firebase.syncEnabled st' = true
       /\ Firebase.unsubscribe st' = true
       /\ Firebase.lastSyncTime st' = Some later
       /\ Firebase.categories st' = Firebase.categories st.
Proof.
  intros Hoff Hready. split.
  - unfold Firebase.enableSync. run. rewrite Hready.
    rewrite uploadToCloud_rejected by exact Hready.
    rewrite syncEnabled_restored by exact Hoff. reflexivity.
  - destruct (not_ready_inv st Hready) as (db & u & Hdb & Hu & Ht).
    unfold Firebase.enableSync. run. rewrite Hready.
    rewrite (uploadToCloud_resolved now later db u) by assumption.
    unfold Firebase.listenToChanges. run. cbn.
    rewrite Hu. cbn. rewrite Ht. cbn.
    destruct (Firebase.unsubscribe st) eqn:Hunsub; cbn;
      eexists; repeat split; try reflexivity; cbn; assumption.
Qed.

(** What [saveData] does: the tree goes under the key of the user, the
    time under [lastLocalChange]; nothing else the session holds changes,
    except that an upload may be issued. *)
Lemma saveData_spec (now : Z) st :
  exists st',
    Firebase.saveData now st = (Ok tt, st')
    /\ Firebase.categories st' = Firebase.categories st
    /\ Firebase.ls_bookmarkData st'
       = <[Firebase.bookmarkData_key (Firebase.ls_userId st) := Firebase.categories st]>
           (Firebase.ls_bookmarkData st)
    /\ Firebase.ls_lastLocalChange st' = Some (Js.Number_toString now)
    /\ Firebase.lastSyncTime st' = Firebase.lastSyncTime st
    /\ Firebase.syncEnabled st' = Firebase.syncEnabled st
    /\ Firebase.unsubscribe st' = Firebase.unsubscribe st
    /\ Firebase.firebaseDB st' = Firebase.firebaseDB st.
Proof.
  unfold Firebase.saveData, Firebase.uploadToCloud_unawaited. run. cbn.
  destruct (Firebase.syncEnabled st) eqn:Hon; cbn.
  - destruct (Firebase.firebaseDB st) as [db |] eqn:Hdb;
      [destruct (Firebase.userId st) as [u |]; [destruct (Js.truthy u) |] |];
      cbn; eexists; repeat split; cbn; assumption.
  - eexists; repeat split; cbn; assumption.
Qed.

Lemma toString_truthy (n : Z) : Js.truthy (Js.Number_toString n) = true.
Proof.
  unfold Js.Number_toString. destruct (n <? 0); [reflexivity | apply JsProps.digits_nonempty].
Qed.

(** The local time the callback compares with is the recorded one. *)
Lemma localTime_recorded (t : Z) st :
  Firebase.recorded_lastLocalChange t st ->
  Js.parseInt (Firebase.lastLocalChange_or_0 (Firebase.ls_lastLocalChange st)) = Some t.
Proof.
  unfold Firebase.recorded_lastLocalChange, Firebase.lastLocalChange_or_0.
  destruct (Firebase.ls_lastLocalChange st) as [s |]; intros ->.
  - rewrite toString_truthy. apply JsProps.parseInt_toString.
  - reflexivity.
Qed.

(** A notification without a document changes nothing. *)
Lemma onSnapshot_without_document (now : Z) st :
  Firebase.onSnapshot now None st = (Ok tt, st).
Proof. reflexivity. Qed.

(** C1. The callback given to [firebaseOnSnapshot], on a notification
    that carries a document: the remote tree is applied if and only if the
    [lastModified] of the notification is strictly greater than the time
    of the last successful push ([lastSyncTime]) and strictly greater than
    the recorded [lastLocalChange].  When applied, the remote categories
    replace the local tree whatever it was, and [localStorage] is
    rewritten with them and with the time of the write; otherwise the
    state is left as it was. *)
Theorem remote_change_applied_iff_newer (now t : Z) data st :
  Firebase.recorded_lastLocalChange t st ->
  let cloudTime := Firebase.number_of (Firebase.lastModified data) in
  let lastPush := Firebase.number_of (Firebase.lastSyncTime st) in
  (lastPush < cloudTime /\ t < cloudTime ->
   exists st',
     Firebase.onSnapshot now (Some data) st = (Ok tt, st')
     /\ Firebase.categories st' = Firebase.doc_categories data
     /\ Firebase.ls_bookmarkData st' !! Firebase.bookmarkData_key (Firebase.ls_userId st)
        = Some (Firebase.doc_categories data)
     /\ Firebase.ls_lastLocalChange st' = Some (Js.Number_toString now))
  /\ (~ (lastPush < cloudTime /\ t < cloudTime) ->
      Firebase.onSnapshot now (Some data) st = (Ok tt, st)).
Proof.
  intros Hrec cloudTime lastPush.
  pose proof (localTime_recorded t st Hrec) as Hlocal.
  unfold Firebase.onSnapshot. run. fold cloudTime lastPush.
  unfold Firebase.gt_number. split.
  - intros [Hpush Ht].
    replace (cloudTime <=? lastPush) with false by (symmetry; apply Z.leb_gt; lia).
    cbv beta. rewrite Hlocal.
    replace (t <? cloudTime) with true by (symmetry; apply Z.ltb_lt; lia).
    destruct (saveData_spec now (Firebase.set_categories (Firebase.doc_categories data) st))
      as (st' & -> & Hcat & Hdata & Htime & _).
    exists st'. split; [reflexivity |]. split; [exact Hcat |]. split; [| exact Htime].
    rewrite Hdata. cbn. apply lookup_insert_eq.
  - intros Hnot.
    destruct (cloudTime <=? lastPush) eqn:Hle; [reflexivity |].
    apply Z.leb_gt in Hle. cbv beta. rewrite Hlocal.
    replace (t <? cloudTime) with false by (symmetry; apply Z.ltb_ge; lia).
    reflexivity.
Qed.

End Sync.

Lemma enableSync_follows_push_witness :
  Firebase.enableSync 1730556001000 (Firebase.Rejected "unavailable") Examples.alice_ready
  = (Ok false, Examples.alice_ready)
  /\ exists st',
       Firebase.enableSync 1730556001000 (Firebase.Resolved 1730556001200) Examples.alice_ready
       = (Ok true, st')
       /\ Firebase.syncEnabled st' = true
       /\ Firebase.unsubscribe st' = true
       /\ Firebase.lastSyncTime st' = Some 1730556001200
       /\ Firebase.categories st' = Firebase.categories Examples.alice_ready.
Proof.
  apply (enableSync_follows_push 1730556001000 1730556001200 "unavailable" Examples.alice_ready).
  - reflexivity.
  - vm_compute. reflexivity.
Defined.

Lemma remote_change_applied_iff_newer_witness :
  exists st',
    Firebase.onSnapshot 1730556009400 (Some Examples.remote_doc) Examples.alice_edited
    = (Ok tt, st')
    /\ Firebase.categories st' = Firebase.doc_categories Examples.remote_doc
    /\ Firebase.ls_bookmarkData st'
         !! Firebase.bookmarkData_key (Firebase.ls_userId Examples.alice_edited)
       = Some (Firebase.doc_categories Examples.remote_doc)
    /\ Firebase.ls_lastLocalChange st' = Some (Js.Number_toString 1730556009400).
Proof.
  pose proof (remote_change_applied_iff_newer 1730556009400 1730556005000
                Examples.remote_doc Examples.alice_edited) as H.
  destruct H as [Hwhen _].
  - vm_compute. reflexivity.
  - apply Hwhen. vm_compute. split; reflexivity.
Defined.

(** An echo of the session's own push and a change older than the local
    edit are both discarded. *)
Example echo_is_discarded :
  Firebase.onSnapshot 1730556009400
    (Some {| Firebase.doc_categories := [Examples.work];
             Firebase.lastModified := Some 1730556001000 |})
    Examples.alice_edited
  = (Ok tt, Examples.alice_edited).
Proof. vm_compute. reflexivity. Qed.

Example older_than_local_edit_is_discarded :
  Firebase.onSnapshot 1730556009400
    (Some {| Firebase.doc_categories := [Examples.work];
             Firebase.lastModified := Some 1730556004000 |})
    Examples.alice_edited
  = (Ok tt, Examples.alice_edited).
Proof. vm_compute. reflexivity. Qed.

End SyncProps.

(** ** Bookmark store *)
Module StoreProps.

Implicit Types (st : Firebase.State (list Category.t)) (cats : list Category.t).

(** *** Search *)

Lemma occurs_includes (query s : string) :
  Spec.occurs_ignoring_case query s
  <-> Js.includes (Js.toLowerCase query) (Js.toLowerCase s) = true.
Proof. unfold Spec.occurs_ignoring_case. symmetry. apply JsProps.includes_spec. Qed.

Lemma includes_empty (s : string) : Js.includes EmptyString s = true.
Proof. destruct s; reflexivity. Qed.

Lemma occurs_in_empty (query : string) :
  Spec.occurs_ignoring_case query EmptyString -> Js.toLowerCase query = EmptyString.
Proof.
  intros (before & after & H). cbn in H.
  destruct before; [| discriminate H].
  destruct (Js.toLowerCase query); [reflexivity | discriminate H].
Qed.

(** The predicate of the filter is the match of the specification. *)
Lemma hit_spec (query : string) (b : Bookmark.t) :
  Firebase.hit (Js.toLowerCase query) b = true <-> Spec.matches query b.
Proof.
  unfold Firebase.hit, Spec.matches. rewrite !occurs_includes.
  rewrite !orb_true_iff, andb_true_iff. split.
  - intros [[H | H] | [_ H]]; auto.
  - intros [H | [H | H]]; auto.
    destruct (Bookmark.description b) eqn:Hd; [| auto].
    apply occurs_includes, occurs_in_empty in H. rewrite H.
    left. left. apply includes_empty.
Qed.

Lemma filter_kept (query : string) (bs : list Bookmark.t) :
  Spec.kept query bs (List.filter (Firebase.hit (Js.toLowerCase query)) bs).
Proof.
  induction bs as [| b bs IH]; simpl; [constructor |].
  destruct (Firebase.hit (Js.toLowerCase query) b) eqn:Hb.
  - apply Spec.kept_hit; [apply hit_spec; assumption | assumption].
  - apply Spec.kept_miss; [| assumption].
    intros H. apply hit_spec in H. congruence.
Qed.

Lemma kept_functional (query : string) (bs xs ys : list Bookmark.t) :
  Spec.kept query bs xs -> Spec.kept query bs ys -> xs = ys.
Proof.
  intros Hx. revert ys. induction Hx; intros ys Hy; inversion Hy; subst;
    try reflexivity; try contradiction.
  - f_equal. auto.
  - auto.
Qed.

(** The view determines the result. *)
Lemma view_functional (query : string) cats (vs ws : list Category.t) :
  Spec.view query cats vs -> Spec.view query cats ws -> vs = ws.
Proof.
  intros Hv. revert ws. induction Hv as [| c cs vs b bs Hk Hv IH | c cs vs Hk Hv IH];
    intros ws Hw; inversion Hw; subst; try reflexivity.
  - match goal with H : Spec.kept _ _ (_ :: _) |- _ =>
      pose proof (kept_functional _ _ _ _ Hk H) as Heq end.
    rewrite Heq. f_equal. auto.
  - match goal with H : Spec.kept _ _ [] |- _ =>
      pose proof (kept_functional _ _ _ _ Hk H) end.
    discriminate.
  - match goal with H : Spec.kept _ _ (_ :: _) |- _ =>
      pose proof (kept_functional _ _ _ _ Hk H) end.
    discriminate.
  - auto.
Qed.

Lemma filter_view (query : string) cats :
  Spec.view query cats
    (List.filter (fun category => (0 <? length (Category.bookmarks category))%nat)
       (map (fun category =>
               Model.set_bookmarks
                 (List.filter (Firebase.hit (Js.toLowerCase query))
                    (Category.bookmarks category)) category) cats)).
Proof.
  induction cats as [| c cs IH]; simpl; [constructor |].
  pose proof (filter_kept query (Category.bookmarks c)) as Hk.
  destruct (List.filter (Firebase.hit (Js.toLowerCase query)) (Category.bookmarks c))
    as [| b bs]; simpl.
  - apply Spec.view_hide; assumption.
  - apply Spec.view_show; assumption.
Qed.

(** C5. [searchBookmarks] answers a blank query (empty, or white space
    only) with the full tree.  It answers any other query with the view
    the specification describes: bookmarks are matched on name, url or
    description by occurrence of the query with the case of letters
    ignored; the result lists, in order, exactly the categories that have
    a matching bookmark, each with its matching bookmarks only.  The state
    after the call is the state before it. *)
Theorem searchBookmarks_spec (query : string) st :
  (Spec.blank query ->
   Firebase.searchBookmarks query st = (Ok (Firebase.categories st), st))
  /\ (~ Spec.blank query ->
      exists vs,
        Firebase.searchBookmarks query st = (Ok vs, st)
        /\ Spec.view query (Firebase.categories st) vs
        /\ forall ws, Spec.view query (Firebase.categories st) ws -> ws = vs).
Proof.
  unfold Firebase.searchBookmarks. run. split.
  - intros Hb. apply JsProps.trim_blank in Hb. rewrite Hb. reflexivity.
  - intros Hb.
    destruct (Js.truthy (Js.trim query)) eqn:Ht.
    + cbn. eexists. split; [reflexivity |].
      split; [apply filter_view |].
      intros ws Hw. exact (view_functional _ _ _ _ Hw (filter_view query _)).
    + exfalso. apply Hb, JsProps.trim_blank, Ht.
Qed.

Example search_empty_query :
  fst (Firebase.searchBookmarks "" Examples.online) = Ok Examples.tree.
Proof. reflexivity. Qed.

Example search_no_match :
  fst (Firebase.searchBookmarks "nomatch_xyz" Examples.online) = Ok [].
Proof. vm_compute. reflexivity. Qed.

Example search_ignores_case :
  fst (Firebase.searchBookmarks "NETFLIX.com" Examples.online)
  = Ok [Category.Make "c1" "Hobby" "#4CAF50"
          [Bookmark.Make "b2" "Netflix" "https://www.netflix.com" "Streaming"]].
Proof. vm_compute. reflexivity. Qed.

(** *** Finding a category *)

Lemma is_category_true (categoryId : string) (c : Category.t) :
  Model.is_category categoryId c = true <-> Category.id c = categoryId.
Proof. apply String.eqb_eq. Qed.

Lemma find_category_none (categoryId : string) cats :
  (forall c, c ∈ cats -> Category.id c <> categoryId) ->
  find (Model.is_category categoryId) cats = None.
Proof.
  intros H. induction cats as [| c cs IH]; simpl; [reflexivity |].
  destruct (Model.is_category categoryId c) eqn:Hc.
  - apply is_category_true in Hc. exfalso. apply (H c); [left | assumption].
  - apply IH. intros x Hx. apply H. right. assumption.
Qed.

Lemma find_category_some (categoryId : string) cats (c : Category.t) :
  c ∈ cats -> Category.id c = categoryId ->
  exists found, find (Model.is_category categoryId) cats = Some found
                /\ Category.id found = categoryId.
Proof.
  intros Hin Hid. induction Hin as [c cs | c x cs Hin IH]; simpl.
  - apply is_category_true in Hid. rewrite Hid. exists c. split; [reflexivity |].
    apply is_category_true. assumption.
  - destruct (Model.is_category categoryId x) eqn:Hx; [| apply IH; assumption].
    exists x. split; [reflexivity | apply is_category_true; assumption].
Qed.

(** [findIndex] and [splice(index, 1)]: the first element on which the
    test holds is taken out, the others stay in order. *)
Lemma findIndex_delete {A} (p : A -> bool) (l : list A) (x : A) :
  x ∈ l -> p x = true ->
  exists before y after,
    l = (before ++ y :: after)%list /\ p y = true
    /\ (forall z, z ∈ before -> p z = false)
    /\ Model.findIndex p l = Some (length before)
    /\ delete (length before) l = (before ++ after)%list.
Proof.
  intros Hin Hx. induction Hin as [x l | x z l Hin IH]; simpl.
  - exists [], x, l. rewrite Hx. repeat split; try reflexivity.
    intros z Hz. inversion Hz.
  - destruct (p z) eqn:Hz.
    + exists [], z, l. repeat split; try reflexivity; try assumption.
      intros w Hw. inversion Hw.
    + destruct (IH Hx) as (before & y & after & -> & Hy & Hbefore & Hfind & Hdel).
      exists (z :: before), y, after. rewrite Hfind. simpl.
      repeat split; try reflexivity; try assumption.
      * intros w Hw. apply elem_of_cons in Hw as [-> | Hw]; auto.
      * f_equal. exact Hdel.
Qed.

(** *** Adding a bookmark *)

Lemma addBookmark_absent_firebase (fresh : string) (now : Z)
    (categoryId name url description : string) st :
  (forall c, c ∈ Firebase.categories st -> Category.id c <> categoryId) ->
  Firebase.addBookmark fresh now categoryId name url description st = (Ok None, st).
Proof.
  intros H. unfold Firebase.addBookmark. run.
  rewrite (find_category_none _ _ H). reflexivity.
Qed.

Lemma addBookmark_present_firebase (fresh : string) (now : Z)
    (categoryId name url description : string) st (c : Category.t) :
  c ∈ Firebase.categories st -> Category.id c = categoryId ->
  exists st',
    Firebase.addBookmark fresh now categoryId name url description st
    = (Ok (Some (Bookmark.Make fresh name (Firebase.normalize_url url)
                   (Model.or_empty description))), st').
Proof.
  intros Hin Hid. unfold Firebase.addBookmark. run.
  destruct (find_category_some _ _ _ Hin Hid) as (found & -> & _).
  match goal with |- context [Firebase.saveData now ?s] =>
    destruct (SyncProps.saveData_spec now s) as (st' & -> & _) end.
  exists st'. reflexivity.
Qed.

Lemma addBookmark_absent_simple (fresh categoryId name url description : string)
    (s0 : Simple.State Simple.Data) :
  (forall c, c ∈ Simple.categories (Simple.data s0) -> Category.id c <> categoryId) ->
  Simple.addBookmark fresh categoryId name url description s0 = (Ok None, s0).
Proof.
  intros H. unfold Simple.addBookmark. run.
  rewrite (find_category_none _ _ H). reflexivity.
Qed.

Lemma addBookmark_present_simple (fresh categoryId name url description : string)
    (s0 : Simple.State Simple.Data) (c : Category.t) :
  c ∈ Simple.categories (Simple.data s0) -> Category.id c = categoryId ->
  exists s1,
    Simple.addBookmark fresh categoryId name url description s0
    = (Ok (Some (Bookmark.Make fresh name url (Model.or_empty description))), s1).
Proof.
  intros Hin Hid. unfold Simple.addBookmark, Simple.saveData. run.
  destruct (find_category_some _ _ _ Hin Hid) as (found & -> & _). cbn.
  destruct (Simple.ls_currentUserId s0) as [u |]; [destruct (Js.truthy u) |];
    cbn; eexists; reflexivity.
Qed.

(** The url [normalize_url] returns, in the words of the contract. *)
Lemma normalize_url_spec (url : string) :
  ((exists r, url = "http://" ++ r) \/ (exists r, url = "https://" ++ r) ->
   Firebase.normalize_url url = url)
  /\ (~ ((exists r, url = "http://" ++ r) \/ (exists r, url = "https://" ++ r)) ->
      Firebase.normalize_url url = "https://" ++ url).
Proof.
  unfold Firebase.normalize_url.
  destruct (Js.startsWith "http://" url) eqn:H1;
    destruct (Js.startsWith "https://" url) eqn:H2; cbn; split; intros H;
    try reflexivity.
  - exfalso. apply H. left. apply JsProps.startsWith_spec. assumption.
  - exfalso. apply H. left. apply JsProps.startsWith_spec. assumption.
  - exfalso. apply H. right. apply JsProps.startsWith_spec. assumption.
  - destruct H as [H | H]; apply JsProps.startsWith_spec in H; congruence.
Qed.

(** C3, as stated, fails on the second application: its [addBookmark]
    stores the url it is given, so "example.com" stays without scheme. *)
Lemma simple_addBookmark_keeps_url :
  fst (Simple.addBookmark "b9" "c1" "Example" "example.com" "" Examples.simple)
  = Ok (Some (Bookmark.Make "b9" "Example" "example.com" ""))
  /\ ~ (exists b s1,
          Simple.addBookmark "b9" "c1" "Example" "example.com" "" Examples.simple
          = (Ok (Some b), s1)
          /\ Bookmark.url b = "https://example.com").
Proof.
  split; [reflexivity |].
  intros (b & s1 & H & Hurl). vm_compute in H.
  injection H as Hb _. subst b. discriminate Hurl.
Qed.

(** C3, amended.  [addBookmark] returns nothing and leaves the state as it
    was when no category has the identifier, in both applications.  When
    one has it, the bookmark returned by the first application
    ([BookmarkManager] next to [FirebaseSyncManager]) has the given url if
    that starts with "http://" or "https://" and "https://" followed by
    the given url otherwise; the bookmark returned by the second
    application has the given url as it is. *)
Theorem addBookmark_url (fresh : string) (now : Z) (categoryId name url description : string)
    st (s0 : Simple.State Simple.Data) :
  let has_scheme := (exists r, url = "http://" ++ r) \/ (exists r, url = "https://" ++ r) in
  ((forall c, c ∈ Firebase.categories st -> Category.id c <> categoryId) ->
   Firebase.addBookmark fresh now categoryId name url description st = (Ok None, st))
  /\ ((exists c, c ∈ Firebase.categories st /\ Category.id c = categoryId) ->
      exists b st',
        Firebase.addBookmark fresh now categoryId name url description st = (Ok (Some b), st')
        /\ (has_scheme -> Bookmark.url b = url)
        /\ (~ has_scheme -> Bookmark.url b = "https://" ++ url))
  /\ ((forall c, c ∈ Simple.categories (Simple.data s0) -> Category.id c <> categoryId) ->
      Simple.addBookmark fresh categoryId name url description s0 = (Ok None, s0))
  /\ ((exists c, c ∈ Simple.categories (Simple.data s0) /\ Category.id c = categoryId) ->
      exists b s1,
        Simple.addBookmark fresh categoryId name url description s0 = (Ok (Some b), s1)
        /\ Bookmark.url b = url).
Proof.
  intros has_scheme. split; [apply addBookmark_absent_firebase |].
  split; [| split; [apply addBookmark_absent_simple |]].
  - intros (c & Hin & Hid).
    destruct (addBookmark_present_firebase fresh now categoryId name url description
                st c Hin Hid) as (st' & ->).
    eexists. exists st'. split; [reflexivity |]. cbn [Bookmark.url].
    exact (normalize_url_spec url).
  - intros (c & Hin & Hid).
    destruct (addBookmark_present_simple fresh categoryId name url description
                s0 c Hin Hid) as (s1 & ->).
    eexists. exists s1. split; reflexivity.
Qed.

Example addBookmark_example_com :
  fst (Firebase.addBookmark "b9" 1730556005000 "c1" "Example" "example.com" ""
         Examples.online)
  = Ok (Some (Bookmark.Make "b9" "Example" "https://example.com" "")).
Proof. reflexivity. Qed.

(** *** Deleting a category *)

Lemma reachable_app cats (more : list Category.t) :
  Spec.reachable (cats ++ more) = (Spec.reachable cats ++ Spec.reachable more)%list.
Proof. unfold Spec.reachable. apply flat_map_app. Qed.

(** The parent of every bookmark exists: a bookmark is only ever reached
    through the category that lists it. *)
Lemma parents_exist_always cats : Spec.parents_exist cats.
Proof.
  intros categoryId b H. unfold Spec.rows in H.
  apply list_elem_of_In, in_flat_map in H as (c & Hc & H).
  apply in_map_iff in H as (b' & [= <- <-] & Hb).
  apply list_elem_of_In in Hc, Hb. split.
  - exists c. repeat split; assumption.
  - destruct (find_category_some (Category.id c) cats c Hc eq_refl) as (found & -> & _).
    eexists. reflexivity.
Qed.

(** *** Identifiers stay unique *)




Lemma reachable_cons (c : Category.t) cats :
  Spec.reachable (c :: cats) = (Category.bookmarks c ++ Spec.reachable cats)%list.
Proof. reflexivity. Qed.




(** C4. When a category of the tree has the identifier, [deleteCategory]
    takes the first such category out of the tree, in memory and in
    [localStorage], and keeps the others as they were, so that the
    bookmarks a later read reaches are those of the other categories; as
    identifiers of bookmarks are not duplicated within a dataset, none of
    the bookmarks of the deleted category is among them.  And after every
    operation of the store, every bookmark that a read shows is listed by
    a category of the tree. *)
Theorem deleteCategory_leaves_no_orphans (now : Z) (categoryId : string) st :
  categoryId ∈ map Category.id (Firebase.categories st) ->
  (exists before c after st',
     Firebase.categories st = (before ++ c :: after)%list
     /\ Category.id c = categoryId
     /\ (forall x, x ∈ before -> Category.id x <> categoryId)
     /\ Firebase.deleteCategory now categoryId st = (Ok true, st')
     /\ Firebase.categories st' = (before ++ after)%list
     /\ Firebase.ls_bookmarkData st' !! Firebase.bookmarkData_key (Firebase.ls_userId st)
        = Some (before ++ after)%list
     /\ Spec.reachable (Firebase.categories st')
        = (Spec.reachable before ++ Spec.reachable after)%list
     /\ (NoDup (map Bookmark.id (Spec.reachable (Firebase.categories st))) ->
         forall b, b ∈ Category.bookmarks c ->
                   Bookmark.id b ∉ map Bookmark.id (Spec.reachable (Firebase.categories st'))))
  /\ forall op, Spec.parents_exist (Firebase.categories st) ->
                Spec.parents_exist (Firebase.categories (Firebase.perform now op st)).
Proof.
  intros Hid. split; [| intros op _; apply parents_exist_always].
  apply list_elem_of_fmap in Hid as (c0 & Hc0 & Hin).
  destruct (findIndex_delete (Model.is_category categoryId) _ c0 Hin)
    as (before & c & after & Hcats & Hc & Hbefore & Hfind & Hdel).
  { apply is_category_true. congruence. }
  unfold Firebase.deleteCategory. run. rewrite Hfind.
  match goal with |- context [Firebase.saveData now ?s] =>
    destruct (SyncProps.saveData_spec now s) as (st' & -> & Hcat' & Hdata & _) end.
  cbn in Hcat', Hdata. rewrite Hdel in Hcat', Hdata.
  exists before, c, after, st'.
  split; [exact Hcats |]. split; [apply is_category_true; exact Hc |].
  split.
  { intros x Hx Heq. apply is_category_true in Heq. rewrite (Hbefore x Hx) in Heq.
    discriminate. }
  split; [reflexivity |]. split; [exact Hcat' |].
  split; [rewrite Hdata; apply lookup_insert_eq |].
  split; [rewrite Hcat'; apply reachable_app |].
  intros Hnodup b Hb Hin'.
  rewrite Hcat', reachable_app, map_app in Hin'.
  rewrite Hcats, reachable_app, map_app in Hnodup.
  change (Spec.reachable (c :: after))
    with (Category.bookmarks c ++ Spec.reachable after)%list in Hnodup.
  rewrite map_app in Hnodup.
  apply NoDup_app in Hnodup as (_ & Hdisj & Hrest).
  apply NoDup_app in Hrest as (_ & Hdisj' & _).
  assert (Hbid : Bookmark.id b ∈ map Bookmark.id (Category.bookmarks c))
    by (apply list_elem_of_fmap; exists b; auto).
  apply elem_of_app in Hin' as [Hin' | Hin'].
  - apply (Hdisj _ Hin'). apply elem_of_app. left. exact Hbid.
  - exact (Hdisj' _ Hbid Hin').
Qed.

Lemma deleteCategory_leaves_no_orphans_witness :
  (exists before c after st',
     Firebase.categories Examples.online = (before ++ c :: after)%list
     /\ Category.id c = "c1"
     /\ (forall x, x ∈ before -> Category.id x <> "c1")
     /\ Firebase.deleteCategory 1730556005000 "c1" Examples.online = (Ok true, st')
     /\ Firebase.categories st' = (before ++ after)%list
     /\ Firebase.ls_bookmarkData st'
          !! Firebase.bookmarkData_key (Firebase.ls_userId Examples.online)
        = Some (before ++ after)%list
     /\ Spec.reachable (Firebase.categories st')
        = (Spec.reachable before ++ Spec.reachable after)%list
     /\ (NoDup (map Bookmark.id (Spec.reachable (Firebase.categories Examples.online))) ->
         forall b, b ∈ Category.bookmarks c ->
                   Bookmark.id b ∉ map Bookmark.id (Spec.reachable (Firebase.categories st'))))
  /\ forall op, Spec.parents_exist (Firebase.categories Examples.online) ->
                Spec.parents_exist
                  (Firebase.categories (Firebase.perform 1730556005000 op Examples.online)).
Proof.
  apply (deleteCategory_leaves_no_orphans 1730556005000 "c1" Examples.online).
  vm_compute. left.
Defined.

End StoreProps.

(** ** Import *)
Module ImportProps.

(** The check on one element: it answers true on the elements the
    specification names, and answers false or throws on the others; it
    never changes the state. *)
Lemma check_spec {S} (v : json) (st : S) :
  (Spec.named_with_bookmarks v
   /\ Firebase.has_name_and_bookmarks v st = (Ok true, st))
  \/ (~ Spec.named_with_bookmarks v
      /\ (Firebase.has_name_and_bookmarks v st = (Ok false, st)
          \/ exists e, Firebase.has_name_and_bookmarks v st = (Throw e, st))).
Proof.
  unfold Firebase.has_name_and_bookmarks, Spec.named_with_bookmarks.
  destruct v as [| b | q | s | items | fields]; cbn;
    try (right; split; [intros (f & H & _); discriminate H | eauto]).
  destruct (Json.truthy (Json.lookup "name" fields)) eqn:Hn; cbn.
  - destruct (Json.truthy (Json.lookup "bookmarks" fields)) eqn:Hb.
    + left. split; [exists fields; auto | reflexivity].
    + right. split; [| left; reflexivity].
      intros (f & [= <-] & _ & H). congruence.
  - right. split; [| left; reflexivity].
    intros (f & [= <-] & H & _). congruence.
Qed.

Lemma every_spec {S} (items : list json) (st : S) :
  (Forall Spec.named_with_bookmarks items
   /\ Json.every Firebase.has_name_and_bookmarks items st = (Ok true, st))
  \/ (~ Forall Spec.named_with_bookmarks items
      /\ (Json.every Firebase.has_name_and_bookmarks items st = (Ok false, st)
          \/ exists e, Json.every Firebase.has_name_and_bookmarks items st = (Throw e, st))).
Proof.
  induction items as [| v items IH]; cbn [Json.every].
  - left. split; [constructor | reflexivity].
  - unfold bind.
    destruct (check_spec v st) as [[Hv ->] | [Hv [-> | [e ->]]]].
    + destruct IH as [[Hall ->] | [Hall H]].
      * left. split; [constructor; assumption | reflexivity].
      * right. split; [| exact H]. intros Hc. apply Hall. inversion Hc; assumption.
    + right. split; [| left; reflexivity]. intros Hc. apply Hv. inversion Hc; assumption.
    + right. split; [| right; exists e; reflexivity].
      intros Hc. apply Hv. inversion Hc; assumption.
Qed.

Lemma importData_accepts (now : Z) (items : list json) (st : Firebase.State json) :
  Forall Spec.named_with_bookmarks items ->
  exists st',
    Firebase.importData now (Denotes (JArray items)) st = (Ok true, st')
    /\ Firebase.categories st' = JArray items
    /\ Firebase.ls_bookmarkData st' !! Firebase.bookmarkData_key (Firebase.ls_userId st)
       = Some (JArray items).
Proof.
  intros Hall. unfold Firebase.importData, Json.parse. run.
  destruct (every_spec items st) as [[_ ->] | [Hno _]]; [| contradiction].
  destruct (SyncProps.saveData_spec now (Firebase.set_categories (JArray items) st))
    as (st' & -> & Hcat & Hdata & _).
  exists st'. split; [reflexivity |]. split; [exact Hcat |].
  rewrite Hdata. apply lookup_insert_eq.
Qed.

Lemma importData_rejects (now : Z) (jsonData : Text) (st : Firebase.State json) :
  ~ Spec.array_of_categories jsonData ->
  Firebase.importData now jsonData st = (Ok false, st).
Proof.
  intros Hno. unfold Firebase.importData, Json.parse. run.
  destruct jsonData as [| v]; [reflexivity |].
  destruct v as [| b | q | s | items | fields]; try reflexivity.
  destruct (every_spec items st) as [[Hall _] | [_ [-> | [e ->]]]]; try reflexivity.
  exfalso. apply Hno. exists items. split; [reflexivity | assumption].
Qed.

(** C2, as stated, fails.  The first application answers false to an
    object of the shape [{categories: [...]}]; the second one answers true
    to a value that is no tree at all and stores it. *)
Lemma importData_shapes :
  Firebase.importData 1730556005000
    (Denotes (JObject [("categories", JArray [Examples.hobby_json])])) Examples.importing
  = (Ok false, Examples.importing)
  /\ Simple.importData (JString "not a tree") Examples.importing_simple
     = (Ok true, Simple.set_data (JString "not a tree") Examples.importing_simple).
Proof. split; reflexivity. Qed.

(** C2, amended.  The first [importData] replaces the tree, rewrites
    [localStorage] and returns true exactly when the text parses to an
    array every element of which is an object with a truthy [name] and a
    truthy [bookmarks]; on every other text, the object
    [{categories: [...]}] and the text that does not parse included, it
    returns false, throws nothing and leaves the state as it was.  The
    second [importData], which receives the parsed value, checks nothing:
    it returns true on every value, storing [{categories: value}] when the
    value is an array and the value itself otherwise. *)
Theorem importData_outcome (now : Z) (jsonData : Text) (value : json)
    (st : Firebase.State json) (s0 : Simple.State json) :
  (Spec.array_of_categories jsonData ->
   exists items st',
     jsonData = Denotes (JArray items)
     /\ Firebase.importData now jsonData st = (Ok true, st')
     /\ Firebase.categories st' = JArray items
     /\ Firebase.ls_bookmarkData st' !! Firebase.bookmarkData_key (Firebase.ls_userId st)
        = Some (JArray items))
  /\ (~ Spec.array_of_categories jsonData ->
      Firebase.importData now jsonData st = (Ok false, st))
  /\ exists s1,
       Simple.importData value s0 = (Ok true, s1)
       /\ Simple.data s1
          = match value with
            | JArray _ => JObject [("categories", value)]
            | _ => value
            end.
Proof.
  split; [| split].
  - intros (items & -> & Hall).
    destruct (importData_accepts now items st Hall) as (st' & H).
    exists items, st'. split; [reflexivity | exact H].
  - apply importData_rejects.
  - unfold Simple.importData, Simple.saveData. run.
    destruct value; cbn;
      (destruct (Simple.ls_currentUserId s0) as [u |]; [destruct (Js.truthy u) |]);
      cbn; eexists; split; reflexivity.
Qed.

Example import_legacy_array :
  fst (Firebase.importData 1730556005000 (Denotes (JArray [Examples.hobby_json]))
         Examples.importing)
  = Ok true.
Proof. reflexivity. Qed.

Example import_unnamed_category :
  Firebase.importData 1730556005000
    (Denotes (JArray [JObject [("name", JString ""); ("bookmarks", JArray [])]]))
    Examples.importing
  = (Ok false, Examples.importing).
Proof. reflexivity. Qed.

Example import_null_element :
  Firebase.importData 1730556005000 (Denotes (JArray [JNull])) Examples.importing
  = (Ok false, Examples.importing).
Proof. reflexivity. Qed.

End ImportProps.

(** ** Identity store *)
Module IdentityProps.

(** The digest is SHA-256 in lower-case hexadecimal (the vector of the
    standard for "abc"). *)
Example hashPassword_abc :
  Identity.hashPassword "abc"
  = "ba7816bf8f01cfea414140de5dae2223b00361a396177a9cb410ff61f20015ad".
Proof. vm_compute. reflexivity. Qed.

(** Two usernames may derive one identifier. *)
Example generateUserId_collision :
  Identity.generateUserId "a.b" = "user_a_b"
  /\ Identity.generateUserId "A_B" = "user_a_b".
Proof. split; reflexivity. Qed.

Lemma validation_firebase {Tree} (now : Z) (username password : string) (st : Firebase.State Tree) :
  (String.length username < 3)%nat \/ (String.length password < 4)%nat ->
  Spec.fails_with Spec.ValidationError st (Firebase.register now username password st).
Proof.
  intros Hshort. unfold Firebase.register, Spec.fails_with. run.
  destruct (negb (Js.truthy username) || negb (Js.truthy password)) eqn:Hempty.
  { eexists; split; reflexivity. }
  destruct (Z.of_nat (String.length username) <? 3) eqn:Hu.
  { eexists; split; reflexivity. }
  destruct (Z.of_nat (String.length password) <? 4) eqn:Hp.
  { eexists; split; reflexivity. }
  apply Z.ltb_ge in Hu, Hp. lia.
Qed.

Lemma validation_simple {Data} (now : Z) (username password : string) (st : Simple.State Data) :
  (String.length username < 3)%nat \/ (String.length password < 4)%nat ->
  Spec.fails_with Spec.ValidationError st (Simple.register now username password st).
Proof.
  intros Hshort. unfold Simple.register, Spec.fails_with. run.
  destruct (negb (Js.truthy username) || negb (Js.truthy password)) eqn:Hempty.
  { eexists; split; reflexivity. }
  destruct (Z.of_nat (String.length username) <? 3) eqn:Hu.
  { eexists; split; reflexivity. }
  destruct (Z.of_nat (String.length password) <? 4) eqn:Hp.
  { eexists; split; reflexivity. }
  apply Z.ltb_ge in Hu, Hp. lia.
Qed.

(** An empty string is shorter than any positive bound, so the case
    "either is empty" of the contract is a case of "too short". *)
Lemma empty_is_short (username password : string) :
  username = "" \/ password = "" ->
  (String.length username < 3)%nat \/ (String.length password < 4)%nat.
Proof. intros [-> | ->]; simpl; lia. Qed.

(** C6. [register] fails with a [ValidationError] when the username has
    fewer than 3 characters, when the password has fewer than 4, or when
    either is empty; the state after the failure is the state before it,
    so no user record was created and no session was established.  Both
    [AuthManager.register] and [SimpleAuthManager.register]. *)
Theorem register_rejects_short_input {Tree Data} (now : Z) (username password : string)
    (st : Firebase.State Tree) (st' : Simple.State Data) :
  (String.length username < 3)%nat \/ (String.length password < 4)%nat
    \/ username = "" \/ password = "" ->
  Spec.fails_with Spec.ValidationError st (Firebase.register now username password st)
  /\ Spec.fails_with Spec.ValidationError st' (Simple.register now username password st').
Proof.
  intros H.
  assert (Hshort : (String.length username < 3)%nat \/ (String.length password < 4)%nat).
  { destruct H as [H | [H | H]]; [left | right | apply empty_is_short]; assumption. }
  split; [apply validation_firebase | apply validation_simple]; exact Hshort.
Qed.

Lemma register_rejects_short_input_witness :
  Spec.fails_with Spec.ValidationError
    (Firebase.start (@nil Category.t) (Some Firebase.no_documents))
    (Firebase.register 1730556000000 "ab" "pw1"
       (Firebase.start (@nil Category.t) (Some Firebase.no_documents)))
  /\ Spec.fails_with Spec.ValidationError
       (Simple.start {| Simple.categories := [] |})
       (Simple.register 1730556000000 "ab" "pw1" (Simple.start {| Simple.categories := [] |})).
Proof.
  apply (register_rejects_short_input 1730556000000 "ab" "pw1").
  left. simpl. lia.
Defined.

(** The three checks of [register] pass on a valid pair. *)
Lemma valid_passes (username password : string) :
  (3 <= String.length username)%nat -> (4 <= String.length password)%nat ->
  negb (Js.truthy username) || negb (Js.truthy password) = false
  /\ (Z.of_nat (String.length username) <? 3) = false
  /\ (Z.of_nat (String.length password) <? 4) = false.
Proof.
  intros Hu Hp. repeat split.
  - destruct username; [simpl in Hu; lia |]. destruct password; [simpl in Hp; lia |]. reflexivity.
  - apply Z.ltb_ge. lia.
  - apply Z.ltb_ge. lia.
Qed.

Ltac pass_checks Hu Hp :=
  let H := fresh in
  destruct (valid_passes _ _ Hu Hp) as (H & -> & ->); try rewrite H; clear H.

Lemma conflict_firebase {Tree} (now : Z) (username password : string)
    (st : Firebase.State Tree) (doc : Firebase.UserDoc) :
  (3 <= String.length username)%nat -> (4 <= String.length password)%nat ->
  Firebase.user_record (Identity.generateUserId username) st = Some doc ->
  Spec.fails_with Spec.ConflictError st (Firebase.register now username password st).
Proof.
  intros Hu Hp Hdoc. unfold Firebase.register, Spec.fails_with, Firebase.user_record in *. run.
  pass_checks Hu Hp.
  destruct (Firebase.firebaseDB st) as [db |]; [| discriminate].
  rewrite Hdoc. eexists; split; reflexivity.
Qed.

Lemma conflict_simple {Data} (now : Z) (username password : string)
    (st : Simple.State Data) (userData : Simple.UserData) :
  (3 <= String.length username)%nat -> (4 <= String.length password)%nat ->
  Simple.ls_auth st !! Simple.auth_key (Identity.generateUserId username) = Some userData ->
  Spec.fails_with Spec.ConflictError st (Simple.register now username password st).
Proof.
  intros Hu Hp Hdoc. unfold Simple.register, Spec.fails_with. run.
  pass_checks Hu Hp. rewrite Hdoc. eexists; split; reflexivity.
Qed.

(** A registration that succeeds against a database leaves a record under
    the derived identifier. *)
Lemma register_leaves_record_firebase {Tree} (now : Z) (username password id : string)
    (st st1 : Firebase.State Tree) :
  is_Some (Firebase.firebaseDB st) ->
  Firebase.register now username password st = (Ok id, st1) ->
  id = Identity.generateUserId username
  /\ Firebase.user_record id st1
     = Some {| Firebase.username := username;
               Firebase.passwordHash := Identity.hashPassword password;
               Firebase.createdAt := now |}.
Proof.
  intros [db Hdb]. unfold Firebase.register, Firebase.user_record. run.
  destruct (negb (Js.truthy username) || negb (Js.truthy password)); [discriminate |].
  destruct (Z.of_nat (String.length username) <? 3); [discriminate |].
  destruct (Z.of_nat (String.length password) <? 4); [discriminate |].
  rewrite Hdb.
  destruct (Firebase.users db !! Identity.generateUserId username); [discriminate |].
  intros [= <- <-]. split; [reflexivity |]. simpl. apply lookup_insert_eq.
Qed.

Lemma register_leaves_record_simple {Data} (now : Z) (username password : string)
    (st st1 : Simple.State Data) :
  Simple.register now username password st = (Ok true, st1) ->
  Simple.ls_auth st1 !! Simple.auth_key (Identity.generateUserId username)
  = Some {| Simple.username := username;
            Simple.passwordHash := Identity.hashPassword password;
            Simple.createdAt := now |}.
Proof.
  unfold Simple.register. run.
  destruct (negb (Js.truthy username) || negb (Js.truthy password)); [discriminate |].
  destruct (Z.of_nat (String.length username) <? 3); [discriminate |].
  destruct (Z.of_nat (String.length password) <? 4); [discriminate |].
  destruct (Simple.ls_auth st !! Simple.auth_key (Identity.generateUserId username));
    [discriminate |].
  intros [= <-]. simpl. apply lookup_insert_eq.
Qed.

(** Registering twice: after a successful registration against a
    database, a valid registration under a username with the same derived
    identifier fails with [ConflictError]. *)
Lemma register_twice_firebase {Tree} (t0 now : Z) (first pw0 username password id : string)
    (st0 st : Firebase.State Tree) :
  (3 <= String.length username)%nat -> (4 <= String.length password)%nat ->
  Identity.generateUserId first = Identity.generateUserId username ->
  is_Some (Firebase.firebaseDB st0) ->
  Firebase.register t0 first pw0 st0 = (Ok id, st) ->
  Spec.fails_with Spec.ConflictError st (Firebase.register now username password st).
Proof.
  intros Hu Hp Hid Hdb Hfirst.
  destruct (register_leaves_record_firebase _ _ _ _ _ _ Hdb Hfirst) as [-> Hrec].
  rewrite Hid in Hrec. exact (conflict_firebase now username password st _ Hu Hp Hrec).
Qed.

Lemma register_twice_simple {Data} (t0 now : Z) (first pw0 username password : string)
    (st0 st : Simple.State Data) :
  (3 <= String.length username)%nat -> (4 <= String.length password)%nat ->
  Identity.generateUserId first = Identity.generateUserId username ->
  Simple.register t0 first pw0 st0 = (Ok true, st) ->
  Spec.fails_with Spec.ConflictError st (Simple.register now username password st).
Proof.
  intros Hu Hp Hid Hfirst.
  pose proof (register_leaves_record_simple _ _ _ _ _ Hfirst) as Hrec.
  rewrite Hid in Hrec. exact (conflict_simple now username password st _ Hu Hp Hrec).
Qed.

(** C7. For a valid username and password, when a user record already
    exists under the derived identifier, [register] fails with a
    [ConflictError] and the state, the existing record included, is
    unchanged.  For [AuthManager] the records are those of the database
    behind [window.firebaseDB]; for [SimpleAuthManager] those stored under
    the keys [auth_...] of [localStorage]. *)
Theorem register_existing_user_conflicts {Tree Data} (now : Z) (username password : string)
    (st : Firebase.State Tree) (st' : Simple.State Data)
    (doc : Firebase.UserDoc) (userData : Simple.UserData) :
  (3 <= String.length username)%nat -> (4 <= String.length password)%nat ->
  Firebase.user_record (Identity.generateUserId username) st = Some doc ->
  Simple.ls_auth st' !! Simple.auth_key (Identity.generateUserId username) = Some userData ->
  (Spec.fails_with Spec.ConflictError st (Firebase.register now username password st)
   /\ Firebase.user_record (Identity.generateUserId username) st = Some doc)
  /\ (Spec.fails_with Spec.ConflictError st' (Simple.register now username password st')
      /\ Simple.ls_auth st' !! Simple.auth_key (Identity.generateUserId username)
         = Some userData).
Proof.
  intros Hu Hp Hdoc Hdata. split; split; try assumption.
  - exact (conflict_firebase now username password st doc Hu Hp Hdoc).
  - exact (conflict_simple now username password st' userData Hu Hp Hdata).
Qed.

Lemma register_existing_user_conflicts_witness :
  (Spec.fails_with Spec.ConflictError Examples.alice_online
     (Firebase.register 1730556060000 "alice" "other" Examples.alice_online)
   /\ Firebase.user_record (Identity.generateUserId "alice") Examples.alice_online
      = Some {| Firebase.username := "Alice";
                Firebase.passwordHash := Identity.hashPassword "secret";
                Firebase.createdAt := 1730556000000 |})
  /\ (Spec.fails_with Spec.ConflictError Examples.alice_simple
        (Simple.register 1730556060000 "alice" "other" Examples.alice_simple)
      /\ Simple.ls_auth Examples.alice_simple
           !! Simple.auth_key (Identity.generateUserId "alice")
         = Some {| Simple.username := "Alice";
                   Simple.passwordHash := Identity.hashPassword "secret";
                   Simple.createdAt := 1730556000000 |}).
Proof.
  apply (register_existing_user_conflicts 1730556060000 "alice" "other").
  - simpl. lia.
  - simpl. lia.
  - vm_compute. reflexivity.
  - vm_compute. reflexivity.
Defined.

Lemma nonempty_truthy (s : string) : s <> "" -> Js.truthy s = true.
Proof. destruct s; [congruence | reflexivity]. Qed.

Ltac pass_nonempty Hu Hp :=
  rewrite (nonempty_truthy _ Hu), (nonempty_truthy _ Hp); cbv beta iota delta [negb orb].

(** The two failures of [AuthManager.login]. *)
Lemma login_unknown_firebase {Tree} (username password : string) (st : Firebase.State Tree) :
  username <> "" -> password <> "" ->
  is_Some (Firebase.firebaseDB st) ->
  Firebase.user_record (Identity.generateUserId username) st = None ->
  Firebase.login username password st
  = (Throw "ユーザー名またはパスワードが正しくありません", st).
Proof.
  intros Hu Hp [db Hdb] Hrec. unfold Firebase.login, Firebase.user_record in *. run.
  pass_nonempty Hu Hp.
  rewrite Hdb in *. rewrite Hrec. reflexivity.
Qed.

Lemma login_wrong_password_firebase {Tree} (username password : string)
    (st : Firebase.State Tree) (doc : Firebase.UserDoc) :
  username <> "" -> password <> "" ->
  Firebase.user_record (Identity.generateUserId username) st = Some doc ->
  Firebase.passwordHash doc <> Identity.hashPassword password ->
  Firebase.login username password st
  = (Throw "ユーザー名またはパスワードが正しくありません", st).
Proof.
  intros Hu Hp Hrec Hne. unfold Firebase.login, Firebase.user_record in *. run.
  pass_nonempty Hu Hp.
  destruct (Firebase.firebaseDB st) as [db |]; [| discriminate]. rewrite Hrec.
  apply String.eqb_neq in Hne. rewrite Hne. reflexivity.
Qed.

(** The two failures of [SimpleAuthManager.login]. *)
Lemma login_unknown_simple {Data} (username password : string) (st : Simple.State Data) :
  username <> "" -> password <> "" ->
  Simple.ls_auth st !! Simple.auth_key (Identity.generateUserId username) = None ->
  Simple.login username password st
  = (Throw "ユーザー名またはパスワードが間違っています", st).
Proof.
  intros Hu Hp Hrec. unfold Simple.login. run.
  pass_nonempty Hu Hp.
  rewrite Hrec. reflexivity.
Qed.

Lemma login_wrong_password_simple {Data} (username password : string)
    (st : Simple.State Data) (userData : Simple.UserData) :
  username <> "" -> password <> "" ->
  Simple.ls_auth st !! Simple.auth_key (Identity.generateUserId username) = Some userData ->
  Simple.passwordHash userData <> Identity.hashPassword password ->
  Simple.login username password st
  = (Throw "ユーザー名またはパスワードが間違っています", st).
Proof.
  intros Hu Hp Hrec Hne. unfold Simple.login. run.
  pass_nonempty Hu Hp.
  rewrite Hrec.
  assert (Hne' : Identity.hashPassword password <> Simple.passwordHash userData) by congruence.
  apply String.eqb_neq in Hne'. rewrite Hne'. reflexivity.
Qed.

(** C8. [login] fails with an [AuthError] that carries the same message
    whether no record exists under the derived identifier ([unknown]) or
    the digest of the supplied password differs from the stored one
    ([known]); the state is unchanged in both cases.  One message for
    [AuthManager] (with a database), one for [SimpleAuthManager]. *)
Theorem login_failures_share_one_message {Tree Data} (username password : string)
    (unknown known : Firebase.State Tree) (unknown' known' : Simple.State Data)
    (doc : Firebase.UserDoc) (userData : Simple.UserData) :
  username <> "" -> password <> "" ->
  is_Some (Firebase.firebaseDB unknown) ->
  Firebase.user_record (Identity.generateUserId username) unknown = None ->
  Firebase.user_record (Identity.generateUserId username) known = Some doc ->
  Firebase.passwordHash doc <> Identity.hashPassword password ->
  Simple.ls_auth unknown' !! Simple.auth_key (Identity.generateUserId username) = None ->
  Simple.ls_auth known' !! Simple.auth_key (Identity.generateUserId username) = Some userData ->
  Simple.passwordHash userData <> Identity.hashPassword password ->
  exists message message',
    Spec.kind_of message = Some Spec.AuthError
    /\ Spec.kind_of message' = Some Spec.AuthError
    /\ Firebase.login username password unknown = (Throw message, unknown)
    /\ Firebase.login username password known = (Throw message, known)
    /\ Simple.login username password unknown' = (Throw message', unknown')
    /\ Simple.login username password known' = (Throw message', known').
Proof.
  intros Hu Hp Hdb Hnone Hsome Hne Hnone' Hsome' Hne'.
  exists "ユーザー名またはパスワードが正しくありません",
         "ユーザー名またはパスワードが間違っています".
  split; [reflexivity |]. split; [reflexivity |].
  split; [exact (login_unknown_firebase _ _ _ Hu Hp Hdb Hnone) |].
  split; [exact (login_wrong_password_firebase _ _ _ _ Hu Hp Hsome Hne) |].
  split; [exact (login_unknown_simple _ _ _ Hu Hp Hnone') |].
  exact (login_wrong_password_simple _ _ _ _ Hu Hp Hsome' Hne').
Qed.

Lemma login_failures_share_one_message_witness :
  exists message message',
    Spec.kind_of message = Some Spec.AuthError
    /\ Spec.kind_of message' = Some Spec.AuthError
    /\ Firebase.login "Alice" "guess" Examples.online = (Throw message, Examples.online)
    /\ Firebase.login "Alice" "guess" Examples.alice_online
       = (Throw message, Examples.alice_online)
    /\ Simple.login "Alice" "guess" Examples.simple = (Throw message', Examples.simple)
    /\ Simple.login "Alice" "guess" Examples.alice_simple
       = (Throw message', Examples.alice_simple).
Proof.
  apply (login_failures_share_one_message "Alice" "guess"
           Examples.online Examples.alice_online Examples.simple Examples.alice_simple
           {| Firebase.username := "Alice";
              Firebase.passwordHash := Identity.hashPassword "secret";
              Firebase.createdAt := 1730556000000 |}
           {| Simple.username := "Alice";
              Simple.passwordHash := Identity.hashPassword "secret";
              Simple.createdAt := 1730556000000 |}).
  - discriminate.
  - discriminate.
  - eexists. reflexivity.
  - vm_compute. reflexivity.
  - vm_compute. reflexivity.
  - vm_compute. discriminate.
  - vm_compute. reflexivity.
  - vm_compute. reflexivity.
  - vm_compute. discriminate.
Defined.

(** What [register] and [login] of [AuthManager] leave when they succeed:
    the two items of [localStorage] and the field [currentUser]. *)
Lemma login_offline {Tree} (username password : string) (st : Firebase.State Tree) :
  username <> "" -> password <> "" ->
  Firebase.firebaseDB st = None ->
  Firebase.login username password st
  = (Ok (Identity.generateUserId username),
     Firebase.set_currentUser (Some username)
       (Firebase.set_ls_userId (Some (Identity.generateUserId username))
          (Firebase.set_ls_currentUser (Some username) st))).
Proof.
  intros Hu Hp Hdb. unfold Firebase.login. run. pass_nonempty Hu Hp.
  rewrite Hdb. reflexivity.
Qed.

Lemma register_offline {Tree} (now : Z) (username password : string) (st : Firebase.State Tree) :
  (3 <= String.length username)%nat -> (4 <= String.length password)%nat ->
  Firebase.firebaseDB st = None ->
  Firebase.register now username password st
  = (Ok (Identity.generateUserId username),
     Firebase.set_currentUser (Some username)
       (Firebase.set_ls_userId (Some (Identity.generateUserId username))
          (Firebase.set_ls_currentUser (Some username) st))).
Proof.
  intros Hu Hp Hdb. unfold Firebase.register. run. pass_checks Hu Hp.
  rewrite Hdb. reflexivity.
Qed.

(** C10, as stated, fails: without [window.firebaseDB] the call
    [register("ab", "pass")], whose arguments are both non-empty, does not
    succeed; it throws the error of the length check. *)
Lemma register_offline_still_validates :
  Firebase.firebaseDB Examples.offline = None
  /\ "ab" <> "" /\ "pass" <> ""
  /\ Firebase.register 1730556000000 "ab" "pass" Examples.offline
     = (Throw "ユーザー名は3文字以上で入力してください", Examples.offline)
  /\ ~ (exists id st', Firebase.register 1730556000000 "ab" "pass" Examples.offline
                       = (Ok id, st')).
Proof.
  split; [reflexivity |]. split; [discriminate |]. split; [discriminate |].
  split; [reflexivity |]. intros (id & st' & H). vm_compute in H. discriminate.
Qed.

(** C10, amended.  In [AuthManager], when [window.firebaseDB] is absent:
    for every non-empty username and password [login] succeeds and returns
    the derived identifier, whatever the password, no record being
    consulted; and for every username of at least 3 characters and
    password of at least 4, [register] succeeds likewise, no duplicate
    being looked for.  Both establish the session and store nothing
    else. *)
Theorem offline_accepts_any_credentials {Tree} (now : Z) (username password : string)
    (st : Firebase.State Tree) :
  username <> "" -> password <> "" ->
  Firebase.firebaseDB st = None ->
  let session :=
    Firebase.set_currentUser (Some username)
      (Firebase.set_ls_userId (Some (Identity.generateUserId username))
         (Firebase.set_ls_currentUser (Some username) st)) in
  Firebase.login username password st = (Ok (Identity.generateUserId username), session)
  /\ ((3 <= String.length username)%nat -> (4 <= String.length password)%nat ->
      Firebase.register now username password st
      = (Ok (Identity.generateUserId username), session)).
Proof.
  intros Hu Hp Hdb session. split.
  - exact (login_offline username password st Hu Hp Hdb).
  - intros Hlu Hlp. exact (register_offline now username password st Hlu Hlp Hdb).
Qed.

Lemma offline_accepts_any_credentials_witness :
  let session :=
    Firebase.set_currentUser (Some "Alice")
      (Firebase.set_ls_userId (Some (Identity.generateUserId "Alice"))
         (Firebase.set_ls_currentUser (Some "Alice") Examples.offline)) in
  Firebase.login "Alice" "guess" Examples.offline
  = (Ok (Identity.generateUserId "Alice"), session)
  /\ Firebase.register 1730556000000 "Alice" "guess" Examples.offline
     = (Ok (Identity.generateUserId "Alice"), session).
Proof.
  destruct (offline_accepts_any_credentials 1730556000000 "Alice" "guess" Examples.offline)
    as [Hlogin Hregister].
  - discriminate.
  - discriminate.
  - reflexivity.
  - split; [exact Hlogin | apply Hregister; simpl; lia].
Defined.

End IdentityProps.

(** ** More on the identity functions and the two authentication managers *)
Module SessionProps.

Lemma all_chars_app (p : ascii -> bool) (a b : string) :
  Spec.all_chars p (a ++ b) = Spec.all_chars p a && Spec.all_chars p b.
Proof.
  induction a as [| c a IH]; [reflexivity |].
  change (String c a ++ b) with (String c (a ++ b)). simpl. rewrite IH.
  apply andb_assoc.
Qed.

Lemma string_length_app (a b : string) :
  String.length (a ++ b) = (String.length a + String.length b)%nat.
Proof.
  induction a as [| c a IH]; [reflexivity |].
  change (String c a ++ b) with (String c (a ++ b)). simpl. rewrite IH. reflexivity.
Qed.





(** *** The shape of a digest *)

Lemma be_bytes_spec (n : nat) (x : Z) :
  length (Sha256.be_bytes n x) = n
  /\ Forall (fun b => 0 <= b < 256) (Sha256.be_bytes n x).
Proof.
  revert x. induction n as [| n IH]; intros x; simpl; [split; [reflexivity | constructor] |].
  destruct (IH (x / 256)) as [Hl Hr]. split.
  - rewrite length_app, Hl. simpl. lia.
  - apply Forall_app. split; [exact Hr |].
    constructor; [apply Z.mod_pos_bound; lia | constructor].
Qed.

Lemma compress_length (h block : list Z) :
  length h = 8%nat -> length (Sha256.compress h block) = 8%nat.
Proof.
  intros Hh. unfold Sha256.compress. rewrite length_map, length_combine, Hh. reflexivity.
Qed.

Lemma digest_shape (msg : list Z) :
  length (Sha256.digest msg) = 32%nat
  /\ Forall (fun b => 0 <= b < 256) (Sha256.digest msg).
Proof.
  unfold Sha256.digest.
  assert (Hh : forall blocks h, length h = 8%nat ->
                 length (fold_left Sha256.compress blocks h) = 8%nat).
  { induction blocks as [| b blocks IH]; intros h Hl; simpl; [exact Hl |].
    apply IH, compress_length, Hl. }
  specialize (Hh (Sha256.chunks (length (Sha256.pad msg)) 64 (Sha256.pad msg)) Sha256.H0 eq_refl).
  destruct (fold_left Sha256.compress _ Sha256.H0)
    as [| a [| b [| c [| d [| e [| f [| g [| i [| j r]]]]]]]]]; try discriminate Hh.
  cbn [flat_map]. rewrite !app_nil_r. split.
  - rewrite !length_app, !(proj1 (be_bytes_spec 4 _)). reflexivity.
  - rewrite !Forall_app. repeat split; apply be_bytes_spec.
Qed.

Lemma hex_digit_hex (d : Z) : 0 <= d < 16 -> Spec.hex_char (Identity.hex_digit d) = true.
Proof.
  intros H.
  assert (d = 0 \/ d = 1 \/ d = 2 \/ d = 3 \/ d = 4 \/ d = 5 \/ d = 6 \/ d = 7 \/ d = 8
          \/ d = 9 \/ d = 10 \/ d = 11 \/ d = 12 \/ d = 13 \/ d = 14 \/ d = 15) as Hd by lia.
  repeat (destruct Hd as [-> | Hd]; [reflexivity |]). subst d. reflexivity.
Qed.

Lemma byte_hex (b : Z) :
  0 <= b < 256 ->
  exists c1 c2,
    Identity.padStart2 (Identity.toString16 b) = String c1 (String c2 EmptyString)
    /\ Spec.hex_char c1 = true /\ Spec.hex_char c2 = true.
Proof.
  intros Hb. unfold Identity.toString16. destruct (b <? 16) eqn:Hlt.
  - apply Z.ltb_lt in Hlt. exists "0"%char, (Identity.hex_digit b).
    repeat split; try reflexivity. apply hex_digit_hex. lia.
  - apply Z.ltb_ge in Hlt. exists (Identity.hex_digit (b / 16)), (Identity.hex_digit (b mod 16)).
    repeat split; apply hex_digit_hex.
    + split; [apply Z.div_pos; lia | apply Z.div_lt_upper_bound; lia].
    + apply Z.mod_pos_bound. lia.
Qed.

Lemma join_hex (bytes : list Z) :
  Forall (fun b => 0 <= b < 256) bytes ->
  String.length
    (Identity.join (map (fun b => Identity.padStart2 (Identity.toString16 b)) bytes))
  = (2 * length bytes)%nat
  /\ Spec.all_chars Spec.hex_char
       (Identity.join (map (fun b => Identity.padStart2 (Identity.toString16 b)) bytes))
     = true.
Proof.
  induction 1 as [| b bytes Hb _ [IHl IHc]]; [split; reflexivity |].
  destruct (byte_hex b Hb) as (c1 & c2 & Heq & H1 & H2).
  cbn [map Identity.join]. rewrite Heq.
  change (String c1 (String c2 EmptyString) ++ ?r) with (String c1 (String c2 r)).
  cbn [String.length Spec.all_chars length]. rewrite IHl, IHc, H1, H2.
  split; [lia | reflexivity].
Qed.

(** X2. Whatever the password, [hashPassword] returns 64 characters, each
    of them a digit of lower-case hexadecimal. *)
Theorem hashPassword_shape (password : string) :
  String.length (Identity.hashPassword password) = 64%nat
  /\ Spec.all_chars Spec.hex_char (Identity.hashPassword password) = true.
Proof.
  unfold Identity.hashPassword.
  destruct (digest_shape (Identity.encode password)) as [Hl Hr].
  destruct (join_hex _ Hr) as [Hjl Hjc]. rewrite Hjl, Hl. split; [reflexivity | exact Hjc].
Qed.

(** *** Sessions *)

(** What a successful [register] or [login] of [AuthManager] tells. *)
Lemma register_success {Tree} (now : Z) (username password id : string)
    (st st1 : Firebase.State Tree) :
  Firebase.register now username password st = (Ok id, st1) ->
  username <> "" /\ password <> "" /\ id = Identity.generateUserId username.
Proof.
  unfold Firebase.register. run.
  destruct username; [discriminate |]. destruct password; [discriminate |].
  cbn [Js.truthy negb orb].
  destruct (Z.of_nat (String.length (String a username)) <? 3); [discriminate |].
  destruct (Z.of_nat (String.length (String a0 password)) <? 4); [discriminate |].
  destruct (Firebase.firebaseDB st) as [db |];
    [destruct (Firebase.users db !! _); [discriminate |] |];
    intros [= <- _]; repeat split; discriminate.
Qed.

Lemma login_success {Tree} (username password id : string) (st st1 : Firebase.State Tree) :
  Firebase.login username password st = (Ok id, st1) ->
  username <> "" /\ id = Identity.generateUserId username
  /\ st1 = Firebase.set_currentUser (Some username)
             (Firebase.set_ls_userId (Some id)
                (Firebase.set_ls_currentUser (Some username) st)).
Proof.
  unfold Firebase.login. run.
  destruct (Js.truthy username) eqn:Hu; [| discriminate].
  destruct (Js.truthy password) eqn:Hp; [| discriminate].
  cbn [negb orb].
  assert (Hne : username <> "") by (intros ->; discriminate).
  destruct (Firebase.firebaseDB st) as [db |].
  - destruct (Firebase.users db !! _) as [doc |]; [| discriminate].
    destruct (negb (String.eqb _ _)); [discriminate |].
    intros [= <- <-]. auto.
  - intros [= <- <-]. auto.
Qed.

(** X3. With a database, after a successful [register] the same password
    logs in under every non-empty username that derives the same
    identifier, and returns that identifier; a non-empty password with
    another digest is refused and changes nothing. *)
Theorem login_after_register {Tree} (now : Z) (username password other guess id : string)
    (st st1 : Firebase.State Tree) :
  is_Some (Firebase.firebaseDB st) ->
  Firebase.register now username password st = (Ok id, st1) ->
  other <> "" ->
  Identity.generateUserId other = Identity.generateUserId username ->
  Firebase.login other password st1
  = (Ok id,
     Firebase.set_currentUser (Some other)
       (Firebase.set_ls_userId (Some id) (Firebase.set_ls_currentUser (Some other) st1)))
  /\ (guess <> "" -> Identity.hashPassword guess <> Identity.hashPassword password ->
      exists message, Firebase.login other guess st1 = (Throw message, st1)).
Proof.
  intros Hdb Hreg Hother Hid.
  destruct (register_success _ _ _ _ _ _ Hreg) as (_ & Hp & _).
  destruct (IdentityProps.register_leaves_record_firebase _ _ _ _ _ _ Hdb Hreg) as [-> Hrec].
  rewrite <- Hid in *. split.
  - unfold Firebase.login, Firebase.user_record in *. run.
    rewrite (IdentityProps.nonempty_truthy _ Hother), (IdentityProps.nonempty_truthy _ Hp).
    cbn [negb orb].
    destruct (Firebase.firebaseDB st1) as [db1 |]; [| discriminate].
    rewrite Hrec. cbn [Firebase.passwordHash]. rewrite String.eqb_refl. reflexivity.
  - intros Hg Hne. eexists.
    apply (IdentityProps.login_wrong_password_firebase other guess st1 _ Hother Hg Hrec).
    cbn [Firebase.passwordHash]. congruence.
Qed.

Lemma login_after_register_witness :
  Firebase.login "ALICE" "secret" Examples.alice_online
  = (Ok "user_alice",
     Firebase.set_currentUser (Some "ALICE")
       (Firebase.set_ls_userId (Some "user_alice")
          (Firebase.set_ls_currentUser (Some "ALICE") Examples.alice_online)))
  /\ exists message,
       Firebase.login "ALICE" "guess" Examples.alice_online
       = (Throw message, Examples.alice_online).
Proof.
  destruct (login_after_register 1730556000000 "Alice" "secret" "ALICE" "guess" "user_alice"
              Examples.online Examples.alice_online) as [Hok Hbad].
  - eexists. reflexivity.
  - vm_compute. reflexivity.
  - discriminate.
  - reflexivity.
  - split; [exact Hok |]. apply Hbad; [discriminate |]. vm_compute. discriminate.
Defined.

(** X4. The same for [SimpleAuthManager], whose records are in
    [localStorage]: after a successful [register] the same password logs
    in under every non-empty username that derives the same identifier; a
    non-empty password with another digest is refused and changes
    nothing. *)
Theorem login_after_register_simple {Data} (now : Z) (username password other guess : string)
    (st st1 : Simple.State Data) :
  Simple.register now username password st = (Ok true, st1) ->
  other <> "" ->
  Identity.generateUserId other = Identity.generateUserId username ->
  Simple.login other password st1
  = (Ok true,
     Simple.set_currentUser (Some other)
       (Simple.set_ls_currentUserId (Some (Identity.generateUserId username)) st1))
  /\ (guess <> "" -> Identity.hashPassword guess <> Identity.hashPassword password ->
      exists message, Simple.login other guess st1 = (Throw message, st1)).
Proof.
  intros Hreg Hother Hid.
  pose proof (IdentityProps.register_leaves_record_simple _ _ _ _ _ Hreg) as Hrec.
  assert (Hp : password <> "").
  { intros ->. unfold Simple.register in Hreg. run.
    rewrite orb_true_r in Hreg. discriminate. }
  rewrite <- Hid in *. split.
  - unfold Simple.login. run.
    rewrite (IdentityProps.nonempty_truthy _ Hother), (IdentityProps.nonempty_truthy _ Hp).
    cbn [negb orb]. rewrite Hrec. cbn [Simple.passwordHash].
    rewrite String.eqb_refl. reflexivity.
  - intros Hg Hne. eexists.
    apply (IdentityProps.login_wrong_password_simple other guess st1 _ Hother Hg Hrec).
    cbn [Simple.passwordHash]. congruence.
Qed.

Lemma login_after_register_simple_witness :
  Simple.login "a.b" "secret" (snd (Simple.register 1730556000000 "A_B" "secret" Examples.simple))
  = (Ok true,
     Simple.set_currentUser (Some "a.b")
       (Simple.set_ls_currentUserId (Some (Identity.generateUserId "A_B"))
          (snd (Simple.register 1730556000000 "A_B" "secret" Examples.simple))))
  /\ exists message,
       Simple.login "a.b" "guess"
         (snd (Simple.register 1730556000000 "A_B" "secret" Examples.simple))
       = (Throw message, snd (Simple.register 1730556000000 "A_B" "secret" Examples.simple)).
Proof.
  destruct (login_after_register_simple 1730556000000 "A_B" "secret" "a.b" "guess"
              Examples.simple
              (snd (Simple.register 1730556000000 "A_B" "secret" Examples.simple)))
    as [Hok Hbad].
  - vm_compute. reflexivity.
  - discriminate.
  - reflexivity.
  - split; [exact Hok |]. apply Hbad; [discriminate |]. vm_compute. discriminate.
Defined.

(** X5. After a successful [login] of [AuthManager], [isLoggedIn] answers
    true and [getCurrentUser] gives the username.  After [logout],
    [isLoggedIn] answers false and [getCurrentUser] gives nothing, while
    the item [userId] is kept, so that [loadData] still reads the tree of
    the user who left. *)
Theorem session_lifecycle {Tree} (username password id : string)
    (st st1 : Firebase.State Tree) :
  Firebase.login username password st = (Ok id, st1) ->
  Firebase.isLoggedIn st1 = (Ok true, st1)
  /\ Firebase.getCurrentUser st1 = (Ok (Some username), st1)
  /\ let st2 := snd (Firebase.logout st1) in
     Firebase.isLoggedIn st2 = (Ok false, st2)
     /\ Firebase.getCurrentUser st2 = (Ok None, st2)
     /\ Firebase.ls_userId st2 = Some id
     /\ fst (Firebase.loadData st2) = fst (Firebase.loadData st1).
Proof.
  intros Hlogin. destruct (login_success _ _ _ _ _ Hlogin) as (Hu & _ & ->).
  apply IdentityProps.nonempty_truthy in Hu.
  unfold Firebase.isLoggedIn, Firebase.getCurrentUser, Firebase.logout, Firebase.loadData.
  run. cbn. rewrite Hu. cbn. repeat split.
Qed.

Lemma session_lifecycle_witness :
  let st1 := snd (Firebase.login "Alice" "secret" Examples.alice_online) in
  Firebase.isLoggedIn st1 = (Ok true, st1)
  /\ Firebase.getCurrentUser st1 = (Ok (Some "Alice"), st1)
  /\ let st2 := snd (Firebase.logout st1) in
     Firebase.isLoggedIn st2 = (Ok false, st2)
     /\ Firebase.getCurrentUser st2 = (Ok None, st2)
     /\ Firebase.ls_userId st2 = Some "user_alice"
     /\ fst (Firebase.loadData st2) = fst (Firebase.loadData st1).
Proof.
  apply (session_lifecycle "Alice" "secret" "user_alice" Examples.alice_online).
  vm_compute. reflexivity.
Defined.

(** X6. [SimpleAuthManager.isLoggedIn] answers true exactly when the item
    [currentUserId] is a non-empty identifier under which a user record is
    stored; it then sets [currentUser] to the username of that record, and
    otherwise changes nothing.  So it answers true after a successful
    [register] and false after [logout]. *)
Theorem isLoggedIn_simple {Data} (st : Simple.State Data) :
  (forall userId userData,
     Simple.ls_currentUserId st = Some userId -> userId <> "" ->
     Simple.ls_auth st !! Simple.auth_key userId = Some userData ->
     Simple.isLoggedIn st
     = (Ok true, Simple.set_currentUser (Some (Simple.username userData)) st))
  /\ ((forall userId, Simple.ls_currentUserId st = Some userId -> userId <> "" ->
                      Simple.ls_auth st !! Simple.auth_key userId = None) ->
      Simple.isLoggedIn st = (Ok false, st))
  /\ (forall now username password st1,
        Simple.register now username password st = (Ok true, st1) ->
        fst (Simple.isLoggedIn st1) = Ok true
        /\ Simple.currentUser (snd (Simple.isLoggedIn st1)) = Some username
        /\ fst (Simple.isLoggedIn (snd (Simple.logout st1))) = Ok false).
Proof.
  split; [| split].
  - intros userId userData Hid Hne Hrec. unfold Simple.isLoggedIn. run.
    rewrite Hid, (IdentityProps.nonempty_truthy _ Hne), Hrec. reflexivity.
  - intros Hnone. unfold Simple.isLoggedIn. run.
    destruct (Simple.ls_currentUserId st) as [userId |] eqn:Hid; [| reflexivity].
    destruct (Js.truthy userId) eqn:Ht; [| reflexivity].
    rewrite (Hnone userId eq_refl); [reflexivity |]. intros ->. discriminate.
  - intros now username password st1 Hreg.
    pose proof (IdentityProps.register_leaves_record_simple _ _ _ _ _ Hreg) as Hrec.
    unfold Simple.register in Hreg. run.
    destruct (negb (Js.truthy username) || negb (Js.truthy password)); [discriminate |].
    destruct (Z.of_nat (String.length username) <? 3); [discriminate |].
    destruct (Z.of_nat (String.length password) <? 4); [discriminate |].
    destruct (Simple.ls_auth st !! _); [discriminate |].
    injection Hreg as <-. unfold Simple.isLoggedIn, Simple.logout. run.
    cbn in *. rewrite Hrec. cbn. repeat split.
Qed.

End SessionProps.

(** ** More on the reconciliation layer *)
Module CloudProps.

Section Cloud.
Context {Tree : Type}.
Implicit Types (st : Firebase.State Tree) (data : Firebase.BookmarksDoc Tree).

(** [saveData] with the flag unset writes [localStorage] and nothing
    else. *)
Lemma saveData_disabled (now : Z) st :
  Firebase.syncEnabled st = false ->
  Firebase.saveData now st
  = (Ok tt,
     Firebase.set_ls_lastLocalChange (Some (Js.Number_toString now))
       (Firebase.set_ls_bookmarkData
          (<[Firebase.bookmarkData_key (Firebase.ls_userId st) := Firebase.categories st]>
             (Firebase.ls_bookmarkData st)) st)).
Proof.
  intros Hoff. unfold Firebase.saveData. run. cbn. rewrite Hoff. reflexivity.
Qed.

(** [saveData] with the flag set, a database and a user identifier also
    issues one upload of the tree. *)
Lemma saveData_enabled (now : Z) st (db : Firebase.Firestore Tree) (u : string) :
  Firebase.syncEnabled st = true ->
  Firebase.firebaseDB st = Some db -> Firebase.userId st = Some u -> Js.truthy u = true ->
  Firebase.saveData now st
  = (Ok tt,
     Firebase.set_issued (Firebase.issued st ++ [(u, Firebase.upload_doc now st)])
       (Firebase.set_ls_lastLocalChange (Some (Js.Number_toString now))
          (Firebase.set_ls_bookmarkData
             (<[Firebase.bookmarkData_key (Firebase.ls_userId st) := Firebase.categories st]>
                (Firebase.ls_bookmarkData st)) st))).
Proof.
  intros Hon Hdb Hu Ht. unfold Firebase.saveData, Firebase.uploadToCloud_unawaited. run.
  cbn. rewrite Hon. cbn. rewrite Hdb, Hu. cbn. rewrite Ht. reflexivity.
Qed.


(** X8. While syncing, applying a remote change uploads it again: the
    listener that takes a newer remote tree issues one write of that same
    tree, stamped with the time of the application. *)
Theorem applied_change_is_uploaded_again (now t : Z) data st (u : string) :
  Firebase.syncEnabled st = true ->
  Firebase.not_ready st = false ->
  Firebase.userId st = Some u ->
  Firebase.recorded_lastLocalChange t st ->
  Firebase.number_of (Firebase.lastSyncTime st) < Firebase.number_of (Firebase.lastModified data) ->
  t < Firebase.number_of (Firebase.lastModified data) ->
  exists st',
    Firebase.onSnapshot now (Some data) st = (Ok tt, st')
    /\ Firebase.categories st' = Firebase.doc_categories data
    /\ Firebase.issued st'
       = (Firebase.issued st
          ++ [(u, {| Firebase.doc_categories := Firebase.doc_categories data;
                     Firebase.lastModified := Some now |})])%list.
Proof.
  intros Hon Hready Hu Hrec Hpush Ht.
  destruct (SyncProps.not_ready_inv st Hready) as (db & u' & Hdb & Hu' & Htr).
  assert (u' = u) as -> by congruence.
  pose proof (SyncProps.localTime_recorded t st Hrec) as Hlocal.
  unfold Firebase.onSnapshot. run.
  replace (_ <=? _) with false by (symmetry; apply Z.leb_gt; lia).
  cbv beta. rewrite Hlocal. unfold Firebase.gt_number.
  replace (t <? _) with true by (symmetry; apply Z.ltb_lt; lia).
  rewrite (saveData_enabled now _ db u) by assumption.
  eexists. split; [reflexivity |]. split; reflexivity.
Qed.

(** X9. Push and pull, in a session with a database and a user
    identifier.  After a push that resolved, a download that succeeds
    returns the tree that was pushed.  A download never throws and never
    changes the state; it returns nothing when the fetch fails and when
    the cloud holds no document for the user. *)
Theorem download_after_upload (now later : Z) (outcome : Firebase.Fetch) st :
  Firebase.not_ready st = false ->
  (exists st1,
     Firebase.uploadToCloud now (Firebase.Resolved later) st = (Ok tt, st1)
     /\ Firebase.downloadFromCloud Firebase.Fetched st1
        = (Ok (Some (Firebase.categories st)), st1))
  /\ (exists result,
        Firebase.downloadFromCloud outcome st = (Ok result, st)
        /\ (forall error, outcome = Firebase.FetchFailed error -> result = None)
        /\ (forall db u, Firebase.firebaseDB st = Some db -> Firebase.userId st = Some u ->
                         Firebase.bookmarks db !! u = None -> result = None)).
Proof.
  intros Hready.
  destruct (SyncProps.not_ready_inv st Hready) as (db & u & Hdb & Hu & Ht). split.
  - rewrite (SyncProps.uploadToCloud_resolved now later db u st Hdb Hu Ht).
    eexists. split; [reflexivity |].
    unfold Firebase.downloadFromCloud. run. cbn. rewrite Hu, Ht. cbn.
    rewrite lookup_insert_eq. reflexivity.
  - unfold Firebase.downloadFromCloud. run. rewrite Hdb, Hu, Ht. cbn.
    destruct outcome as [| error].
    + destruct (Firebase.bookmarks db !! u) as [doc |] eqn:Hdoc; eexists;
        (split; [reflexivity |]); split; try discriminate.
      * intros db' u' [= <-] [= <-] H. congruence.
      * reflexivity.
    + eexists. split; [reflexivity |]. split; reflexivity.
Qed.

(** A session that is not ready downloads nothing. *)
Lemma download_not_ready (outcome : Firebase.Fetch) st :
  Firebase.not_ready st = true ->
  Firebase.downloadFromCloud outcome st = (Ok None, st).
Proof.
  unfold Firebase.not_ready, Firebase.no_userId, Firebase.downloadFromCloud. run.
  destruct (Firebase.firebaseDB st); [| reflexivity].
  destruct (Firebase.userId st) as [u |]; [| reflexivity].
  intros ->. reflexivity.
Qed.

(** X10. The time [saveData] writes under [lastLocalChange] is the time the
    listener reads back: after [saveData] at [now], the local time the
    listener compares a notification with is [now]. *)
Theorem lastLocalChange_round_trip (now : Z) st :
  exists st',
    Firebase.saveData now st = (Ok tt, st')
    /\ Firebase.recorded_lastLocalChange now st'
    /\ Js.parseInt (Firebase.lastLocalChange_or_0 (Firebase.ls_lastLocalChange st'))
       = Some now.
Proof.
  destruct (SyncProps.saveData_spec now st) as (st' & Heq & _ & _ & Htime & _).
  exists st'. split; [exact Heq |].
  assert (Hrec : Firebase.recorded_lastLocalChange now st').
  { unfold Firebase.recorded_lastLocalChange. rewrite Htime. reflexivity. }
  split; [exact Hrec | apply SyncProps.localTime_recorded; exact Hrec].
Qed.

(** A download never throws and never changes the state. *)
Lemma download_after_upload_total (outcome : Firebase.Fetch) st :
  exists result,
    Firebase.downloadFromCloud outcome st = (Ok result, st)
    /\ (Firebase.not_ready st = true -> result = None).
Proof.
  unfold Firebase.downloadFromCloud, Firebase.not_ready, Firebase.no_userId. run.
  destruct (Firebase.firebaseDB st) as [db |]; [| eexists; split; reflexivity].
  destruct (Firebase.userId st) as [u |]; [| eexists; split; reflexivity].
  destruct (Js.truthy u); cbn; [| eexists; split; reflexivity].
  destruct outcome as [| error];
    [destruct (Firebase.bookmarks db !! u) |]; eexists; split; try reflexivity; discriminate.
Qed.

End Cloud.


Lemma applied_change_is_uploaded_again_witness :
  exists st',
    Firebase.onSnapshot 1730556009400 (Some Examples.remote_doc) Examples.alice_edited
    = (Ok tt, st')
    /\ Firebase.categories st' = Firebase.doc_categories Examples.remote_doc
    /\ Firebase.issued st'
       = (Firebase.issued Examples.alice_edited
          ++ [("user_alice",
               {| Firebase.doc_categories := Firebase.doc_categories Examples.remote_doc;
                  Firebase.lastModified := Some 1730556009400 |})])%list.
Proof.
  apply (applied_change_is_uploaded_again 1730556009400 1730556005000 Examples.remote_doc
           Examples.alice_edited "user_alice"); vm_compute; reflexivity.
Defined.

Lemma download_after_upload_witness :
  exists st1,
    Firebase.uploadToCloud 1730556001000 (Firebase.Resolved 1730556001200) Examples.alice_ready
    = (Ok tt, st1)
    /\ Firebase.downloadFromCloud Firebase.Fetched st1 = (Ok (Some Examples.tree), st1).
Proof.
  destruct (download_after_upload 1730556001000 1730556001200 Firebase.Fetched
              Examples.alice_ready) as [Hpushed _].
  - vm_compute. reflexivity.
  - exact Hpushed.
Defined.

(** *** [syncNow] *)

Implicit Types (s : Firebase.State (list Category.t)).

Lemma enableSync_resolved {Tree} (now later : Z) (st : Firebase.State Tree)
    (db : Firebase.Firestore Tree) (u : string) :
  Firebase.firebaseDB st = Some db -> Firebase.userId st = Some u -> Js.truthy u = true ->
  exists st',
    Firebase.enableSync now (Firebase.Resolved later) st = (Ok true, st')
    /\ Firebase.syncEnabled st' = true
    /\ Firebase.unsubscribe st' = true
    /\ Firebase.categories st' = Firebase.categories st
    /\ Firebase.firebaseDB st'
       = Some (Firebase.setBookmarksDoc u (Firebase.upload_doc now st) db)
    /\ Firebase.ls_bookmarkData st' = Firebase.ls_bookmarkData st
    /\ Firebase.ls_userId st' = Firebase.ls_userId st.
Proof.
  intros Hdb Hu Ht.
  assert (Hready : Firebase.not_ready st = false).
  { unfold Firebase.not_ready, Firebase.no_userId. rewrite Hdb, Hu, Ht. reflexivity. }
  unfold Firebase.enableSync. run. rewrite Hready.
  rewrite (SyncProps.uploadToCloud_resolved now later db u) by assumption.
  unfold Firebase.listenToChanges. run. cbn. rewrite Hu. cbn. rewrite Ht. cbn.
  destruct (Firebase.unsubscribe st) eqn:Hunsub; cbn;
    eexists; repeat split; try reflexivity; cbn; assumption.
Qed.

Lemma enableSync_rejected {Tree} (now : Z) (error : string) (st : Firebase.State Tree) :
  Firebase.syncEnabled st = false ->
  Firebase.enableSync now (Firebase.Rejected error) st = (Ok false, st).
Proof.
  intros Hoff. unfold Firebase.enableSync. run.
  destruct (Firebase.not_ready st) eqn:Hready; [reflexivity |].
  rewrite SyncProps.uploadToCloud_rejected by exact Hready.
  rewrite SyncProps.syncEnabled_restored by exact Hoff. reflexivity.
Qed.

(** X11. The first [syncNow] of a session whose cloud document holds a
    non-empty tree, when fetch and push succeed: it returns true with
    syncing enabled and the listener attached.  If the user accepts, the
    cloud tree replaces the local one and is stored; if the user declines,
    the local tree is kept and replaces the one in the cloud.  Either way
    the cloud document ends up holding the tree of the session. *)
Theorem syncNow_first_choice (now later : Z) (merge : bool) s
    (db : Firebase.Firestore (list Category.t)) (u : string)
    (cloud : Firebase.BookmarksDoc (list Category.t)) :
  Firebase.syncEnabled s = false ->
  Firebase.firebaseDB s = Some db -> Firebase.userId s = Some u -> u <> "" ->
  Firebase.bookmarks db !! u = Some cloud ->
  Firebase.doc_categories cloud <> [] ->
  exists s' db',
    Firebase.syncNow now Firebase.Fetched merge (Firebase.Resolved later) s = (Ok true, s')
    /\ Firebase.syncEnabled s' = true
    /\ Firebase.unsubscribe s' = true
    /\ Firebase.categories s'
       = (if merge then Firebase.doc_categories cloud else Firebase.categories s)
    /\ (merge = true -> Spec.persisted s')
    /\ Firebase.firebaseDB s' = Some db'
    /\ Firebase.bookmarks db' !! u
       = Some {| Firebase.doc_categories := Firebase.categories s';
                 Firebase.lastModified := Some now |}.
Proof.
  intros Hoff Hdb Hu Hne Hcloud Hnonempty.
  apply IdentityProps.nonempty_truthy in Hne.
  unfold Firebase.syncNow. run. rewrite Hoff. cbn [negb].
  unfold Firebase.downloadFromCloud. run. rewrite Hdb, Hu, Hne. cbn [negb].
  rewrite Hcloud.
  destruct (Firebase.doc_categories cloud) as [| c cs] eqn:Hcats; [contradiction |].
  destruct merge.
  - rewrite (saveData_disabled now (Firebase.set_categories (c :: cs) s) Hoff).
    match goal with |- context [Firebase.enableSync now _ ?x] =>
      destruct (enableSync_resolved now later x db u Hdb Hu Hne)
        as (s' & -> & Hon & Hsub & Hc & Hfb & Hls & Hid) end.
    exists s'. eexists. split; [reflexivity |]. split; [exact Hon |]. split; [exact Hsub |].
    split; [exact Hc |]. split.
    + intros _. unfold Spec.persisted. rewrite Hls, Hid, Hc. cbn. apply lookup_insert_eq.
    + split; [exact Hfb |]. cbn. rewrite lookup_insert_eq, Hc. reflexivity.
  - destruct (enableSync_resolved now later s db u Hdb Hu Hne)
      as (s' & -> & Hon & Hsub & Hc & Hfb & _).
    exists s'. eexists. split; [reflexivity |]. split; [exact Hon |]. split; [exact Hsub |].
    split; [exact Hc |]. split; [discriminate |].
    split; [exact Hfb |]. cbn. rewrite lookup_insert_eq, Hc. reflexivity.
Qed.

(** X12. A download that fails is taken for an empty cloud: the first
    [syncNow] then asks nothing and, when its push succeeds, replaces
    whatever document the cloud held by the local tree. *)
Theorem syncNow_failed_download_overwrites (now later : Z) (merge : bool) (error : string) s
    (db : Firebase.Firestore (list Category.t)) (u : string) :
  Firebase.syncEnabled s = false ->
  Firebase.firebaseDB s = Some db -> Firebase.userId s = Some u -> u <> "" ->
  exists s' db',
    Firebase.syncNow now (Firebase.FetchFailed error) merge (Firebase.Resolved later) s
    = (Ok true, s')
    /\ Firebase.categories s' = Firebase.categories s
    /\ Firebase.firebaseDB s' = Some db'
    /\ Firebase.bookmarks db' !! u = Some (Firebase.upload_doc now s).
Proof.
  intros Hoff Hdb Hu Hne. apply IdentityProps.nonempty_truthy in Hne.
  unfold Firebase.syncNow. run. rewrite Hoff. cbn [negb].
  unfold Firebase.downloadFromCloud. run. rewrite Hdb, Hu, Hne. cbn [negb].
  destruct (enableSync_resolved now later s db u Hdb Hu Hne)
    as (s' & -> & _ & _ & Hc & Hfb & _).
  exists s'. eexists. split; [reflexivity |]. split; [exact Hc |].
  split; [exact Hfb |]. cbn. apply lookup_insert_eq.
Qed.

(** X13. [syncNow] does not report a failure to enable: from the Disabled
    state it returns true also when the push of [enableSync] is rejected,
    although syncing is then not enabled and no listener is attached. *)
Theorem syncNow_reports_success_on_failure (now : Z) (fetch : Firebase.Fetch) (merge : bool)
    (error : string) s :
  Firebase.syncEnabled s = false ->
  exists s',
    Firebase.syncNow now fetch merge (Firebase.Rejected error) s = (Ok true, s')
    /\ Firebase.syncEnabled s' = false
    /\ Firebase.unsubscribe s' = Firebase.unsubscribe s
    /\ Firebase.firebaseDB s' = Firebase.firebaseDB s.
Proof.
  intros Hoff. unfold Firebase.syncNow. run. rewrite Hoff. cbn [negb].
  destruct (download_after_upload_total fetch s) as (result & -> & _).
  destruct result as [[| c cs] |]; try destruct merge; cbv beta iota;
    try rewrite (saveData_disabled now (Firebase.set_categories (c :: cs) s) Hoff);
    rewrite enableSync_rejected by exact Hoff;
    eexists; repeat split; cbn; try exact Hoff; reflexivity.
Qed.

(** X14. Once detached, the listener is not attached again by [syncNow]:
    after [stopListening] in a session whose flag is set, [syncNow] pushes
    and returns true, and the session stays without listener. *)
Theorem syncNow_after_stopListening (now later : Z) (fetch : Firebase.Fetch) (merge : bool) s :
  Firebase.syncEnabled s = true ->
  exists s',
    Firebase.syncNow now fetch merge (Firebase.Resolved later) (snd (Firebase.stopListening s))
    = (Ok true, s')
    /\ Firebase.unsubscribe s' = false
    /\ Firebase.syncEnabled s' = true.
Proof.
  intros Hon. unfold Firebase.syncNow, Firebase.stopListening, Firebase.uploadToCloud. run.
  destruct (Firebase.unsubscribe s) eqn:Hsub; cbn; rewrite Hon; cbn;
    (destruct (Firebase.firebaseDB s) as [db |];
       [destruct (Firebase.userId s) as [u |]; [destruct (Js.truthy u) |] |]);
    cbn; eexists; repeat split; cbn; assumption.
Qed.

Lemma syncNow_first_choice_witness :
  exists s',
    Firebase.syncNow 1730556020000 Firebase.Fetched true (Firebase.Resolved 1730556020300)
      Examples.alice_elsewhere
    = (Ok true, s')
    /\ Firebase.categories s' = Examples.tree
    /\ Spec.persisted s'.
Proof.
  destruct (syncNow_first_choice 1730556020000 1730556020300 true Examples.alice_elsewhere
              Examples.cloud_db "user_alice"
              (Firebase.upload_doc 1730556001000 Examples.alice_ready))
    as (s' & db' & Hsync & _ & _ & Hcats & Hstored & _).
  - vm_compute. reflexivity.
  - vm_compute. reflexivity.
  - vm_compute. reflexivity.
  - discriminate.
  - vm_compute. reflexivity.
  - discriminate.
  - exists s'. split; [exact Hsync |]. split; [exact Hcats | apply Hstored; reflexivity].
Defined.

Lemma syncNow_failed_download_overwrites_witness :
  exists s' db',
    Firebase.syncNow 1730556020000 (Firebase.FetchFailed "unavailable") false
      (Firebase.Resolved 1730556020300) Examples.alice_elsewhere
    = (Ok true, s')
    /\ Firebase.categories s' = Firebase.categories Examples.alice_elsewhere
    /\ Firebase.firebaseDB s' = Some db'
    /\ Firebase.bookmarks db' !! "user_alice"
       = Some (Firebase.upload_doc 1730556020000 Examples.alice_elsewhere).
Proof.
  apply (syncNow_failed_download_overwrites 1730556020000 1730556020300 false "unavailable"
           Examples.alice_elsewhere Examples.cloud_db "user_alice").
  - vm_compute. reflexivity.
  - vm_compute. reflexivity.
  - vm_compute. reflexivity.
  - discriminate.
Defined.

Lemma syncNow_reports_success_on_failure_witness :
  exists s',
    Firebase.syncNow 1730556001000 Firebase.Fetched false (Firebase.Rejected "permission-denied")
      Examples.alice_ready
    = (Ok true, s')
    /\ Firebase.syncEnabled s' = false
    /\ Firebase.unsubscribe s' = Firebase.unsubscribe Examples.alice_ready
    /\ Firebase.firebaseDB s' = Firebase.firebaseDB Examples.alice_ready.
Proof.
  apply (syncNow_reports_success_on_failure 1730556001000 Firebase.Fetched false
           "permission-denied" Examples.alice_ready).
  vm_compute. reflexivity.
Defined.

Lemma syncNow_after_stopListening_witness :
  exists s',
    Firebase.syncNow 1730556030000 Firebase.Fetched true (Firebase.Resolved 1730556030200)
      (snd (Firebase.stopListening Examples.alice_syncing))
    = (Ok true, s')
    /\ Firebase.unsubscribe s' = false
    /\ Firebase.syncEnabled s' = true.
Proof.
  apply (syncNow_after_stopListening 1730556030000 1730556030200 Firebase.Fetched true
           Examples.alice_syncing).
  vm_compute. reflexivity.
Defined.

End CloudProps.

(** ** More on the bookmark store *)
Module TreeProps.

Implicit Types (st : Firebase.State (list Category.t)) (cats : list Category.t).

Lemma saveData_stores {Tree} (now : Z) (s : Firebase.State Tree) :
  exists s',
    Firebase.saveData now s = (Ok tt, s')
    /\ Firebase.categories s' = Firebase.categories s
    /\ Firebase.ls_userId s' = Firebase.ls_userId s
    /\ Firebase.ls_bookmarkData s'
       = <[Firebase.bookmarkData_key (Firebase.ls_userId s) := Firebase.categories s]>
           (Firebase.ls_bookmarkData s).
Proof.
  unfold Firebase.saveData, Firebase.uploadToCloud_unawaited. run. cbn.
  destruct (Firebase.syncEnabled s); cbn;
    [destruct (Firebase.firebaseDB s) as [db |];
       [destruct (Firebase.userId s) as [u |]; [destruct (Js.truthy u) |] |] |];
    cbn; eexists; repeat split.
Qed.

Lemma saveData_persists {Tree} (now : Z) (s : Firebase.State Tree) :
  exists s',
    Firebase.saveData now s = (Ok tt, s')
    /\ Spec.persisted s'
    /\ Firebase.ls_userId s' = Firebase.ls_userId s
    /\ forall key, key <> Firebase.bookmarkData_key (Firebase.ls_userId s) ->
                   Firebase.ls_bookmarkData s' !! key = Firebase.ls_bookmarkData s !! key.
Proof.
  destruct (saveData_stores now s) as (s' & Heq & Hc & Hu & Hd).
  exists s'. split; [exact Heq |]. split; [| split; [exact Hu |]].
  - unfold Spec.persisted. rewrite Hd, Hu, Hc. apply lookup_insert_eq.
  - intros key Hkey. rewrite Hd. apply lookup_insert_ne. congruence.
Qed.

(** What every operation of the store does to [localStorage]: either it
    leaves the state as it was, or it ends with [saveData]. *)
Lemma perform_saves (now : Z) (op : Firebase.Op) st :
  Firebase.perform now op st = st
  \/ exists s, Firebase.ls_userId s = Firebase.ls_userId st
               /\ Firebase.ls_bookmarkData s = Firebase.ls_bookmarkData st
               /\ Firebase.perform now op st = snd (Firebase.saveData now s).
Proof.
  destruct op; cbn [Firebase.perform].
  - right. unfold Firebase.addCategory. run.
    match goal with |- context [Firebase.saveData now ?s] =>
      exists s; destruct (saveData_stores now s) as (s' & -> & _) end.
    repeat split.
  - unfold Firebase.updateCategory. run.
    destruct (find _ _); [right | left; reflexivity].
    match goal with |- context [Firebase.saveData now ?s] =>
      exists s; destruct (saveData_stores now s) as (s' & -> & _) end.
    repeat split.
  - unfold Firebase.deleteCategory. run.
    destruct (Model.findIndex _ _); [right | left; reflexivity].
    match goal with |- context [Firebase.saveData now ?s] =>
      exists s; destruct (saveData_stores now s) as (s' & -> & _) end.
    repeat split.
  - unfold Firebase.addBookmark. run.
    destruct (find _ _); [right | left; reflexivity].
    match goal with |- context [Firebase.saveData now ?s] =>
      exists s; destruct (saveData_stores now s) as (s' & -> & _) end.
    repeat split.
  - unfold Firebase.updateBookmark. run.
    destruct (find _ _) as [c |]; [| left; reflexivity].
    destruct (find _ (Category.bookmarks c)); [right | left; reflexivity].
    match goal with |- context [Firebase.saveData now ?s] =>
      exists s; destruct (saveData_stores now s) as (s' & -> & _) end.
    repeat split.
  - unfold Firebase.deleteBookmark. run.
    destruct (find _ _) as [c |]; [| left; reflexivity].
    destruct (Model.findIndex _ (Category.bookmarks c)); [right | left; reflexivity].
    match goal with |- context [Firebase.saveData now ?s] =>
      exists s; destruct (saveData_stores now s) as (s' & -> & _) end.
    repeat split.
Qed.


Lemma bookmarkData_key_inj (a b : string) :
  Firebase.bookmarkData_key (Some a) = Firebase.bookmarkData_key (Some b) -> a = b.
Proof.
  unfold Firebase.bookmarkData_key.
  change ("bookmarkData_" ++ a) with
    (String "b" (String "o" (String "o" (String "k" (String "m" (String "a" (String "r"
      (String "k" (String "D" (String "a" (String "t" (String "a" (String "_" a))))))))))))).
  change ("bookmarkData_" ++ b) with
    (String "b" (String "o" (String "o" (String "k" (String "m" (String "a" (String "r"
      (String "k" (String "D" (String "a" (String "t" (String "a" (String "_" b))))))))))))).
  congruence.
Qed.

(** X16. The stored trees of other users are out of reach: in a session
    whose item [userId] is [a], no operation of the store changes what is
    stored for an identifier [b] other than [a]. *)
Theorem perform_keeps_other_users (now : Z) (op : Firebase.Op) st (a b : string) :
  Firebase.ls_userId st = Some a -> a <> b ->
  Firebase.ls_bookmarkData (Firebase.perform now op st) !! Firebase.bookmarkData_key (Some b)
  = Firebase.ls_bookmarkData st !! Firebase.bookmarkData_key (Some b).
Proof.
  intros Ha Hab.
  destruct (perform_saves now op st) as [-> | (s & Hu & Hd & ->)]; [reflexivity |].
  destruct (saveData_persists now s) as (s' & -> & _ & _ & Hother). cbn [snd].
  rewrite Hother, Hd; [reflexivity |].
  rewrite Hu, Ha. intros Heq. apply Hab. symmetry. exact (bookmarkData_key_inj _ _ Heq).
Qed.

(** *** How the operations compose *)

Lemma is_category_make (i n c : string) (bs : list Bookmark.t) :
  Model.is_category i (Category.Make i n c bs) = true.
Proof. apply String.eqb_refl. Qed.

Lemma is_bookmark_make (i n u d : string) :
  Model.is_bookmark i (Bookmark.Make i n u d) = true.
Proof. apply String.eqb_refl. Qed.

(** A search for an identifier stops at the element that carries it. *)
Ltac own_id :=
  unfold Model.set_bookmarks, Model.set_name_color;
  cbn [find Model.update_found Model.findIndex Category.bookmarks];
  rewrite ?is_category_make, ?is_bookmark_make;
  cbn [find Model.update_found Model.findIndex Category.bookmarks option_map].

Lemma find_app_none {A} (p : A -> bool) (l m : list A) :
  (forall z, z ∈ l -> p z = false) -> find p (l ++ m) = find p m.
Proof.
  induction l as [| x l IH]; intros H; simpl; [reflexivity |].
  rewrite (H x) by left. apply IH. intros z Hz. apply H. right. exact Hz.
Qed.

Lemma update_found_app_none {A} (p : A -> bool) (f : A -> A) (l m : list A) :
  (forall z, z ∈ l -> p z = false) ->
  Model.update_found p f (l ++ m) = (l ++ Model.update_found p f m)%list.
Proof.
  induction l as [| x l IH]; intros H; simpl; [reflexivity |].
  rewrite (H x) by left. f_equal. apply IH. intros z Hz. apply H. right. exact Hz.
Qed.

Lemma findIndex_app_none {A} (p : A -> bool) (l m : list A) :
  (forall z, z ∈ l -> p z = false) ->
  Model.findIndex p (l ++ m) = option_map (fun i => (length l + i)%nat) (Model.findIndex p m).
Proof.
  induction l as [| x l IH]; intros H; simpl.
  - destruct (Model.findIndex p m); reflexivity.
  - rewrite (H x) by left. rewrite IH by (intros z Hz; apply H; right; exact Hz).
    destruct (Model.findIndex p m); reflexivity.
Qed.

Lemma unused_category_id (fresh : string) cats :
  fresh ∉ map Category.id cats ->
  forall z, z ∈ cats -> Model.is_category fresh z = false.
Proof.
  intros H z Hz. apply not_true_is_false. intros Heq.
  apply StoreProps.is_category_true in Heq. apply H.
  apply list_elem_of_fmap. exists z. auto.
Qed.

Lemma unused_bookmark_id (fresh : string) (bs : list Bookmark.t) :
  fresh ∉ map Bookmark.id bs ->
  forall z, z ∈ bs -> Model.is_bookmark fresh z = false.
Proof.
  intros H z Hz. apply not_true_is_false. intros Heq.
  apply String.eqb_eq in Heq. apply H. apply list_elem_of_fmap. exists z. auto.
Qed.

(** The tree [addCategory] leaves. *)
Lemma addCategory_tree (fresh : string) (now : Z) (name color : string) st :
  exists st',
    Firebase.addCategory fresh now name color st
    = (Ok (Category.Make fresh name color []), st')
    /\ Firebase.categories st'
       = (Firebase.categories st ++ [Category.Make fresh name color []])%list.
Proof.
  unfold Firebase.addCategory. run.
  match goal with |- context [Firebase.saveData now ?s] =>
    destruct (saveData_stores now s) as (st' & -> & Hc & _) end.
  exists st'. split; [reflexivity | exact Hc].
Qed.

(** X17. A category just added is the one a following [updateCategory]
    changes, provided its identifier was not in use: the update returns
    true, the tree is the old one followed by the category with its new
    name and colour, the same identifier and no bookmark. *)
Theorem updateCategory_after_addCategory (fresh : string) (now later : Z)
    (name color name' color' : string) st :
  fresh ∉ map Category.id (Firebase.categories st) ->
  exists st1 st2,
    Firebase.addCategory fresh now name color st
    = (Ok (Category.Make fresh name color []), st1)
    /\ Firebase.updateCategory later fresh name' color' st1 = (Ok true, st2)
    /\ Firebase.categories st2
       = (Firebase.categories st ++ [Category.Make fresh name' color' []])%list.
Proof.
  intros Hfresh. pose proof (unused_category_id fresh _ Hfresh) as Hno.
  destruct (addCategory_tree fresh now name color st) as (st1 & Hadd & Hc1).
  exists st1. unfold Firebase.updateCategory. run. rewrite Hc1.
  rewrite (find_app_none _ _ _ Hno), (update_found_app_none _ _ _ _ Hno).
  own_id.
  match goal with |- context [Firebase.saveData later ?s] =>
    destruct (saveData_stores later s) as (st2 & -> & Hc2 & _) end.
  exists st2. split; [exact Hadd |]. split; [reflexivity | exact Hc2].
Qed.

(** X18. Adding a category and deleting it gives the tree back, provided
    its identifier was not in use. *)
Theorem deleteCategory_after_addCategory (fresh : string) (now later : Z)
    (name color : string) st :
  fresh ∉ map Category.id (Firebase.categories st) ->
  exists st1 st2,
    Firebase.addCategory fresh now name color st
    = (Ok (Category.Make fresh name color []), st1)
    /\ Firebase.deleteCategory later fresh st1 = (Ok true, st2)
    /\ Firebase.categories st2 = Firebase.categories st.
Proof.
  intros Hfresh. pose proof (unused_category_id fresh _ Hfresh) as Hno.
  destruct (addCategory_tree fresh now name color st) as (st1 & Hadd & Hc1).
  exists st1. unfold Firebase.deleteCategory. run. rewrite Hc1.
  rewrite (findIndex_app_none _ _ _ Hno).
  own_id.
  match goal with |- context [Firebase.saveData later ?s] =>
    destruct (saveData_stores later s) as (st2 & -> & Hc2 & _) end.
  exists st2. split; [exact Hadd |]. split; [reflexivity |].
  rewrite Hc2. cbn [Firebase.categories Firebase.set_categories].
  rewrite Nat.add_0_r, delete_middle. apply app_nil_r.
Qed.

Lemma set_bookmarks_same (c : Category.t) :
  Model.set_bookmarks (Category.bookmarks c) c = c.
Proof. destruct c; reflexivity. Qed.

Lemma find_first {A} (p : A -> bool) (l : list A) (x : A) :
  find p l = Some x ->
  exists before after,
    l = (before ++ x :: after)%list /\ p x = true
    /\ (forall z, z ∈ before -> p z = false).
Proof.
  induction l as [| y l IH]; simpl; [discriminate |].
  destruct (p y) eqn:Hy.
  - intros [= ->]. exists [], l. repeat split; [exact Hy |]. intros z Hz. inversion Hz.
  - intros H. destruct (IH H) as (before & after & -> & Hx & Hb).
    exists (y :: before), after. repeat split; [exact Hx |].
    intros z Hz. apply elem_of_cons in Hz as [-> | Hz]; auto.
Qed.

(** X19. Adding a bookmark and deleting it gives the tree back, provided
    the category exists and the identifier drawn for the bookmark was not
    in use. *)
Theorem deleteBookmark_after_addBookmark (fresh : string) (now later : Z)
    (categoryId name url description : string) st (c : Category.t) :
  c ∈ Firebase.categories st -> Category.id c = categoryId ->
  fresh ∉ map Bookmark.id (Spec.reachable (Firebase.categories st)) ->
  exists b st1 st2,
    Firebase.addBookmark fresh now categoryId name url description st = (Ok (Some b), st1)
    /\ Bookmark.id b = fresh
    /\ Firebase.deleteBookmark later categoryId fresh st1 = (Ok true, st2)
    /\ Firebase.categories st2 = Firebase.categories st.
Proof.
  intros Hin Hid Hfresh.
  destruct (StoreProps.find_category_some _ _ _ Hin Hid) as (found & Hfind & _).
  destruct (find_first _ _ _ Hfind) as (before & after & Hl & Hfound & Hbefore).
  assert (Hbs : forall z, z ∈ Category.bookmarks found -> Model.is_bookmark fresh z = false).
  { apply unused_bookmark_id. intros H. apply Hfresh.
    rewrite Hl, StoreProps.reachable_app, StoreProps.reachable_cons, !map_app.
    apply elem_of_app. right. apply elem_of_app. left. exact H. }
  apply StoreProps.is_category_true in Hfound as Hcid. clear Hid. subst categoryId.
  unfold Firebase.addBookmark. run. rewrite Hfind.
  match goal with |- context [Firebase.saveData now ?s] =>
    destruct (saveData_stores now s) as (st1 & -> & Hc1 & _) end.
  eexists. exists st1. cbn [Firebase.categories Firebase.set_categories] in Hc1.
  rewrite Hl, (update_found_app_none _ _ _ _ Hbefore) in Hc1.
  cbn [Model.update_found] in Hc1. rewrite Hfound in Hc1.
  unfold Firebase.deleteBookmark. run. rewrite Hc1.
  rewrite (find_app_none _ _ _ Hbefore). own_id.
  rewrite (findIndex_app_none _ _ _ Hbs). own_id.
  rewrite (update_found_app_none _ _ _ _ Hbefore). own_id.
  match goal with |- context [Firebase.saveData later ?s] =>
    destruct (saveData_stores later s) as (st2 & -> & Hc2 & _) end.
  exists st2. split; [reflexivity |]. split; [reflexivity |]. split; [reflexivity |].
  rewrite Hc2. cbn [Firebase.categories Firebase.set_categories Category.name Category.color
                      Category.id Category.bookmarks].
  rewrite Nat.add_0_r, delete_middle, app_nil_r, Hl.
  do 2 f_equal. destruct found; reflexivity.
Qed.

Lemma count_bookmarks (cats : list Category.t) (n : nat) :
  fold_left (fun sum cat => (sum + length (Category.bookmarks cat))%nat) cats n
  = (n + length (Spec.reachable cats))%nat.
Proof.
  revert n. induction cats as [| c cats IH]; intros n; cbn [fold_left].
  - cbn. lia.
  - rewrite IH, StoreProps.reachable_cons, length_app. lia.
Qed.

(** X20. [getStats] counts the categories of the tree and the bookmarks a
    read reaches, and changes nothing.  [addCategory] raises the first
    count by one and keeps the second; [addBookmark] on a category that
    exists keeps the first and raises the second by one. *)
Theorem getStats_counts (fresh : string) (now : Z) (categoryId name url description color : string)
    st :
  Firebase.getStats st
  = (Ok {| Firebase.categoryCount := length (Firebase.categories st);
           Firebase.bookmarkCount := length (Spec.reachable (Firebase.categories st)) |}, st)
  /\ fst (Firebase.getStats (snd (Firebase.addCategory fresh now name color st)))
     = Ok {| Firebase.categoryCount := S (length (Firebase.categories st));
             Firebase.bookmarkCount := length (Spec.reachable (Firebase.categories st)) |}
  /\ ((exists c, c ∈ Firebase.categories st /\ Category.id c = categoryId) ->
      fst (Firebase.getStats
             (snd (Firebase.addBookmark fresh now categoryId name url description st)))
      = Ok {| Firebase.categoryCount := length (Firebase.categories st);
              Firebase.bookmarkCount :=
                S (length (Spec.reachable (Firebase.categories st))) |}).
Proof.
  assert (Hstats : forall s,
            Firebase.getStats s
            = (Ok {| Firebase.categoryCount := length (Firebase.categories s);
                     Firebase.bookmarkCount := length (Spec.reachable (Firebase.categories s)) |},
               s)).
  { intros s. unfold Firebase.getStats. run. rewrite count_bookmarks. reflexivity. }
  split; [apply Hstats |]. split.
  - destruct (addCategory_tree fresh now name color st) as (st1 & -> & Hc1).
    cbn [snd]. rewrite Hstats, Hc1, StoreProps.reachable_app, !length_app. cbn.
    f_equal. f_equal; lia.
  - intros (c & Hin & Hid).
    destruct (StoreProps.find_category_some _ _ _ Hin Hid) as (found & Hfind & _).
    destruct (find_first _ _ _ Hfind) as (before & after & Hl & Hfound & Hbefore).
    unfold Firebase.addBookmark. run. rewrite Hfind.
    match goal with |- context [Firebase.saveData now ?s] =>
      destruct (saveData_stores now s) as (st1 & -> & Hc1 & _) end.
    cbn [snd]. rewrite Hstats, Hc1. cbn [Firebase.categories Firebase.set_categories].
    rewrite Hl, (update_found_app_none _ _ _ _ Hbefore). cbn [Model.update_found].
    rewrite Hfound, !StoreProps.reachable_app, !StoreProps.reachable_cons.
    cbn [Category.bookmarks Model.set_bookmarks]. rewrite !length_app. cbn [length fst].
    f_equal. f_equal. lia.
Qed.

(** *** Reordering by drag and drop *)

Lemma splice_in_Permutation {A} (j : nat) (x : A) (l : list A) :
  Firebase.splice_in j x l ≡ₚ x :: l.
Proof.
  unfold Firebase.splice_in. rewrite <- Permutation_middle, take_drop. reflexivity.
Qed.

Lemma move_Permutation {A} (undefined : A) (i j : nat) (l : list A) :
  (i < length l)%nat -> Firebase.move undefined i j l ≡ₚ l.
Proof.
  intros Hi. destruct (lookup_lt_is_Some_2 l i Hi) as [x Hx].
  unfold Firebase.move. rewrite (nth_lookup_Some _ _ undefined _ Hx).
  rewrite splice_in_Permutation. symmetry. apply delete_Permutation. exact Hx.
Qed.

(** X21. Moving the element at an index within the array reorders it: the
    result holds the same elements, the moved one sits at the target index
    (at the end when the target index is beyond it), and the others keep
    their order. *)
Theorem move_reorders {A} (undefined : A) (i j : nat) (l : list A) :
  (i < length l)%nat ->
  let landed := (j `min` (length l - 1))%nat in
  Firebase.move undefined i j l ≡ₚ l
  /\ Firebase.move undefined i j l !! landed = l !! i
  /\ delete landed (Firebase.move undefined i j l) = delete i l.
Proof.
  intros Hi landed. split; [apply move_Permutation; exact Hi |].
  destruct (lookup_lt_is_Some_2 l i Hi) as [x Hx].
  assert (Hlen : length (take j (delete i l)) = landed).
  { rewrite length_take, length_delete by eauto. reflexivity. }
  unfold Firebase.move. rewrite (nth_lookup_Some _ _ undefined _ Hx).
  unfold Firebase.splice_in. split.
  - rewrite Hx. apply list_lookup_middle. symmetry. exact Hlen.
  - rewrite <- Hlen, delete_middle. apply take_drop.
Qed.

Lemma ids_unique_Permutation (cats cats' : list Category.t) :
  cats ≡ₚ cats' -> Spec.ids_unique cats -> Spec.ids_unique cats'.
Proof.
  intros Hp [Hc Hb]. split.
  - rewrite <- (Permutation_map Category.id Hp). exact Hc.
  - assert (Hr : Spec.reachable cats ≡ₚ Spec.reachable cats')
      by (unfold Spec.reachable; apply Permutation_flat_map; exact Hp).
    rewrite <- (Permutation_map Bookmark.id Hr). exact Hb.
Qed.

(** X22. Dropping a category that was dragged from an index within the
    array keeps the categories, and with them the uniqueness of the
    identifiers; dropping it where it was taken changes nothing. *)
Theorem dropCategory_reorders (undefined : Category.t) (i targetIndex : nat)
    (cats : list Category.t) :
  (i < length cats)%nat ->
  Firebase.dropCategory undefined (Some i) targetIndex cats ≡ₚ cats
  /\ (Spec.ids_unique cats ->
      Spec.ids_unique (Firebase.dropCategory undefined (Some i) targetIndex cats))
  /\ Firebase.dropCategory undefined (Some i) i cats = cats.
Proof.
  intros Hi.
  assert (Hp : Firebase.dropCategory undefined (Some i) targetIndex cats ≡ₚ cats).
  { unfold Firebase.dropCategory. destruct (i =? targetIndex)%nat; cbn [negb].
    - reflexivity.
    - apply move_Permutation. exact Hi. }
  split; [exact Hp |]. split.
  - apply ids_unique_Permutation. symmetry. exact Hp.
  - unfold Firebase.dropCategory. rewrite Nat.eqb_refl. reflexivity.
Qed.

(** X23. Dropping a bookmark within its category, dragged from an index
    within the category's array, changes the order of that category's
    bookmarks only: the categories keep their identifiers and their order,
    the bookmarks of the tree are the same, and identifiers stay unique. *)
Theorem dropBookmark_reorders (undefined : Bookmark.t) (categoryId : string)
    (sourceIndex targetIndex : nat) (cats : list Category.t) (c : Category.t) :
  find (Model.is_category categoryId) cats = Some c ->
  (sourceIndex < length (Category.bookmarks c))%nat ->
  let dropped :=
    Firebase.dropBookmark undefined (Some (categoryId, sourceIndex)) categoryId targetIndex cats in
  map Category.id dropped = map Category.id cats
  /\ Spec.reachable dropped ≡ₚ Spec.reachable cats
  /\ (Spec.ids_unique cats -> Spec.ids_unique dropped).
Proof.
  intros Hfind Hi dropped.
  destruct (find_first _ _ _ Hfind) as (before & after & Hl & Hc & Hbefore).
  assert (Hshape : dropped = cats
                   \/ dropped
                      = (before
                         ++ Model.set_bookmarks
                              (Firebase.move undefined sourceIndex targetIndex
                                 (Category.bookmarks c)) c
                         :: after)%list).
  { unfold dropped, Firebase.dropBookmark. rewrite String.eqb_refl.
    destruct (sourceIndex =? targetIndex)%nat; cbn [negb andb]; [left; reflexivity |].
    right. rewrite Hl, (update_found_app_none _ _ _ _ Hbefore).
    cbn [Model.update_found]. rewrite Hc. reflexivity. }
  assert (Hids : map Category.id dropped = map Category.id cats).
  { destruct Hshape as [-> | ->]; [reflexivity |]. rewrite Hl, !map_app. reflexivity. }
  assert (Hreach : Spec.reachable dropped ≡ₚ Spec.reachable cats).
  { destruct Hshape as [-> | ->]; [reflexivity |].
    rewrite Hl, !StoreProps.reachable_app, !StoreProps.reachable_cons.
    cbn [Model.set_bookmarks Category.bookmarks].
    apply Permutation_app; [reflexivity |]. apply Permutation_app; [| reflexivity].
    apply move_Permutation. exact Hi. }
  split; [exact Hids |]. split; [exact Hreach |].
  intros [Hu1 Hu2]. split.
  - rewrite Hids. exact Hu1.
  - rewrite (Permutation_map Bookmark.id Hreach). exact Hu2.
Qed.

(** *** Export and import *)

Lemma category_json_named (c : Category.t) :
  Spec.named_with_bookmarks (Firebase.category_json c) <-> Category.name c <> "".
Proof.
  unfold Spec.named_with_bookmarks, Firebase.category_json. split.
  - intros (fields & [= <-] & Hname & _) Hempty. cbn in Hname. rewrite Hempty in Hname.
    discriminate.
  - intros Hname. eexists. split; [reflexivity |]. cbn. split; [| reflexivity].
    apply IdentityProps.nonempty_truthy. exact Hname.
Qed.

(** X24. The text [exportData] writes is accepted by [importData], in any
    session, exactly when no category of the exported tree has an empty
    name: then the import returns true and installs the exported
    categories; with an empty name among them it returns false and changes
    nothing. *)
Theorem import_of_export (now : Z) (st : Firebase.State (list Category.t))
    (session : Firebase.State json) :
  exists text,
    Firebase.exportData st = (Ok text, st)
    /\ ((forall c, c ∈ Firebase.categories st -> Category.name c <> "") ->
        exists session',
          Firebase.importData now text session = (Ok true, session')
          /\ Firebase.categories session'
             = JArray (map Firebase.category_json (Firebase.categories st)))
    /\ ((exists c, c ∈ Firebase.categories st /\ Category.name c = "") ->
        Firebase.importData now text session = (Ok false, session)).
Proof.
  eexists. split; [reflexivity |]. split.
  - intros Hnames.
    destruct (ImportProps.importData_accepts now
                (map Firebase.category_json (Firebase.categories st)) session)
      as (session' & Himport & Hcats & _).
    + apply Forall_forall. intros v Hv.
      apply list_elem_of_fmap in Hv as (c & -> & Hc).
      apply category_json_named. apply Hnames. exact Hc.
    + exists session'. split; assumption.
  - intros (c & Hc & Hempty). apply ImportProps.importData_rejects.
    intros (items & [= <-] & Hall).
    rewrite Forall_forall in Hall.
    apply (category_json_named c); [| exact Hempty].
    apply Hall. apply list_elem_of_fmap. exists c. auto.
Qed.

(** The tree [addBookmark] leaves when the category is found. *)
Lemma addBookmark_tree (fresh : string) (now : Z) (categoryId name url description : string)
    st (before after : list Category.t) (found : Category.t) :
  Firebase.categories st = (before ++ found :: after)%list ->
  Model.is_category categoryId found = true ->
  (forall z, z ∈ before -> Model.is_category categoryId z = false) ->
  let b := Bookmark.Make fresh name (Firebase.normalize_url url) (Model.or_empty description) in
  exists st',
    Firebase.addBookmark fresh now categoryId name url description st = (Ok (Some b), st')
    /\ Firebase.categories st'
       = (before
          ++ Category.Make (Category.id found) (Category.name found) (Category.color found)
               (Category.bookmarks found ++ [b])
          :: after)%list.
Proof.
  intros Hl Hfound Hbefore b.
  unfold Firebase.addBookmark. run. rewrite Hl, (find_app_none _ _ _ Hbefore).
  cbn [find]. rewrite Hfound.
  match goal with |- context [Firebase.saveData now ?s] =>
    destruct (saveData_stores now s) as (st' & -> & Hc & _) end.
  exists st'. split; [reflexivity |]. rewrite Hc.
  cbn [Firebase.categories Firebase.set_categories].
  rewrite (update_found_app_none _ _ _ _ Hbefore). cbn [Model.update_found].
  rewrite Hfound. reflexivity.
Qed.

(** X28. A bookmark just added is the one a following [updateBookmark]
    changes, provided the category exists and the identifier drawn was not
    in use: the update returns true and leaves the tree that adding the
    bookmark with the new name, url and description would have left, the
    url normalised in the same way. *)
Theorem updateBookmark_after_addBookmark (fresh : string) (now later : Z)
    (categoryId name url description name' url' description' : string) st (c : Category.t) :
  c ∈ Firebase.categories st -> Category.id c = categoryId ->
  fresh ∉ map Bookmark.id (Spec.reachable (Firebase.categories st)) ->
  exists b st1 st2,
    Firebase.addBookmark fresh now categoryId name url description st = (Ok (Some b), st1)
    /\ Firebase.updateBookmark later categoryId fresh name' url' description' st1
       = (Ok true, st2)
    /\ Firebase.categories st2
       = Firebase.categories
           (snd (Firebase.addBookmark fresh now categoryId name' url' description' st)).
Proof.
  intros Hin Hid Hfresh.
  destruct (StoreProps.find_category_some _ _ _ Hin Hid) as (found & Hfind & _).
  destruct (find_first _ _ _ Hfind) as (before & after & Hl & Hfound & Hbefore).
  assert (Hbs : forall z, z ∈ Category.bookmarks found -> Model.is_bookmark fresh z = false).
  { apply unused_bookmark_id. intros H. apply Hfresh.
    rewrite Hl, StoreProps.reachable_app, StoreProps.reachable_cons, !map_app.
    apply elem_of_app. right. apply elem_of_app. left. exact H. }
  apply StoreProps.is_category_true in Hfound as Hcid. clear Hid. subst categoryId.
  destruct (addBookmark_tree fresh now (Category.id found) name url description
              st before after found Hl Hfound Hbefore) as (st1 & Hadd & Hc1).
  destruct (addBookmark_tree fresh now (Category.id found) name' url' description'
              st before after found Hl Hfound Hbefore) as (st1' & Hadd' & Hc1').
  rewrite Hadd, Hadd'. cbn [snd]. rewrite Hc1'.
  eexists. exists st1. unfold Firebase.updateBookmark. run. rewrite Hc1.
  rewrite (find_app_none _ _ _ Hbefore). own_id.
  rewrite (find_app_none _ _ _ Hbs). own_id.
  rewrite (update_found_app_none _ _ _ _ Hbefore). own_id.
  rewrite (update_found_app_none _ _ _ _ Hbs). own_id.
  match goal with |- context [Firebase.saveData later ?s] =>
    destruct (saveData_stores later s) as (st2 & -> & Hc2 & _) end.
  exists st2. split; [reflexivity |]. split; [reflexivity |].
  rewrite Hc2. reflexivity.
Qed.

(** X29. Normalising a url twice is normalising it once, and a normalised
    url starts with "http://" or "https://": an edit that hands a stored
    url back to [updateBookmark] keeps it. *)
Theorem normalize_url_idempotent (url : string) :
  Firebase.normalize_url (Firebase.normalize_url url) = Firebase.normalize_url url
  /\ (Js.startsWith "http://" (Firebase.normalize_url url)
      || Js.startsWith "https://" (Firebase.normalize_url url)) = true.
Proof.
  assert (Hscheme : (Js.startsWith "http://" (Firebase.normalize_url url)
                     || Js.startsWith "https://" (Firebase.normalize_url url)) = true).
  { unfold Firebase.normalize_url.
    destruct (Js.startsWith "http://" url) eqn:H1; cbn [negb andb];
      [rewrite H1; reflexivity |].
    destruct (Js.startsWith "https://" url) eqn:H2; cbn [negb andb];
      [rewrite H2; apply orb_true_r |].
    apply orb_true_iff. right. apply JsProps.startsWith_spec. exists url. reflexivity. }
  split; [| exact Hscheme].
  unfold Firebase.normalize_url at 1.
  apply orb_true_iff in Hscheme as [-> | ->]; cbn [negb andb]; [reflexivity |].
  rewrite andb_false_r. reflexivity.
Qed.

(** *** Runs *)


(** *** Instances *)

Ltac by_computation := apply (bool_decide_unpack _); vm_compute; exact I.


Lemma perform_keeps_other_users_witness :
  Firebase.ls_bookmarkData
    (Firebase.perform 1730556006000 (Firebase.DeleteCategory "c1") Examples.alice_edited)
    !! Firebase.bookmarkData_key (Some "user_bob")
  = Firebase.ls_bookmarkData Examples.alice_edited !! Firebase.bookmarkData_key (Some "user_bob").
Proof.
  apply (perform_keeps_other_users 1730556006000 (Firebase.DeleteCategory "c1")
           Examples.alice_edited "user_alice" "user_bob").
  - vm_compute. reflexivity.
  - discriminate.
Defined.

Lemma updateCategory_after_addCategory_witness :
  exists st1 st2,
    Firebase.addCategory "c3" 1730556005000 "Study" "#9C27B0" Examples.alice_syncing
    = (Ok (Category.Make "c3" "Study" "#9C27B0" []), st1)
    /\ Firebase.updateCategory 1730556006000 "c3" "Learning" "#000000" st1 = (Ok true, st2)
    /\ Firebase.categories st2
       = (Firebase.categories Examples.alice_syncing
          ++ [Category.Make "c3" "Learning" "#000000" []])%list.
Proof.
  apply (updateCategory_after_addCategory "c3" 1730556005000 1730556006000 "Study" "#9C27B0"
           "Learning" "#000000" Examples.alice_syncing).
  by_computation.
Defined.

Lemma deleteCategory_after_addCategory_witness :
  exists st1 st2,
    Firebase.addCategory "c3" 1730556005000 "Study" "#9C27B0" Examples.alice_syncing
    = (Ok (Category.Make "c3" "Study" "#9C27B0" []), st1)
    /\ Firebase.deleteCategory 1730556006000 "c3" st1 = (Ok true, st2)
    /\ Firebase.categories st2 = Firebase.categories Examples.alice_syncing.
Proof.
  apply (deleteCategory_after_addCategory "c3" 1730556005000 1730556006000 "Study" "#9C27B0"
           Examples.alice_syncing).
  by_computation.
Defined.

Lemma deleteBookmark_after_addBookmark_witness :
  exists b st1 st2,
    Firebase.addBookmark "b9" 1730556005000 "c2" "Zoom" "zoom.us" "" Examples.alice_syncing
    = (Ok (Some b), st1)
    /\ Bookmark.id b = "b9"
    /\ Firebase.deleteBookmark 1730556006000 "c2" "b9" st1 = (Ok true, st2)
    /\ Firebase.categories st2 = Firebase.categories Examples.alice_syncing.
Proof.
  apply (deleteBookmark_after_addBookmark "b9" 1730556005000 1730556006000 "c2" "Zoom"
           "zoom.us" "" Examples.alice_syncing Examples.work).
  - vm_compute. right. left.
  - reflexivity.
  - by_computation.
Defined.

Lemma updateBookmark_after_addBookmark_witness :
  exists b st1 st2,
    Firebase.addBookmark "b9" 1730556005000 "c2" "Zoom" "zoom.us" "" Examples.alice_syncing
    = (Ok (Some b), st1)
    /\ Firebase.updateBookmark 1730556006000 "c2" "b9" "Meet" "meet.google.com" "Calls" st1
       = (Ok true, st2)
    /\ Firebase.categories st2
       = Firebase.categories
           (snd (Firebase.addBookmark "b9" 1730556005000 "c2" "Meet" "meet.google.com" "Calls"
                   Examples.alice_syncing)).
Proof.
  apply (updateBookmark_after_addBookmark "b9" 1730556005000 1730556006000 "c2" "Zoom"
           "zoom.us" "" "Meet" "meet.google.com" "Calls" Examples.alice_syncing Examples.work).
  - vm_compute. right. left.
  - reflexivity.
  - by_computation.
Defined.


Lemma move_reorders_witness :
  Firebase.move Examples.work 0 1 Examples.tree = [Examples.work; Examples.hobby]
  /\ Firebase.move Examples.work 0 1 Examples.tree ≡ₚ Examples.tree.
Proof.
  assert (Hi : (0 < length Examples.tree)%nat) by (simpl; lia).
  pose proof (move_reorders Examples.work 0 1 Examples.tree Hi) as H. cbv zeta in H.
  destruct H as (Hp & _ & _). split; [reflexivity | exact Hp].
Defined.

Lemma dropCategory_reorders_witness :
  Firebase.dropCategory Examples.work (Some 0%nat) 1 Examples.tree ≡ₚ Examples.tree.
Proof.
  destruct (dropCategory_reorders Examples.work 0 1 Examples.tree) as (Hp & _ & _).
  - simpl. lia.
  - exact Hp.
Defined.

Lemma dropBookmark_reorders_witness :
  map Category.id (Firebase.dropBookmark (Bookmark.Make "" "" "" "") (Some ("c1", 0%nat))
                     "c1" 1 Examples.tree)
  = map Category.id Examples.tree.
Proof.
  pose proof (dropBookmark_reorders (Bookmark.Make "" "" "" "") "c1" 0 1 Examples.tree
                Examples.hobby) as H.
  cbv zeta in H. destruct H as (Hids & _ & _).
  - vm_compute. reflexivity.
  - simpl. lia.
  - exact Hids.
Defined.

End TreeProps.

(** ** The application that only uses [localStorage] *)
Module SimpleProps.
Local Open Scope js_scope.

Lemma saveData_logged_in {Data} (u : string) (s : Simple.State Data) :
  Simple.ls_currentUserId s = Some u -> u <> "" ->
  Simple.saveData s
  = (Ok tt, Simple.set_ls_bookmarkData
              (<["bookmarkData_" ++ u := Simple.data s]> (Simple.ls_bookmarkData s)) s).
Proof.
  intros Hu Hne. unfold Simple.saveData. run. rewrite Hu.
  rewrite (IdentityProps.nonempty_truthy _ Hne). reflexivity.
Qed.

Lemma saveData_logged_out {Data} (s : Simple.State Data) :
  Simple.ls_currentUserId s = None -> Simple.saveData s = (Ok tt, s).
Proof. intros Hu. unfold Simple.saveData. run. rewrite Hu. reflexivity. Qed.

(** X25. After [logout] the data model still edits the data in memory but
    stores nothing: [addCategory] returns the new category and appends it,
    and [localStorage] keeps what it held. *)
Theorem simple_edit_after_logout_not_stored (fresh name color : string)
    (s : Simple.State Simple.Data) :
  exists s1,
    Simple.addCategory fresh name color (snd (Simple.logout s))
    = (Ok (Category.Make fresh name (Simple.or_green color) []), s1)
    /\ Simple.categories (Simple.data s1)
       = (Simple.categories (Simple.data s)
          ++ [Category.Make fresh name (Simple.or_green color) []])%list
    /\ Simple.ls_bookmarkData s1 = Simple.ls_bookmarkData s.
Proof.
  unfold Simple.addCategory, Simple.logout. run. cbn [snd].
  rewrite saveData_logged_out by reflexivity.
  eexists. split; [reflexivity |]. split; reflexivity.
Qed.

(** X26. With a user logged in, what [saveData] stored is what [loadData]
    reads back, whatever the data in memory has become meanwhile, and the
    default data are not used. *)
Theorem simple_loadData_after_saveData (u id1 id2 id3 id4 : string) (meanwhile : Simple.Data)
    (s : Simple.State Simple.Data) :
  Simple.ls_currentUserId s = Some u -> u <> "" ->
  exists s1 s2,
    Simple.saveData s = (Ok tt, s1)
    /\ Simple.loadData id1 id2 id3 id4 (Simple.set_data meanwhile s1) = (Ok tt, s2)
    /\ Simple.data s2 = Simple.data s
    /\ Simple.ls_bookmarkData s2 = Simple.ls_bookmarkData s1.
Proof.
  intros Hu Hne. rewrite (saveData_logged_in u s Hu Hne).
  eexists. eexists. split; [reflexivity |].
  unfold Simple.loadData. run.
  cbn [Simple.ls_currentUserId Simple.set_data Simple.set_ls_bookmarkData
         Simple.ls_bookmarkData].
  rewrite Hu, (IdentityProps.nonempty_truthy _ Hne). cbn [negb].
  rewrite lookup_insert_eq.
  erewrite saveData_logged_in by (try exact Hne; cbn; exact Hu).
  split; [reflexivity |]. split; [reflexivity |].
  cbn. apply insert_insert_eq.
Qed.

(** *** The two data models compared *)

Lemma filter_keeps_all {A} (p : A -> bool) (l : list A) :
  (forall x, x ∈ l -> p x = false) -> List.filter (fun x => negb (p x)) l = l.
Proof.
  induction l as [| y l IH]; intros H; [reflexivity |].
  cbn [List.filter]. rewrite (H y) by left. cbn [negb]. f_equal.
  apply IH. intros x Hx. apply H. right. exact Hx.
Qed.

Lemma filter_is_delete {A} (p : A -> bool) (key : A -> string) (k : string) (l : list A) :
  (forall x, p x = String.eqb (key x) k) ->
  NoDup (map key l) ->
  List.filter (fun x => negb (p x)) l
  = match Model.findIndex p l with
    | Some index => delete index l
    | None => l
    end.
Proof.
  intros Hp. induction l as [| x l IH]; intros Hnd; [reflexivity |].
  cbn [map] in Hnd. apply NoDup_cons in Hnd as [Hx Hnd].
  cbn [List.filter Model.findIndex]. destruct (p x) eqn:Hpx; cbn [negb].
  - rewrite Hp in Hpx. apply String.eqb_eq in Hpx.
    change (delete 0%nat (x :: l)) with l. apply filter_keeps_all.
    intros y Hy. apply not_true_is_false. rewrite Hp. intros Hpy.
    apply String.eqb_eq in Hpy. apply Hx. apply list_elem_of_fmap. exists y.
    split; [congruence | exact Hy].
  - rewrite (IH Hnd). destruct (Model.findIndex p l); reflexivity.
Qed.

(** X27. The two data models delete a category differently: the first
    removes the first category found with the identifier, the second every
    category that has it.  On a tree whose category identifiers are
    unique they leave the same categories. *)
Theorem deleteCategory_agree (now : Z) (categoryId : string)
    (st : Firebase.State (list Category.t)) (s : Simple.State Simple.Data) :
  Firebase.categories st = Simple.categories (Simple.data s) ->
  NoDup (map Category.id (Firebase.categories st)) ->
  Firebase.categories (snd (Firebase.deleteCategory now categoryId st))
  = Simple.categories (Simple.data (snd (Simple.deleteCategory categoryId s))).
Proof.
  intros Hsame Hnd.
  assert (Hsimple : Simple.categories (Simple.data (snd (Simple.deleteCategory categoryId s)))
                    = List.filter (fun c => negb (Model.is_category categoryId c))
                        (Simple.categories (Simple.data s))).
  { unfold Simple.deleteCategory, Simple.saveData. run.
    cbn [Simple.ls_currentUserId Simple.set_data].
    destruct (Simple.ls_currentUserId s) as [u |]; [| reflexivity].
    destruct (negb (Js.truthy u)); reflexivity. }
  rewrite Hsimple, <- Hsame.
  rewrite (filter_is_delete _ Category.id categoryId) by (reflexivity || exact Hnd).
  unfold Firebase.deleteCategory. run.
  destruct (Model.findIndex (Model.is_category categoryId) (Firebase.categories st));
    [| reflexivity].
  match goal with |- context [Firebase.saveData now ?x] =>
    destruct (TreeProps.saveData_stores now x) as (st' & -> & Hc & _) end.
  cbn [snd]. rewrite Hc. reflexivity.
Qed.

Lemma simple_loadData_after_saveData_witness :
  exists s1 s2,
    Simple.saveData Examples.alice_simple = (Ok tt, s1)
    /\ Simple.loadData "d1" "d2" "d3" "d4"
         (Simple.set_data {| Simple.categories := [] |} s1)
       = (Ok tt, s2)
    /\ Simple.data s2 = Simple.data Examples.alice_simple
    /\ Simple.ls_bookmarkData s2 = Simple.ls_bookmarkData s1.
Proof.
  apply (simple_loadData_after_saveData "user_alice" "d1" "d2" "d3" "d4"
           {| Simple.categories := [] |} Examples.alice_simple).
  - vm_compute. reflexivity.
  - discriminate.
Defined.

Lemma deleteCategory_agree_witness :
  Firebase.categories (snd (Firebase.deleteCategory 1730556005000 "c1" Examples.online))
  = Simple.categories (Simple.data (snd (Simple.deleteCategory "c1" Examples.simple))).
Proof.
  apply (deleteCategory_agree 1730556005000 "c1" Examples.online Examples.simple).
  - reflexivity.
  - apply (bool_decide_unpack _). vm_compute. exact I.
Defined.

End SimpleProps.
